(** * MoCast (momentum_screencast_overlay): a shallow embedding

    The add-on's Python sources are embedded module by module:
    - [Py]       the fragments of Python's runtime the code relies on
                 (float comparison helpers, [str] methods, list slicing);
    - [Rna]      the settings property group declared in [msc_ui.py];
    - [Events]   [msc_events.py]: module state, labels, layout, modal capture;
    - [Presets]  [msc_presets.py]: settings <-> dict and preset names.

    Python [float] is IEEE 754 binary64 and is embedded as Rocq's primitive
    [float]; Python [int] is [Z]; [dict]/[set] used as maps and sets are
    stdpp's [gmap]/[gset]; a [dict] whose iteration order matters is an
    association list. *)

From Stdlib Require Import ZArith List String Ascii Bool Lia Floats Sorted.
From stdpp Require Import base option list gmap sets strings pretty.

Set Default Proof Using "Type".
Set Warnings "-inexact-float,-register-all".
Local Open Scope Z_scope.

(* ================================================================== *)
(** * Python runtime fragments *)
(* ================================================================== *)

Module Py.

(** [max(a, b)] and [min(a, b)] on floats: Python keeps the first argument
    unless the second compares strictly greater (smaller). *)
Definition fmax (a b : float) : float := if PrimFloat.ltb a b then b else a.
Definition fmin (a b : float) : float := if PrimFloat.ltb b a then b else a.

(** [max]/[min] on ints. *)
Definition imax (a b : Z) : Z := if a <? b then b else a.
Definition imin (a b : Z) : Z := if b <? a then b else a.

(** [s.startswith(p)] and [s.endswith(p)]. *)
Definition startswith (s p : string) : bool := String.prefix p s.

Definition endswith (s p : string) : bool :=
  let n := String.length s in
  let k := String.length p in
  if (k <=? n)%nat then String.eqb (String.substring (n - k) k s) p else false.

(** Membership in a constant collection of strings. *)
Definition mem (x : string) (l : list string) : bool := existsb (String.eqb x) l.

(** Character classes of ASCII text (event types, operator ids and the
    like are ASCII; other bytes are left alone by the case mappings). *)
Definition is_digit (c : ascii) : bool :=
  let n := nat_of_ascii c in (48 <=? n)%nat && (n <=? 57)%nat.
Definition is_upper (c : ascii) : bool :=
  let n := nat_of_ascii c in (65 <=? n)%nat && (n <=? 90)%nat.
Definition is_lower (c : ascii) : bool :=
  let n := nat_of_ascii c in (97 <=? n)%nat && (n <=? 122)%nat.
Definition is_space (c : ascii) : bool :=
  let n := nat_of_ascii c in
  ((9 <=? n)%nat && (n <=? 13)%nat) || ((28 <=? n)%nat && (n <=? 32)%nat).
Definition to_upper (c : ascii) : ascii :=
  if is_lower c then ascii_of_nat (nat_of_ascii c - 32) else c.
Definition to_lower (c : ascii) : ascii :=
  if is_upper c then ascii_of_nat (nat_of_ascii c + 32) else c.

Fixpoint str_map (f : ascii -> ascii) (s : string) : string :=
  match s with
  | EmptyString => EmptyString
  | String c r => String (f c) (str_map f r)
  end.

Fixpoint str_forallb (f : ascii -> bool) (s : string) : bool :=
  match s with
  | EmptyString => true
  | String c r => f c && str_forallb f r
  end.

(** [s.isdigit()], for ASCII digits. *)
Definition isdigit (s : string) : bool :=
  negb (String.eqb s "") && str_forallb is_digit s.

(** [s.replace(a, b)] for single characters. *)
Definition replace_char (a b : ascii) (s : string) : string :=
  str_map (fun c => if Ascii.eqb c a then b else c) s.

(** [s.title()]: a letter is upper-cased when the previous character is not
    a letter, lower-cased otherwise. *)
Fixpoint title_from (prev_cased : bool) (s : string) : string :=
  match s with
  | EmptyString => EmptyString
  | String c r =>
      if is_upper c || is_lower c
      then String (if prev_cased then to_lower c else to_upper c) (title_from true r)
      else String c (title_from false r)
  end.
Definition title (s : string) : string := title_from false s.

(** [s.capitalize()] *)
Definition capitalize (s : string) : string :=
  match s with
  | EmptyString => EmptyString
  | String c r => String (to_upper c) (str_map to_lower r)
  end.

(** [s.split(sep)[-1]]: what follows the last separator. *)
Fixpoint split_last_from (sep : ascii) (acc s : string) : string :=
  match s with
  | EmptyString => acc
  | String c r =>
      if Ascii.eqb c sep then split_last_from sep r r
      else split_last_from sep acc r
  end.
Definition split_last (sep : ascii) (s : string) : string := split_last_from sep s s.

(** [s.split(sep, 1)[1]]: what follows the first separator, if there is one. *)
Fixpoint split_after_first (sep : ascii) (s : string) : option string :=
  match s with
  | EmptyString => None
  | String c r => if Ascii.eqb c sep then Some r else split_after_first sep r
  end.

(** [s.strip()], for the whitespace of ASCII (the white space above ASCII,
    which Python strips too, is not recognised in this byte
    representation). *)
Fixpoint lstrip (s : string) : string :=
  match s with
  | String c r => if is_space c then lstrip r else s
  | EmptyString => EmptyString
  end.
Definition strip (s : string) : string :=
  String.rev (lstrip (String.rev (lstrip s))).

(** The characters of a [str] held as UTF-8 bytes: a byte [10xxxxxx]
    continues the character before it. *)
Definition is_continuation (c : ascii) : bool :=
  let n := nat_of_ascii c in (128 <=? n)%nat && (n <? 192)%nat.

Fixpoint chars_from (cur : string) (s : string) : list string :=
  match s with
  | EmptyString => if String.eqb cur "" then [] else [cur]
  | String c r =>
      if is_continuation c || String.eqb cur ""
      then chars_from (cur +:+ String c "") r
      else cur :: chars_from (String c "") r
  end.
Definition chars (s : string) : list string := chars_from "" s.

(** [sep.join(l)] *)
Fixpoint join (sep : string) (l : list string) : string :=
  match l with
  | [] => ""
  | [x] => x
  | x :: r => x +:+ sep +:+ join sep r
  end.

(** [float(n)] for an int [n]: the nearest binary64, ties to even (an
    infinity where Python raises [OverflowError]). *)
Definition float_of_Z (z : Z) : float :=
  SF2Prim (binary_normalize prec emax z 0 false).

(** [int(x)] for a finite float [x]: truncation toward zero (Python raises
    on an infinity or a NaN, for which this returns 0). *)
Definition int_of_float (x : float) : Z :=
  match Prim2SF x with
  | S754_finite sg m e =>
      let a := if 0 <=? e then Z.pos m * 2 ^ e else Z.pos m / 2 ^ (- e) in
      if sg then - a else a
  | _ => 0
  end.

(** [l[i:]] with a possibly negative start index. *)
Definition slice_from {A} (i : Z) (l : list A) : list A :=
  let n := Z.of_nat (length l) in
  let start := if i <? 0 then Z.max 0 (n + i) else Z.min i n in
  drop (Z.to_nat start) l.

End Py.

(* ================================================================== *)
(** * The settings property group ([msc_ui.py], class [MSC_Settings]) *)
(* ================================================================== *)

Module Rna.

(** Values that travel through a preset dict (the JSON data model). *)
Inductive value :=
| VNone
| VBool (b : bool)
| VInt (z : Z)
| VFloat (f : float)
| VStr (s : string)
| VSeq (l : list value)
| VDict (d : list (string * value)).

(** The statically declared properties of the group.  [active_preset], a
    dynamic enum over the preset files on disk whose update callback loads
    a file, stays with the host (see [Presets.setattr]). *)
Record MSC_Settings := mkSettings {
  ui_show_advanced : bool;
  show_title : bool;
  title_text : string;
  title_icon_mode : string;
  title_builtin_icon : string;
  title_icon_path : string;
  title_icon_auto : bool;
  title_icon_size : Z;
  title_icon_pad : Z;
  title_font_size : Z;
  title_text_color : list float;
  font_size : Z;
  bg_color : list float;
  bg_opacity : float;
  text_color : list float;
  corner_radius : Z;
  position : string;
  offset_x : Z;
  offset_y : Z;
  history_count : Z;
  fade_seconds : float;
  show_keys : bool;
  show_mouse : bool;
  show_modifiers : bool;
  show_idle_hint : bool;
  idle_hint_text : string;
  show_transform_axis : bool;
  drag_enable : bool;
  drag_requires_shift : bool;
  show_mouse_glyph : bool;
  mouse_glyph_size : Z;
  mouse_sidecar_gap : Z;
  mouse_hide_when_idle : bool;
  mirror_mouse_lr : bool;
  mouse_use_custom_body : bool;
  mouse_body_color : list float;
  mouse_outline_shade : Z;
  mouse_show_tail : bool;
  limit_one_per_screen : bool
}.

(** The factory defaults of the declaration. *)
Definition defaults : MSC_Settings := {|
  ui_show_advanced := false;
  show_title := true;
  title_text := "MoCast";
  title_icon_mode := "DEFAULT";
  title_builtin_icon := "BEACON";
  title_icon_path := "";
  title_icon_auto := true;
  title_icon_size := 56;
  title_icon_pad := 6;
  title_font_size := 28;
  title_text_color := [0.07303351; 0.6797883; 1.0; 1.0]%float;
  font_size := 16;
  bg_color := [0.6138818; 0.7321329; 0.7908429; 1.0]%float;
  bg_opacity := 0.35%float;
  text_color := [1.0; 1.0; 1.0; 1.0]%float;
  corner_radius := 8;
  position := "BOTTOM_LEFT";
  offset_x := 64;
  offset_y := 77;
  history_count := 4;
  fade_seconds := 3.0%float;
  show_keys := true;
  show_mouse := true;
  show_modifiers := true;
  show_idle_hint := true;
  idle_hint_text := "Momentum Screencast Overlay";
  show_transform_axis := true;
  drag_enable := true;
  drag_requires_shift := true;
  show_mouse_glyph := true;
  mouse_glyph_size := 46;
  mouse_sidecar_gap := 14;
  mouse_hide_when_idle := false;
  mirror_mouse_lr := false;
  mouse_use_custom_body := true;
  mouse_body_color := [0.1333315; 0.6666651; 0.8862789; 1.0]%float;
  mouse_outline_shade := 1;
  mouse_show_tail := true;
  limit_one_per_screen := true
|}.

(** ** Assignment to a property

    [setattr(s, k, v)] goes through the host's property system, which
    checks the value against the declared type, clamps numbers to the
    declared [min]/[max], and then runs the [update] callback if one was
    declared.  A rejected value raises, and leaves the property as it was.
    Values read back from a property are already representable in its
    storage, so the storage precision of float properties is not
    modelled. *)

Definition clamp_int (lo hi z : Z) : Z :=
  if z <? lo then lo else if hi <? z then hi else z.

Definition clamp_float (lo hi f : float) : float :=
  if PrimFloat.ltb f lo then lo else if PrimFloat.ltb hi f then hi else f.

Definition to_bool (v : value) : option bool :=
  match v with
  | VBool b => Some b
  | VInt 0 => Some false
  | VInt 1 => Some true
  | _ => None
  end.

Definition to_int (v : value) : option Z :=
  match v with
  | VBool b => Some (if b then 1 else 0)
  | VInt z => if (- 2 ^ 31 <=? z) && (z <? 2 ^ 31) then Some z else None
  | _ => None
  end.

Definition to_float (v : value) : option float :=
  match v with
  | VBool b => Some (if b then 1 else 0)%float
  | VInt z =>
      let f := Py.float_of_Z z in
      if PrimFloat.is_infinity f then None else Some f
  | VFloat f => Some f
  | _ => None
  end.

Definition to_floats (n : nat) (v : value) : option (list float) :=
  match v with
  | VSeq l => if (length l =? n)%nat then mapM to_float l else None
  | _ => None
  end.

Definition to_enum (items : list string) (v : value) : option string :=
  match v with
  | VStr x => if bool_decide (x ∈ items) then Some x else None
  | _ => None
  end.

Section Assign.
Context (k : string) (v : value).

Definition assign {A} (name : string) (conv : value -> option A) (old : A) : A :=
  if String.eqb k name then default old (conv v) else old.

Definition BoolProperty (name : string) (old : bool) : bool :=
  assign name to_bool old.
Definition IntProperty (name : string) (lo hi : Z) (old : Z) : Z :=
  assign name (fun x => clamp_int lo hi <$> to_int x) old.
Definition FloatProperty (name : string) (lo hi : float) (old : float) : float :=
  assign name (fun x => clamp_float lo hi <$> to_float x) old.
Definition FloatVectorProperty (name : string) (size : nat) (lo hi : float)
    (old : list float) : list float :=
  assign name (fun x => map (clamp_float lo hi) <$> to_floats size x) old.
Definition StringProperty (name : string) (old : string) : string :=
  assign name (fun x => match x with VStr t => Some t | _ => None end) old.
Definition EnumProperty (name : string) (items : list string) (old : string) : string :=
  assign name (to_enum items) old.
End Assign.

Definition title_icon_mode_items : list string := ["DEFAULT"; "CUSTOM"; "NONE"].

Definition title_builtin_icon_items : list string :=
  ["BEACON"; "CURSOR"; "KEYCAP"; "ANIMATION"; "BRUSH_STROKE"; "CURVE";
   "LOWPOLY_CUBE"; "CAMERA_1"; "CAMERA_2"; "RENDER_1"; "RENDER_2";
   "PARTICLE_1"; "PARTICLE_2"; "PULSE"; "NODE_COLOR"; "RIGGING_COLOR";
   "PRISM_1"; "PRISM_2"].

Definition position_items : list string :=
  ["TOP_LEFT"; "TOP_CENTER"; "TOP_RIGHT"; "MIDDLE_LEFT"; "MIDDLE_CENTER";
   "MIDDLE_RIGHT"; "BOTTOM_LEFT"; "BOTTOM_CENTER"; "BOTTOM_RIGHT"].

(** The declarations of [MSC_Settings], read as the store performed by an
    assignment to the property named [k]. *)
Definition assign_property (k : string) (v : value) (s : MSC_Settings) : MSC_Settings := {|
  ui_show_advanced := BoolProperty k v "ui_show_advanced" (ui_show_advanced s);
  show_title := BoolProperty k v "show_title" (show_title s);
  title_text := StringProperty k v "title_text" (title_text s);
  title_icon_mode :=
    EnumProperty k v "title_icon_mode" title_icon_mode_items (title_icon_mode s);
  title_builtin_icon :=
    EnumProperty k v "title_builtin_icon" title_builtin_icon_items (title_builtin_icon s);
  title_icon_path := StringProperty k v "title_icon_path" (title_icon_path s);
  title_icon_auto := BoolProperty k v "title_icon_auto" (title_icon_auto s);
  title_icon_size := IntProperty k v "title_icon_size" 8 256 (title_icon_size s);
  title_icon_pad := IntProperty k v "title_icon_pad" 0 32 (title_icon_pad s);
  title_font_size := IntProperty k v "title_font_size" 0 64 (title_font_size s);
  title_text_color :=
    FloatVectorProperty k v "title_text_color" 4 0 1 (title_text_color s);
  font_size := IntProperty k v "font_size" 0 64 (font_size s);
  bg_color := FloatVectorProperty k v "bg_color" 4 0 1 (bg_color s);
  bg_opacity := FloatProperty k v "bg_opacity" 0 1 (bg_opacity s);
  text_color := FloatVectorProperty k v "text_color" 4 0 1 (text_color s);
  corner_radius := IntProperty k v "corner_radius" 0 24 (corner_radius s);
  position := EnumProperty k v "position" position_items (position s);
  offset_x := IntProperty k v "offset_x" (-4096) 4096 (offset_x s);
  offset_y := IntProperty k v "offset_y" (-4096) 4096 (offset_y s);
  history_count := IntProperty k v "history_count" 1 20 (history_count s);
  fade_seconds := FloatProperty k v "fade_seconds" 0.25 30 (fade_seconds s);
  show_keys := BoolProperty k v "show_keys" (show_keys s);
  show_mouse := BoolProperty k v "show_mouse" (show_mouse s);
  show_modifiers := BoolProperty k v "show_modifiers" (show_modifiers s);
  show_idle_hint := BoolProperty k v "show_idle_hint" (show_idle_hint s);
  idle_hint_text := StringProperty k v "idle_hint_text" (idle_hint_text s);
  show_transform_axis := BoolProperty k v "show_transform_axis" (show_transform_axis s);
  drag_enable := BoolProperty k v "drag_enable" (drag_enable s);
  drag_requires_shift := BoolProperty k v "drag_requires_shift" (drag_requires_shift s);
  show_mouse_glyph := BoolProperty k v "show_mouse_glyph" (show_mouse_glyph s);
  mouse_glyph_size := IntProperty k v "mouse_glyph_size" 30 100 (mouse_glyph_size s);
  mouse_sidecar_gap := IntProperty k v "mouse_sidecar_gap" 6 64 (mouse_sidecar_gap s);
  mouse_hide_when_idle := BoolProperty k v "mouse_hide_when_idle" (mouse_hide_when_idle s);
  mirror_mouse_lr := BoolProperty k v "mirror_mouse_lr" (mirror_mouse_lr s);
  mouse_use_custom_body :=
    BoolProperty k v "mouse_use_custom_body" (mouse_use_custom_body s);
  mouse_body_color :=
    FloatVectorProperty k v "mouse_body_color" 4 0 1 (mouse_body_color s);
  mouse_outline_shade := IntProperty k v "mouse_outline_shade" 1 10 (mouse_outline_shade s);
  mouse_show_tail := BoolProperty k v "mouse_show_tail" (mouse_show_tail s);
  limit_one_per_screen :=
    BoolProperty k v "limit_one_per_screen" (limit_one_per_screen s)
|}.

(** [_on_position_update(self, context)] *)
Definition _on_position_update (s : MSC_Settings) : MSC_Settings :=
  let s := assign_property "offset_x" (VInt 0) s in
  assign_property "offset_y" (VInt 0) s.

(** [setattr(s, k, v)] for the statically declared properties; the update
    callback of [position] runs after every accepted assignment. *)
Definition setattr (s : MSC_Settings) (k : string) (v : value) : MSC_Settings :=
  let s' := assign_property k v s in
  if String.eqb k "position" && bool_decide (is_Some (to_enum position_items v))
  then _on_position_update s'
  else s'.

End Rna.

(* ================================================================== *)
(** * msc_events.py *)
(* ================================================================== *)

Module Events.
Import Rna.

(** ** Constants *)
Definition WHEEL_ACTIVE_MS : Z := 80.
Definition SCROLL_GROUP_MS : Z := 80.
Definition _REDRAW_MIN_INTERVAL : float := 0.05.

(** ** State and datatypes *)

Record InputEvent := mkInputEvent { text : string; t0 : float }.

(** Host objects.  An area is known by its identity and its type; a draw
    handler is an opaque handle issued by the host. *)
Record Area := mkArea { area_id : N; area_type : string }.
Definition Handler := N.

Definition area_is (a b : option Area) : bool :=
  match a, b with
  | None, None => true
  | Some x, Some y => N.eqb (area_id x) (area_id y)
  | _, _ => false
  end.

Record MSCState := mkState {
  handler : option Handler;
  running : bool;
  events : list InputEvent;
  box_rect : option (Z * Z * Z * Z);
  dragging : bool;
  drag_dx : Z;
  drag_dy : Z;
  transform_active : bool;
  transform_kind : option string;
  transform_axis : option string;
  buttons_down : gset string;
  button_times : gmap string float;
  suppress_buttons_until_mouseup : bool;
  wheel_active_until : float;
  mod_times : gmap string float;
  scroll_dir : option string;
  scroll_count : Z;
  scroll_last_t : float;
  active_area : option Area;
  current_locale : option string
}.

Definition STUCK_TIMEOUT : float := 0.6.

(** The class attributes as the module is imported. *)
Definition initial_state : MSCState := {|
  handler := None; running := false; events := []; box_rect := None;
  dragging := false; drag_dx := 0; drag_dy := 0;
  transform_active := false; transform_kind := None; transform_axis := None;
  buttons_down := ∅; button_times := ∅;
  suppress_buttons_until_mouseup := false;
  wheel_active_until := 0; mod_times := ∅;
  scroll_dir := None; scroll_count := 0; scroll_last_t := 0;
  active_area := None; current_locale := None
|}.

(** Field updates. *)
Definition set_handler (v : option Handler) (r : MSCState) : MSCState :=
  mkState v (running r) (events r) (box_rect r) (dragging r) (drag_dx r)
    (drag_dy r) (transform_active r) (transform_kind r) (transform_axis r)
    (buttons_down r) (button_times r) (suppress_buttons_until_mouseup r)
    (wheel_active_until r) (mod_times r) (scroll_dir r) (scroll_count r)
    (scroll_last_t r) (active_area r) (current_locale r).
Definition set_running (v : bool) (r : MSCState) : MSCState :=
  mkState (handler r) v (events r) (box_rect r) (dragging r) (drag_dx r)
    (drag_dy r) (transform_active r) (transform_kind r) (transform_axis r)
    (buttons_down r) (button_times r) (suppress_buttons_until_mouseup r)
    (wheel_active_until r) (mod_times r) (scroll_dir r) (scroll_count r)
    (scroll_last_t r) (active_area r) (current_locale r).
Definition set_events (v : list InputEvent) (r : MSCState) : MSCState :=
  mkState (handler r) (running r) v (box_rect r) (dragging r) (drag_dx r)
    (drag_dy r) (transform_active r) (transform_kind r) (transform_axis r)
    (buttons_down r) (button_times r) (suppress_buttons_until_mouseup r)
    (wheel_active_until r) (mod_times r) (scroll_dir r) (scroll_count r)
    (scroll_last_t r) (active_area r) (current_locale r).
Definition set_box_rect (v : option (Z * Z * Z * Z)) (r : MSCState) : MSCState :=
  mkState (handler r) (running r) (events r) v (dragging r) (drag_dx r)
    (drag_dy r) (transform_active r) (transform_kind r) (transform_axis r)
    (buttons_down r) (button_times r) (suppress_buttons_until_mouseup r)
    (wheel_active_until r) (mod_times r) (scroll_dir r) (scroll_count r)
    (scroll_last_t r) (active_area r) (current_locale r).
Definition set_dragging (v : bool) (r : MSCState) : MSCState :=
  mkState (handler r) (running r) (events r) (box_rect r) v (drag_dx r)
    (drag_dy r) (transform_active r) (transform_kind r) (transform_axis r)
    (buttons_down r) (button_times r) (suppress_buttons_until_mouseup r)
    (wheel_active_until r) (mod_times r) (scroll_dir r) (scroll_count r)
    (scroll_last_t r) (active_area r) (current_locale r).
Definition set_drag_dx (v : Z) (r : MSCState) : MSCState :=
  mkState (handler r) (running r) (events r) (box_rect r) (dragging r) v
    (drag_dy r) (transform_active r) (transform_kind r) (transform_axis r)
    (buttons_down r) (button_times r) (suppress_buttons_until_mouseup r)
    (wheel_active_until r) (mod_times r) (scroll_dir r) (scroll_count r)
    (scroll_last_t r) (active_area r) (current_locale r).
Definition set_drag_dy (v : Z) (r : MSCState) : MSCState :=
  mkState (handler r) (running r) (events r) (box_rect r) (dragging r)
    (drag_dx r) v (transform_active r) (transform_kind r) (transform_axis r)
    (buttons_down r) (button_times r) (suppress_buttons_until_mouseup r)
    (wheel_active_until r) (mod_times r) (scroll_dir r) (scroll_count r)
    (scroll_last_t r) (active_area r) (current_locale r).
Definition set_transform_active (v : bool) (r : MSCState) : MSCState :=
  mkState (handler r) (running r) (events r) (box_rect r) (dragging r)
    (drag_dx r) (drag_dy r) v (transform_kind r) (transform_axis r)
    (buttons_down r) (button_times r) (suppress_buttons_until_mouseup r)
    (wheel_active_until r) (mod_times r) (scroll_dir r) (scroll_count r)
    (scroll_last_t r) (active_area r) (current_locale r).
Definition set_transform_kind (v : option string) (r : MSCState) : MSCState :=
  mkState (handler r) (running r) (events r) (box_rect r) (dragging r)
    (drag_dx r) (drag_dy r) (transform_active r) v (transform_axis r)
    (buttons_down r) (button_times r) (suppress_buttons_until_mouseup r)
    (wheel_active_until r) (mod_times r) (scroll_dir r) (scroll_count r)
    (scroll_last_t r) (active_area r) (current_locale r).
Definition set_transform_axis (v : option string) (r : MSCState) : MSCState :=
  mkState (handler r) (running r) (events r) (box_rect r) (dragging r)
    (drag_dx r) (drag_dy r) (transform_active r) (transform_kind r) v
    (buttons_down r) (button_times r) (suppress_buttons_until_mouseup r)
    (wheel_active_until r) (mod_times r) (scroll_dir r) (scroll_count r)
    (scroll_last_t r) (active_area r) (current_locale r).
Definition set_buttons_down (v : gset string) (r : MSCState) : MSCState :=
  mkState (handler r) (running r) (events r) (box_rect r) (dragging r)
    (drag_dx r) (drag_dy r) (transform_active r) (transform_kind r)
    (transform_axis r) v (button_times r) (suppress_buttons_until_mouseup r)
    (wheel_active_until r) (mod_times r) (scroll_dir r) (scroll_count r)
    (scroll_last_t r) (active_area r) (current_locale r).
Definition set_button_times (v : gmap string float) (r : MSCState) : MSCState :=
  mkState (handler r) (running r) (events r) (box_rect r) (dragging r)
    (drag_dx r) (drag_dy r) (transform_active r) (transform_kind r)
    (transform_axis r) (buttons_down r) v (suppress_buttons_until_mouseup r)
    (wheel_active_until r) (mod_times r) (scroll_dir r) (scroll_count r)
    (scroll_last_t r) (active_area r) (current_locale r).
Definition set_suppress_buttons_until_mouseup (v : bool) (r : MSCState) : MSCState :=
  mkState (handler r) (running r) (events r) (box_rect r) (dragging r)
    (drag_dx r) (drag_dy r) (transform_active r) (transform_kind r)
    (transform_axis r) (buttons_down r) (button_times r) v
    (wheel_active_until r) (mod_times r) (scroll_dir r) (scroll_count r)
    (scroll_last_t r) (active_area r) (current_locale r).
Definition set_wheel_active_until (v : float) (r : MSCState) : MSCState :=
  mkState (handler r) (running r) (events r) (box_rect r) (dragging r)
    (drag_dx r) (drag_dy r) (transform_active r) (transform_kind r)
    (transform_axis r) (buttons_down r) (button_times r)
    (suppress_buttons_until_mouseup r) v (mod_times r) (scroll_dir r)
    (scroll_count r) (scroll_last_t r) (active_area r) (current_locale r).
Definition set_mod_times (v : gmap string float) (r : MSCState) : MSCState :=
  mkState (handler r) (running r) (events r) (box_rect r) (dragging r)
    (drag_dx r) (drag_dy r) (transform_active r) (transform_kind r)
    (transform_axis r) (buttons_down r) (button_times r)
    (suppress_buttons_until_mouseup r) (wheel_active_until r) v
    (scroll_dir r) (scroll_count r) (scroll_last_t r) (active_area r)
    (current_locale r).
Definition set_scroll_dir (v : option string) (r : MSCState) : MSCState :=
  mkState (handler r) (running r) (events r) (box_rect r) (dragging r)
    (drag_dx r) (drag_dy r) (transform_active r) (transform_kind r)
    (transform_axis r) (buttons_down r) (button_times r)
    (suppress_buttons_until_mouseup r) (wheel_active_until r) (mod_times r)
    v (scroll_count r) (scroll_last_t r) (active_area r) (current_locale r).
Definition set_scroll_count (v : Z) (r : MSCState) : MSCState :=
  mkState (handler r) (running r) (events r) (box_rect r) (dragging r)
    (drag_dx r) (drag_dy r) (transform_active r) (transform_kind r)
    (transform_axis r) (buttons_down r) (button_times r)
    (suppress_buttons_until_mouseup r) (wheel_active_until r) (mod_times r)
    (scroll_dir r) v (scroll_last_t r) (active_area r) (current_locale r).
Definition set_scroll_last_t (v : float) (r : MSCState) : MSCState :=
  mkState (handler r) (running r) (events r) (box_rect r) (dragging r)
    (drag_dx r) (drag_dy r) (transform_active r) (transform_kind r)
    (transform_axis r) (buttons_down r) (button_times r)
    (suppress_buttons_until_mouseup r) (wheel_active_until r) (mod_times r)
    (scroll_dir r) (scroll_count r) v (active_area r) (current_locale r).
Definition set_active_area (v : option Area) (r : MSCState) : MSCState :=
  mkState (handler r) (running r) (events r) (box_rect r) (dragging r)
    (drag_dx r) (drag_dy r) (transform_active r) (transform_kind r)
    (transform_axis r) (buttons_down r) (button_times r)
    (suppress_buttons_until_mouseup r) (wheel_active_until r) (mod_times r)
    (scroll_dir r) (scroll_count r) (scroll_last_t r) v (current_locale r).
Definition set_current_locale (v : option string) (r : MSCState) : MSCState :=
  mkState (handler r) (running r) (events r) (box_rect r) (dragging r)
    (drag_dx r) (drag_dy r) (transform_active r) (transform_kind r)
    (transform_axis r) (buttons_down r) (button_times r)
    (suppress_buttons_until_mouseup r) (wheel_active_until r) (mod_times r)
    (scroll_dir r) (scroll_count r) (scroll_last_t r) (active_area r) v.

(** ** The host

    What the add-on receives from the host on a callback ([Context],
    [Event]) and what it asks of the host ([HostCall], logged in order). *)

Record Region := mkRegion { region_type : string; width : Z; height : Z }.

(** An entry of [window_manager.operators]; [None] stands for an attribute
    whose access raises. *)
Record Operator := mkOperator {
  bl_idname : option string;
  constraint_axis : option (list bool)
}.

Record Context := mkContext {
  ctx_area : option Area;
  ctx_region : option Region;
  ctx_screen_areas : list Area;
  ctx_operators : list Operator
}.

Record Event := mkEvent {
  ev_type : string;
  ev_value : string;
  is_repeat : bool;
  ctrl : bool;
  shift : bool;
  alt : bool;
  oskey : bool;
  mouse_region_x : Z;
  mouse_region_y : Z
}.

Inductive HostCall :=
| tag_redraw (a : Area)
| draw_handler_add (h : Handler)
| draw_handler_remove (h : Handler)
| invoke_modal_capture
| report (level message : string)
| rounded_bg (x y w h : Z)
| draw_image_icon (path : string) (x y size : Z)
| blf_draw (size x y : Z) (color : list float) (txt : string)
| draw_mouse_glyph (x y size : Z) (buttons : gset string) (wheel_active : bool).

(** Everything a callback can read or write: the module state, the
    settings instance on the window manager, the module global
    [_last_redraw_ts], the wall clock (the successive values [time()]
    returns), the language preferences, and the log of host calls. *)
Record World := mkWorld {
  state : MSCState;
  settings : MSC_Settings;
  _last_redraw_ts : float;
  clock : nat -> float;
  ticks : nat;
  addon_prefs : option string;
  app_locale : option string;
  handlers_issued : N;
  host_log : list HostCall
}.

Definition set_state (v : MSCState) (r : World) : World :=
  mkWorld v (settings r) (_last_redraw_ts r) (clock r) (ticks r)
    (addon_prefs r) (app_locale r) (handlers_issued r) (host_log r).
Definition set_settings (v : MSC_Settings) (r : World) : World :=
  mkWorld (state r) v (_last_redraw_ts r) (clock r) (ticks r)
    (addon_prefs r) (app_locale r) (handlers_issued r) (host_log r).
Definition set__last_redraw_ts (v : float) (r : World) : World :=
  mkWorld (state r) (settings r) v (clock r) (ticks r) (addon_prefs r)
    (app_locale r) (handlers_issued r) (host_log r).
Definition set_ticks (v : nat) (r : World) : World :=
  mkWorld (state r) (settings r) (_last_redraw_ts r) (clock r) v
    (addon_prefs r) (app_locale r) (handlers_issued r) (host_log r).
Definition set_handlers_issued (v : N) (r : World) : World :=
  mkWorld (state r) (settings r) (_last_redraw_ts r) (clock r) (ticks r)
    (addon_prefs r) (app_locale r) v (host_log r).
Definition set_host_log (v : list HostCall) (r : World) : World :=
  mkWorld (state r) (settings r) (_last_redraw_ts r) (clock r) (ticks r)
    (addon_prefs r) (app_locale r) (handlers_issued r) v.

Definition upd_state (f : MSCState -> MSCState) (w : World) : World :=
  set_state (f (state w)) w.

Definition host (c : HostCall) (w : World) : World :=
  set_host_log (host_log w ++ [c]) w.

(** [_now()]: one reading of the clock. *)
Definition _now (w : World) : float * World :=
  (clock w (ticks w), set_ticks (S (ticks w)) w).

(** [msc_translation._active_locale()]: the add-on's language override if
    the preferences are found and it is set, else the host's locale. *)
Definition _active_locale (w : World) : option string :=
  let system := app_locale w in
  match addon_prefs w with
  | Some override =>
      if negb (String.eqb override "") && negb (String.eqb override "SYSTEM")
      then Some override
      else system
  | None => system
  end.

(** Control flow of a function body with early [return]s. *)
Inductive flow (A R : Type) :=
| Return (r : R)
| Continue (a : A).
Global Arguments Return {A R} r.
Global Arguments Continue {A R} a.

Section Host.
(** [gettext loc msgid]: the translation [msc_translation._] resolves
    under the active locale [loc] (the add-on's table, then the host's
    catalogue, then [msgid] itself).  [import_locale] is the locale that
    was active when the module was imported; [blf_dimensions size txt] is
    the width the host's font engine measures; [_ICON_DIR] is the
    directory of the bundled icons. *)
Context (gettext : option string -> string -> string)
        (import_locale : option string)
        (blf_dimensions : Z -> string -> float)
        (_ICON_DIR : string).

(** [_(msgid)], the translator, at the time of the call. *)
Definition tr (w : World) (msgid : string) : string :=
  gettext (_active_locale w) msgid.

(** ** Maps *)

Definition _mouse_labels_runtime (w : World) : list (string * string) :=
  let left_ := tr w "Left Click" in
  let right_ := tr w "Right Click" in
  let mid := tr w "Middle Click" in
  let '(left_, right_) :=
    if mirror_mouse_lr (settings w) then (right_, left_) else (left_, right_) in
  [("LEFTMOUSE", left_); ("RIGHTMOUSE", right_); ("MIDDLEMOUSE", mid)].

Fixpoint dict_get (d : list (string * string)) (k : string) : option string :=
  match d with
  | [] => None
  | (k', v) :: r => if String.eqb k k' then Some v else dict_get r k
  end.

Definition _WHEEL_TYPES : list string :=
  ["WHEELUPMOUSE"; "WHEELDOWNMOUSE"; "WHEELINMOUSE"; "WHEELOUTMOUSE"].
Definition _MOUSE_BUTTONS : list string := ["LEFTMOUSE"; "RIGHTMOUSE"; "MIDDLEMOUSE"].
Definition _LR_BUTTONS : list string := ["LEFTMOUSE"; "RIGHTMOUSE"].

Definition _LETTER_KEYS : list string :=
  map (fun k => String (ascii_of_nat k) "") (seq 65 26).
Definition _TOPROW_NUMS : list string :=
  ["ZERO"; "ONE"; "TWO"; "THREE"; "FOUR"; "FIVE"; "SIX"; "SEVEN"; "EIGHT"; "NINE"].

Definition _IGNORE_UP : list string :=
  map (fun i => "F" +:+ pretty i) (seqZ 1 24)
  ++ ["ESC"; "TAB"; "RET"; "RETURN"; "ENTER"; "PAGE_UP"; "PAGE_DOWN";
      "HOME"; "END"; "DEL"; "DELETE"; "BACK_SPACE";
      "UP_ARROW"; "DOWN_ARROW"; "LEFT_ARROW"; "RIGHT_ARROW"]
  ++ map (fun i => "NUMPAD_" +:+ pretty i) (seqZ 0 10) ++ ["NUMPAD_ENTER"]
  ++ _LETTER_KEYS ++ _TOPROW_NUMS.

(** Built once, when the module is imported. *)
Definition _MOD_KEYS : list (string * string) :=
  let tr0 := gettext import_locale in
  [("LEFT_SHIFT", tr0 "Shift"); ("RIGHT_SHIFT", tr0 "Shift");
   ("LEFT_CTRL", tr0 "Ctrl"); ("RIGHT_CTRL", tr0 "Ctrl");
   ("LEFT_ALT", tr0 "Alt"); ("RIGHT_ALT", tr0 "Alt");
   ("OSKEY", tr0 "Win")].

(** ** Helpers *)

Definition _append_event (t : string) (w : World) : World :=
  let '(now, w) := _now w in
  upd_state (fun st => set_events (events st ++ [mkInputEvent t now]) st) w.

Definition _bump_wheel_active (w : World) : World :=
  let '(now, w) := _now w in
  let until := (now + Py.fmax 0.08 (Py.float_of_Z WHEEL_ACTIVE_MS / 1000))%float in
  upd_state (set_wheel_active_until until) w.

(** [ev.text = txt] on the last element of the history, if there is one. *)
Definition retext_last (txt : string) (evs : list InputEvent) : list InputEvent :=
  match reverse evs with
  | [] => evs
  | ev :: before => reverse before ++ [mkInputEvent txt (t0 ev)]
  end.

Definition _handle_scroll_grouping (direction : string) (w : World) : World :=
  let '(now, w) := _now w in
  let window := Py.fmax 0.08 (Py.float_of_Z SCROLL_GROUP_MS / 1000)%float in
  let w := _bump_wheel_active w in
  let up_lbl := tr w "Scroll (↑)" in
  let dn_lbl := tr w "Scroll (↓)" in
  let base_lbl := if String.eqb direction "UP" then up_lbl else dn_lbl in
  let st := state w in
  if bool_decide (scroll_dir st = Some direction)
     && PrimFloat.leb (now - scroll_last_t st) window
  then
    let count := scroll_count st + 1 in
    upd_state (fun st =>
      let st := set_scroll_count count st in
      let st := set_scroll_last_t now st in
      set_events (retext_last (base_lbl +:+ " ×" +:+ pretty count) (events st)) st) w
  else
    let w := upd_state (fun st =>
      let st := set_scroll_dir (Some direction) st in
      let st := set_scroll_count 1 st in
      set_scroll_last_t now st) w in
    _append_event base_lbl w.

Definition _is_view3d_window (context : Context) : bool :=
  match ctx_area context, ctx_region context with
  | Some a, Some r =>
      String.eqb (area_type a) "VIEW_3D" && String.eqb (region_type r) "WINDOW"
  | _, _ => false
  end.

Definition SPECIAL (w : World) : list (string * string) :=
  [("SPACE", tr w "Space"); ("TAB", tr w "Tab");
   ("ESC", tr w "Esc"); ("ESCAPE", tr w "Esc");
   ("RET", tr w "Enter"); ("RETURN", tr w "Enter"); ("ENTER", tr w "Enter");
   ("UP_ARROW", tr w "Up Arrow"); ("DOWN_ARROW", tr w "Down Arrow");
   ("LEFT_ARROW", tr w "Left Arrow"); ("RIGHT_ARROW", tr w "Right Arrow")].

Definition _format_key_from_type (w : World) (t : string) : string :=
  if Py.startswith t "NUMPAD_" then
    tr w "Numpad" +:+ " " +:+ default "" (Py.split_after_first "_" t)
  else if Py.startswith t "F" && Py.isdigit (String.substring 1 (String.length t) t) then t
  else match dict_get (SPECIAL w) t with
       | Some x => x
       | None => Py.title (Py.replace_char "_" " " t)
       end.

Definition truthy (x : option string) : bool :=
  match x with
  | Some t => negb (String.eqb t "")
  | None => false
  end.

Definition _label_from_event (event : Event) (w : World) : option string * World :=
  let s := settings w in
  let t := ev_type event in
  let v := ev_value event in
  if String.eqb t "TEXTINPUT" || negb (Py.mem v ["PRESS"; "RELEASE"]) then (None, w)
  else if is_repeat event then (None, w)
  else
  (* Modifiers *)
  match dict_get _MOD_KEYS t with
  | Some name =>
      if String.eqb v "PRESS" then
        let '(now, w) := _now w in
        let w := upd_state (fun st =>
                   set_mod_times (<[name := now]> (mod_times st)) st) w in
        (if show_modifiers s then Some (name +:+ " ↓") else None, w)
      else
        let w := upd_state (fun st =>
                   set_mod_times (delete name (mod_times st)) st) w in
        (if show_modifiers s then Some (name +:+ " ↑") else None, w)
  | None =>
  (* Combo prefixes *)
  let mods :=
    if show_modifiers s then
      (if ctrl event then [tr w "Ctrl"] else [])
      ++ (if shift event then [tr w "Shift"] else [])
      ++ (if alt event then [tr w "Alt"] else [])
      ++ (if oskey event then [tr w "Win"] else [])
    else [] in
  let labels := _mouse_labels_runtime w in
  let glyph_visible := show_mouse_glyph s in
  let allow_lr_text := negb glyph_visible || show_mouse s in
  let allow_mmb_text := true in
  let base : option string := None in
  (* Scroll *)
  if Py.mem t _WHEEL_TYPES && String.eqb v "PRESS" then
    let direction :=
      if Py.mem t ["WHEELUPMOUSE"; "WHEELINMOUSE"] then "UP" else "DOWN" in
    (None, _handle_scroll_grouping direction w)
  else
  (* Middle mouse *)
  let middle : flow (option string * World) (option string * World) :=
    if String.eqb t "MIDDLEMOUSE" then
      if String.eqb v "PRESS" then
        let w := _bump_wheel_active w in
        let '(now, w) := _now w in
        let w := upd_state (fun st =>
                   set_button_times (<["MIDDLEMOUSE" := now]> (button_times st)) st) w in
        Continue
          (if allow_mmb_text
           then Some (default (tr w "Middle Click") (dict_get labels "MIDDLEMOUSE") +:+ " ↓")
           else base, w)
      else
        Return (None, upd_state (fun st =>
                  set_button_times (delete "MIDDLEMOUSE" (button_times st)) st) w)
    else Continue (base, w) in
  match middle with
  | Return r => r
  | Continue (base, w) =>
  (* Left/Right mouse *)
  let left_right : flow (option string * World) (option string * World) :=
    if Py.mem t _LR_BUTTONS then
      let label_lr := default t (dict_get labels t) in
      if suppress_buttons_until_mouseup (state w) && String.eqb v "PRESS" then
        Return (None, w)
      else if String.eqb v "PRESS" then
        let duplicate := bool_decide (t ∈ buttons_down (state w)) in
        let w := upd_state (fun st => set_buttons_down (buttons_down st ∪ {[t]}) st) w in
        let '(now, w) := _now w in
        let w := upd_state (fun st =>
                   set_button_times (<[t := now]> (button_times st)) st) w in
        Continue
          (if allow_lr_text && negb duplicate then Some (label_lr +:+ " ↓") else base, w)
      else
        let w := upd_state (fun st => set_buttons_down (buttons_down st ∖ {[t]}) st) w in
        let w := upd_state (fun st =>
                   set_button_times (delete t (button_times st)) st) w in
        Continue (if allow_lr_text then Some (label_lr +:+ " ↑") else base, w)
    else Continue (base, w) in
  match left_right with
  | Return r => r
  | Continue (base, w) =>
  (* Keyboard fallback *)
  let keyboard : flow (option string) (option string * World) :=
    match base with
    | None =>
        if Py.mem t _MOUSE_BUTTONS || Py.mem t _WHEEL_TYPES then Return (None, w)
        else Continue (if show_keys s then Some (_format_key_from_type w t) else base)
    | Some _ => Continue base
    end in
  match keyboard with
  | Return r => r
  | Continue base =>
      if String.eqb v "RELEASE" && Py.mem t _IGNORE_UP then (None, w)
      else if truthy base && negb (bool_decide (mods = []))
      then (Some (Py.join " + " (mods ++ [default "" base])), w)
      else (base, w)
  end end end end.

(** ** Transform monitor *)

Definition axis_of (ca : list bool) : option string :=
  match ca with
  | x :: y :: z :: _ =>
      if x then Some "X" else if y then Some "Y" else if z then Some "Z" else None
  | _ => None
  end.

Fixpoint first_transform (ops : list Operator) : option (string * option string) :=
  match ops with
  | [] => None
  | op :: rest =>
      match bl_idname op with
      | None => first_transform rest
      | Some idname =>
          if negb (Py.startswith idname "TRANSFORM_OT_") then first_transform rest
          else
            let kind := Py.capitalize (Py.split_last "_" idname) in
            let axis := constraint_axis op ≫= axis_of in
            Some (kind, axis)
      end
  end.

Definition _active_transform_info (context : Context) : option (string * option string) :=
  first_transform (reverse (ctx_operators context)).

Definition transform_off (w : World) : World :=
  if transform_active (state w) then
    upd_state (fun st =>
      let st := set_transform_active false st in
      let st := set_transform_kind None st in
      set_transform_axis None st) w
  else w.

Definition _tick_transform_monitor (context : Context) (w : World) : World :=
  if negb (show_transform_axis (settings w)) then transform_off w
  else
    match _active_transform_info context with
    | None => transform_off w
    | Some (kind, axis) =>
        if negb (transform_active (state w)) then
          let w := upd_state (fun st =>
            let st := set_transform_active true st in
            let st := set_transform_kind (Some kind) st in
            set_transform_axis axis st) w in
          _append_event (tr w "Transform: " +:+ kind) w
        else if negb (bool_decide (transform_axis (state w) = axis)) then
          let w := upd_state (set_transform_axis axis) w in
          _append_event (tr w "Axis " +:+ default (tr w "Free") axis) w
        else w
    end.

(** ** Measurement and brand *)

(** [msc_branding._BUILTIN_ICON_FILES] and [builtin_icon_path];
    [name.upper()] is taken on ASCII names, as the identifiers of the enum
    [title_builtin_icon] are. *)
Definition _BUILTIN_ICON_FILES : list (string * string) :=
  [("BEACON", "MCT_Beacon_512.png"); ("CURSOR", "msc_Cursor.png");
   ("KEYCAP", "msc_Keycap.png"); ("ANIMATION", "msc_Animation.png");
   ("BRUSH_STROKE", "msc_Brush Stroke.png"); ("CURVE", "msc_Curve.png");
   ("LOWPOLY_CUBE", "msc_Low-Poly Cube.png");
   ("CAMERA_1", "msc_Camera Icon_1.png"); ("CAMERA_2", "msc_Camera Icon_2.png");
   ("RENDER_1", "msc_Render _1.png"); ("RENDER_2", "msc_Render _2.png");
   ("PARTICLE_1", "msc_Particle Burst_1.png");
   ("PARTICLE_2", "msc_Particle Burst_2.png"); ("PULSE", "msc_pulse.png");
   ("NODE_COLOR", "msc_Colorful Node.png");
   ("RIGGING_COLOR", "msc_Colorful_Rigging.png");
   ("PRISM_1", "msc_Prism Icon_1.png"); ("PRISM_2", "msc_Prism Icon_2.png")].

Definition path_join (dir file : string) : string :=
  if String.eqb dir "" then file
  else if Py.endswith dir "/" then dir +:+ file
  else dir +:+ "/" +:+ file.

Definition builtin_icon_path (name : string) : string :=
  let key := Py.str_map Py.to_upper (if String.eqb name "" then "BEACON" else name) in
  let filename := default "MCT_Beacon_512.png" (dict_get _BUILTIN_ICON_FILES key) in
  path_join _ICON_DIR filename.

(** [int(n * x)] for an int [n] and a float [x]. *)
Definition scaled (n : Z) (x : float) : Z :=
  Py.int_of_float (Py.float_of_Z n * x)%float.

Definition _title_icon_metrics (s : MSC_Settings) : Z * Z * Z * string :=
  if negb (show_title s) then (0, 0, 0, "")
  else
    let mode := title_icon_mode s in
    let icon_path :=
      if String.eqb mode "NONE" then ""
      else if String.eqb mode "CUSTOM" then Py.strip (title_icon_path s)
      else builtin_icon_path (title_builtin_icon s) in
    let title_fs := title_font_size s in
    let size := title_icon_size s in
    let pad := title_icon_pad s in
    let icon_sz := if negb (String.eqb icon_path "") && (0 <? size) then size else 0 in
    let pre := if 0 <? icon_sz then icon_sz + pad else 0 in
    let has_text := negb (String.eqb (Py.strip (title_text s)) "") in
    if negb has_text && (icon_sz =? 0) then (0, 0, 0, "")
    else
      let title_line_h := scaled title_fs 1.4 in
      let x := (Py.float_of_Z title_fs * 1.2)%float in
      let floor14 := if PrimFloat.ltb 14 x then Py.int_of_float x else 14 in
      let top := Py.imax (Py.imax title_line_h icon_sz) floor14 in
      (pre, top, icon_sz, icon_path).

Definition _measure_brand_box (s : MSC_Settings) : Z * Z * Z * Z * Z * string :=
  let pad := 6 in
  if negb (show_title s) then (0, 0, pad, 0, 0, "")
  else
    let '(title_pre, top_h, icon_sz, icon_path) := _title_icon_metrics s in
    if top_h =? 0 then (0, 0, pad, 0, 0, "")
    else
      let tw := blf_dimensions (title_font_size s) (title_text s) in
      let content_w := Py.imax (Py.int_of_float tw + title_pre) icon_sz in
      let bw := content_w + pad * 2 in
      let bh := top_h + pad * 2 in
      (bw, bh, pad, title_pre, icon_sz, icon_path).

Definition _measure_events_box (lines : list string) (s : MSC_Settings) : Z * Z * Z * Z :=
  let pad := 6 in
  let ev_h := scaled (font_size s) 1.4 in
  let max_w :=
    foldl (fun max_w tx =>
             Py.imax max_w (Py.int_of_float (blf_dimensions (font_size s) tx)))
          0 lines in
  let spacer := ev_h in
  let extra_bottom := Py.imax 6 (scaled ev_h 0.40) in
  let other := Z.of_nat (length lines) in
  let ew := max_w + pad * 2 in
  let eh := spacer + other * ev_h + pad * 2 + extra_bottom in
  (ew, eh, pad, ev_h).

(** [_resolve_position(rw, rh, bw, bh, s)] *)
Definition _resolve_position (rw rh bw bh : Z) (s : MSC_Settings) : Z * Z :=
  let pos := position s in
  let ox := offset_x s in
  let oy := offset_y s in
  let margin := 10 in
  (* X *)
  let bx :=
    if Py.endswith pos "_LEFT" then margin + ox
    else if Py.endswith pos "_CENTER" then (rw - bw) / 2 + ox
    else (rw - bw) - margin - ox in
  (* Y *)
  let by_ :=
    if Py.startswith pos "TOP_" then (rh - bh) - margin - oy
    else if Py.startswith pos "MIDDLE_" then (rh - bh) / 2 + oy
    else margin + oy in
  let bx := Py.imax margin (Py.imin (rw - bw - margin) bx) in
  let by_ := Py.imax margin (Py.imin (rh - bh - margin) by_) in
  (bx, by_).

(** The text rows of the events box, top to bottom. *)
Fixpoint draw_lines (size x ty line_h : Z) (color : list float)
    (lines : list string) (w : World) : World :=
  match lines with
  | [] => w
  | tx :: rest =>
      draw_lines size x (ty - line_h) line_h color rest
        (host (blf_draw size x ty color tx) w)
  end.

(** [_draw_two_box_overlay(lines, s)]; [None] when the region is missing
    and the attribute access raises. *)
Definition _draw_two_box_overlay (lines : list string) (context : Context) (w : World)
    : option (Z * Z * Z * Z * Z * Z * Z * Z) * World :=
  let s := settings w in
  let '(brand_w, brand_h, bpad, title_pre, icon_sz, icon_path) := _measure_brand_box s in
  let '(ev_w, ev_h, epad, line_h) := _measure_events_box lines s in
  let gutter := if 0 <? brand_h then 6 else 0 in
  let bw := Py.imax brand_w ev_w in
  let bh := brand_h + gutter + ev_h in
  match ctx_region context with
  | None => (None, w)
  | Some region =>
      let '(bx, by_) := _resolve_position (width region) (height region) bw bh s in
      let '(evx, evy, evw, evh) := (bx, by_, bw, ev_h) in
      let '(brx, bry, brw, brh) := (bx, by_ + ev_h + gutter, bw, brand_h) in
      let w := if 0 <? brand_h then host (rounded_bg brx bry brw brh) w else w in
      let w := host (rounded_bg evx evy evw evh) w in
      let w :=
        if 0 <? brand_h then
          let w :=
            if negb (String.eqb icon_path "") && (0 <? icon_sz)
            then host (draw_image_icon icon_path (brx + bpad) (bry + brh - bpad - icon_sz) icon_sz) w
            else w in
          let title_str := Py.strip (title_text s) in
          if negb (String.eqb title_str "") then
            let fs := title_font_size s in
            let title_baseline :=
              Py.int_of_float
                (Py.float_of_Z bry + Py.float_of_Z (brh - fs) * 0.55)%float + 1 in
            let line_x := brx + bpad + title_pre in
            host (blf_draw fs line_x title_baseline (title_text_color s) title_str) w
          else w
        else w in
      let ty := evy + evh - epad - line_h in
      let w := draw_lines (font_size s) (evx + epad) ty line_h (text_color s) lines w in
      (Some (bx, by_, bw, bh, brx, bry, brw, brh), w)
  end.

Definition _point_in_rect (px py : Z) (rect : option (Z * Z * Z * Z)) : bool :=
  match rect with
  | None => false
  | Some (x, y, w, h) => (x <=? px) && (px <=? x + w) && (y <=? py) && (py <=? y + h)
  end.

Definition gather_lines (w : World) : list string * bool * World :=
  let s := settings w in
  let '(now, w) := _now w in
  let ttl := fade_seconds s in
  let w := upd_state (fun st =>
             set_events
               (List.filter (fun ev => PrimFloat.leb (now - t0 ev) ttl) (events st)) st) w in
  let entries := Py.slice_from (- history_count s) (events (state w)) in
  let lines := map text entries in
  if bool_decide (lines = []) && show_idle_hint s
  then ([idle_hint_text s], true, w)
  else (lines, false, w).

(** ** Draw callback *)

Definition _draw_mouse_sidecar_for_events (evx evy evw evh : Z) (idle_only : bool)
    (region : Region) (w : World) : World :=
  let s := settings w in
  let hide_when_idle := mouse_hide_when_idle s in
  if idle_only && hide_when_idle then w
  else
    let gsize := mouse_glyph_size s in
    let gh := scaled gsize 1.35 in
    let gap := mouse_sidecar_gap s in
    let gx := evx + evw + gap in
    let gy := evy + evh - gh in
    let gx := if width region <? gx + gsize then evx - gap - gsize else gx in
    let gy := Py.imax 0 (Py.imin (height region - gh) gy) in
    let '(now, w) := _now w in
    let wheel_on := PrimFloat.leb now (wheel_active_until (state w)) in
    host (draw_mouse_glyph gx gy gsize (buttons_down (state w)) wheel_on) w.

Definition draw_callback_2d (context : Context) (w : World) : World :=
  let s := settings w in
  (* If language changed, clear history so future lines appear localized *)
  let loc := _active_locale w in
  let w :=
    if negb (bool_decide (current_locale (state w) = loc)) then
      upd_state (fun st => set_events [] (set_current_locale loc st)) w
    else w in
  (* enforce single-overlay-per-screen *)
  let w :=
    if limit_one_per_screen s && bool_decide (active_area (state w) = None)
    then upd_state (set_active_area (ctx_area context)) w
    else w in
  if limit_one_per_screen s && negb (area_is (ctx_area context) (active_area (state w)))
  then w
  else
    let '(lines, idle_only, w) := gather_lines w in
    let '(title_pre, top_h, icon_sz, icon_p) := _title_icon_metrics s in
    let has_brand := 0 <? top_h in
    let lines := if bool_decide (lines = []) && negb has_brand then [""] else lines in
    match _draw_two_box_overlay lines context w with
    | (Some (bx, by_, bw, bh, brx, bry, brw, brh), w) =>
        let w := upd_state (set_box_rect (Some (bx, by_, bw, bh))) w in
        if show_mouse_glyph s then
          let gutter := if 0 <? brh then 6 else 0 in
          let evh := bh - brh - gutter in
          let '(evx, evy, evw) := (bx, by_, bw) in
          match ctx_region context with
          | Some region => _draw_mouse_sidecar_for_events evx evy evw evh idle_only region w
          | None => w
          end
        else w
    | (None, w) => w
    end.

(** ** Modal and input *)

(** One round of the watchdog loop, for the button [b]. *)
Definition release_if_stuck (now : float) (st : MSCState) (b : string) : MSCState :=
  match button_times st !! b with
  | Some t =>
      if PrimFloat.ltb STUCK_TIMEOUT (now - t) then
        let st := set_buttons_down (buttons_down st ∖ {[b]}) st in
        set_button_times (delete b (button_times st)) st
      else st
  | None => st
  end.

Definition watchdog (now : float) (st : MSCState) : MSCState :=
  foldl (release_if_stuck now) st (map fst (map_to_list (button_times st))).

Definition clear_buttons (st : MSCState) : MSCState :=
  set_button_times ∅ (set_buttons_down ∅ st).

Definition tag_view3d_areas (context : Context) (w : World) : World :=
  foldl (fun w area =>
           if String.eqb (area_type area) "VIEW_3D" then host (tag_redraw area) w else w)
        w (ctx_screen_areas context).

(** Dragging; [Return] is the early [RUNNING_MODAL]. *)
Definition modal_drag (context : Context) (event : Event) (w : World)
    : flow World (string * World) :=
  let s := settings w in
  if drag_enable s && _is_view3d_window context then
    let over := _point_in_rect (mouse_region_x event) (mouse_region_y event)
                  (box_rect (state w)) in
    let req := drag_requires_shift s in
    let ok := negb req || shift event in
    let is_left := Py.mem (ev_type event) ["LEFTMOUSE"; "EVT_TWEAK_L"] in
    if is_left && String.eqb (ev_value event) "PRESS" && over && ok
       && (bool_decide (active_area (state w) = None)
           || area_is (active_area (state w)) (ctx_area context))
    then
      let '(bx, by_, bw, bh) := default (0, 0, 0, 0) (box_rect (state w)) in
      Return ("RUNNING_MODAL",
        upd_state (fun st =>
          let st := set_dragging true st in
          let st := set_suppress_buttons_until_mouseup true st in
          let st := clear_buttons st in
          let st := set_drag_dx (mouse_region_x event - bx) st in
          set_drag_dy (mouse_region_y event - by_) st) w)
    else
      let w :=
        if is_left && String.eqb (ev_value event) "RELEASE" then
          upd_state (fun st =>
            set_suppress_buttons_until_mouseup false (set_dragging false st)) w
        else w in
      if Py.mem (ev_type event) ["MOUSEMOVE"; "EVT_TWEAK_L"] && dragging (state w) then
        match ctx_region context with
        | None => Continue w
        | Some region =>
            let '(rw, rh) := (width region, height region) in
            let '(bx, by_, bw, bh) := default (0, 0, 0, 0) (box_rect (state w)) in
            let nbx := mouse_region_x event - drag_dx (state w) in
            let nby := mouse_region_y event - drag_dy (state w) in
            let margin := 10 in
            let pos := position s in
            let ox :=
              if Py.endswith pos "_LEFT" then nbx - margin
              else if Py.endswith pos "_CENTER" then nbx - (rw - bw) / 2
              else (rw - bw) - margin - nbx in
            let s := setattr s "offset_x" (VInt ox) in
            let oy :=
              if Py.startswith pos "TOP_" then (rh - bh) - margin - nby
              else if Py.startswith pos "MIDDLE_" then nby - (rh - bh) / 2
              else nby - margin in
            let s := setattr s "offset_y" (VInt oy) in
            Continue (set_settings s w)
        end
      else Continue w
  else Continue w.

(** The blocks of [modal] that follow the watchdog, in source order. *)

(** Follow last-active 3D View when limited to one overlay per screen. *)
Definition modal_follow_area (context : Context) (event : Event) (w : World) : World :=
  if limit_one_per_screen (settings w) && _is_view3d_window context
     && Py.mem (ev_type event)
          ["MOUSEMOVE"; "LEFTMOUSE"; "RIGHTMOUSE"; "MIDDLEMOUSE";
           "EVT_TWEAK_L"; "EVT_TWEAK_R"]
     && negb (area_is (active_area (state w)) (ctx_area context))
  then upd_state (fun st => clear_buttons (set_active_area (ctx_area context) st)) w
  else w.

(** Events -> labels. *)
Definition modal_labels (context : Context) (event : Event) (w : World) : World :=
  if _is_view3d_window context
     || (negb (Py.mem (ev_type event) _MOUSE_BUTTONS)
         && negb (Py.mem (ev_type event) _WHEEL_TYPES))
  then
    let '(label, w) := _label_from_event event w in
    if truthy label then _append_event (default "" label) w else w
  else w.

(** Throttled redraw. *)
Definition modal_redraw (context : Context) (w : World) : World :=
  let '(now2, w) := _now w in
  if PrimFloat.leb _REDRAW_MIN_INTERVAL (now2 - _last_redraw_ts w) then
    set__last_redraw_ts now2 (tag_view3d_areas context w)
  else w.

Definition modal_after_watchdog (context : Context) (event : Event) (w : World)
    : string * World :=
  let w := modal_follow_area context event w in
  match modal_drag context event w with
  | Return r => r
  | Continue w =>
      let w := modal_labels context event w in
      let w := _tick_transform_monitor context w in
      let w := modal_redraw context w in
      ("PASS_THROUGH", w)
  end.

(** [MSC_OT_modal_capture.modal(self, context, event)] *)
Definition MSC_OT_modal_capture_modal (context : Context) (event : Event) (w : World)
    : string * World :=
  if negb (running (state w)) then ("CANCELLED", w)
  else
    (* Watchdog for missed RELEASE *)
    let '(now, w) := _now w in
    let w := upd_state (watchdog now) w in
    modal_after_watchdog context event w.

(** The worlds a sequence of modal callbacks goes through. *)
Fixpoint modal_run (inputs : list (Context * Event)) (w : World) : list World :=
  match inputs with
  | [] => [w]
  | (context, event) :: rest =>
      w :: modal_run rest (snd (MSC_OT_modal_capture_modal context event w))
  end.

(** ** Start/Stop (toggle) *)

(** [MSC_OT_toggle.execute(self, context)] *)
Definition MSC_OT_toggle_execute (context : Context) (w : World) : string * World :=
  let w :=
    if negb (running (state w)) then
      let w := upd_state (fun st => set_active_area None (set_running true st)) w in
      let w :=
        match handler (state w) with
        | None =>
            let h := handlers_issued w in
            let w := set_handlers_issued (N.succ h) (host (draw_handler_add h) w) in
            upd_state (set_handler (Some h)) w
        | Some _ => w
        end in
      let w := host invoke_modal_capture w in
      host (report "INFO" "MoCast: started") w
    else
      let w := upd_state (set_running false) w in
      let w :=
        match handler (state w) with
        | Some h => upd_state (set_handler None) (host (draw_handler_remove h) w)
        | None => w
        end in
      let w := upd_state (fun st =>
        let st := set_events [] st in
        let st := set_transform_active false st in
        let st := set_transform_kind None st in
        let st := set_transform_axis None st in
        let st := set_buttons_down ∅ st in
        let st := set_button_times ∅ st in
        let st := set_wheel_active_until 0 st in
        let st := set_scroll_dir None st in
        let st := set_scroll_count 0 st in
        let st := set_scroll_last_t 0 st in
        set_active_area None st) w in
      host (report "INFO" "MoCast: stopped") w in
  ("FINISHED", tag_view3d_areas context w).

End Host.
End Events.

(* ================================================================== *)
(** * msc_presets.py *)
(* ================================================================== *)

Module Presets.
Import Rna.

(** ** Settings <-> dict *)

Definition color (c : list float) : value := VSeq (map VFloat c).

Definition _settings_to_dict (s : MSC_Settings) : list (string * value) :=
  [ ("ui_show_advanced", VBool (ui_show_advanced s));
    (* Events appearance / behaviour *)
    ("show_keys", VBool (show_keys s));
    ("show_mouse", VBool (show_mouse s));
    ("show_modifiers", VBool (show_modifiers s));
    ("history_count", VInt (history_count s));
    ("fade_seconds", VFloat (fade_seconds s));
    ("font_size", VInt (font_size s));
    ("text_color", color (text_color s));
    ("bg_color", color (bg_color s));
    ("bg_opacity", VFloat (bg_opacity s));
    ("corner_radius", VInt (corner_radius s));
    (* Branding *)
    ("show_title", VBool (show_title s));
    ("title_text", VStr (title_text s));
    ("title_icon_mode", VStr (title_icon_mode s));
    ("title_builtin_icon", VStr (title_builtin_icon s));
    ("title_icon_path", VStr (title_icon_path s));
    ("title_icon_auto", VBool (title_icon_auto s));
    ("title_icon_size", VInt (title_icon_size s));
    ("title_icon_pad", VInt (title_icon_pad s));
    ("title_font_size", VInt (title_font_size s));
    ("title_text_color", color (title_text_color s));
    (* Idle overlay *)
    ("show_idle_hint", VBool (show_idle_hint s));
    ("idle_hint_text", VStr (idle_hint_text s));
    (* Transform monitor / placement / drag *)
    ("show_transform_axis", VBool (show_transform_axis s));
    ("position", VStr (position s));
    ("offset_x", VInt (offset_x s));
    ("offset_y", VInt (offset_y s));
    ("drag_enable", VBool (drag_enable s));
    ("drag_requires_shift", VBool (drag_requires_shift s));
    (* Mouse glyph *)
    ("show_mouse_glyph", VBool (show_mouse_glyph s));
    ("mouse_glyph_size", VInt (mouse_glyph_size s));
    ("mouse_sidecar_gap", VInt (mouse_sidecar_gap s));
    ("mouse_hide_when_idle", VBool (mouse_hide_when_idle s));
    ("mirror_mouse_lr", VBool (mirror_mouse_lr s));
    ("mouse_use_custom_body", VBool (mouse_use_custom_body s));
    ("mouse_body_color", color (mouse_body_color s));
    ("mouse_outline_shade", VInt (mouse_outline_shade s));
    ("mouse_show_tail", VBool (mouse_show_tail s)) ].

(** The names [hasattr(s, k)] answers for with a declared property.  Any
    other attribute of the host object (its own [name], read-only RNA
    handles, methods) either rejects the assignment or keeps it away from
    the declared properties. *)
Definition property_names : list string :=
  ["ui_show_advanced"; "show_title"; "title_text"; "title_icon_mode";
   "title_builtin_icon"; "title_icon_path"; "title_icon_auto"; "title_icon_size";
   "title_icon_pad"; "title_font_size"; "title_text_color"; "font_size";
   "bg_color"; "bg_opacity"; "text_color"; "corner_radius"; "position";
   "offset_x"; "offset_y"; "history_count"; "fade_seconds"; "show_keys";
   "show_mouse"; "show_modifiers"; "show_idle_hint"; "idle_hint_text";
   "show_transform_axis"; "drag_enable"; "drag_requires_shift";
   "show_mouse_glyph"; "mouse_glyph_size"; "mouse_sidecar_gap";
   "mouse_hide_when_idle"; "mirror_mouse_lr"; "mouse_use_custom_body";
   "mouse_body_color"; "mouse_outline_shade"; "mouse_show_tail";
   "limit_one_per_screen"; "active_preset"].

Definition hasattr (k : string) : bool := Py.mem k property_names.

Section Runtime.
(** [float_of_str t]: Python's [float(t)] on a [str] ([None] when it
    raises); [assign_active_preset v s]: the host's assignment to the
    dynamic enum [active_preset], update callback included. *)
Context (float_of_str : string -> option float)
        (assign_active_preset : value -> MSC_Settings -> MSC_Settings).

(** [float(c)] *)
Definition py_float (c : value) : option float :=
  match c with
  | VBool b => Some (if b then 1 else 0)%float
  | VInt z =>
      let f := Py.float_of_Z z in
      if PrimFloat.is_infinity f then None else Some f
  | VFloat f => Some f
  | VStr t => float_of_str t
  | _ => None
  end.

(** What [for c in v] yields; [None] when [v] is not iterable. *)
Definition iterate (v : value) : option (list value) :=
  match v with
  | VSeq l => Some l
  | VStr t => Some (map VStr (Py.chars t))
  | VDict d => Some (map (fun kv => VStr (fst kv)) d)
  | _ => None
  end.

Definition clamp01 (x : float) : float := Py.fmax 0 (Py.fmin 1 x).

Definition _clamp_color_tuple (v : value) : value :=
  match iterate v ≫= mapM py_float with
  | Some cs => VSeq (map (fun c => VFloat (clamp01 c)) cs)
  | None => v
  end.

Definition setattr (s : MSC_Settings) (k : string) (v : value) : MSC_Settings :=
  if String.eqb k "active_preset" then assign_active_preset v s
  else Rna.setattr s k v.

Definition color_keys : list string :=
  ["bg_color"; "text_color"; "title_text_color"; "mouse_body_color"].

Definition _apply_settings_from_dict (s : MSC_Settings) (data : list (string * value))
    : MSC_Settings :=
  foldl (fun s '(k, v) =>
           (* Clamp colors defensively *)
           let v := if Py.mem k color_keys then _clamp_color_tuple v else v in
           if hasattr k then setattr s k v else s)
        s data.
End Runtime.

(** ** Preset names

    A name typed by the user is a sequence of Unicode code points.  The
    classification of the code points above ASCII ([str.isspace], the
    identifier classes XID_Start and XID_Continue) belongs to the runtime. *)

Definition ustr := list N.

Definition of_ascii_string (s : string) : ustr :=
  map N_of_ascii (list_ascii_of_string s).

Section Unicode.
Context (unicode_space unicode_xid_start unicode_xid_continue : N -> bool).
Local Open Scope N_scope.

Definition isspace (c : N) : bool :=
  if c <? 128 then ((9 <=? c) && (c <=? 13)) || ((28 <=? c) && (c <=? 32))
  else unicode_space c.

Definition is_letter (c : N) : bool :=
  ((65 <=? c) && (c <=? 90)) || ((97 <=? c) && (c <=? 122)).

Definition xid_start (c : N) : bool :=
  if c <? 128 then is_letter c else unicode_xid_start c.

Definition xid_continue (c : N) : bool :=
  if c <? 128 then is_letter c || ((48 <=? c) && (c <=? 57)) || (c =? 95)
  else unicode_xid_continue c.

(** [name.isidentifier()] *)
Definition isidentifier (name : ustr) : bool :=
  match name with
  | [] => false
  | c :: rest => (xid_start c || (c =? 95)) && forallb xid_continue rest
  end.

(** [name.strip()] *)
Fixpoint lstrip (name : ustr) : ustr :=
  match name with
  | c :: rest => if isspace c then lstrip rest else name
  | [] => []
  end.
Definition strip (name : ustr) : ustr :=
  reverse (lstrip (reverse (lstrip name))).

Definition Default : ustr := of_ascii_string "Default".

Definition ustr_eqb (a b : ustr) : bool := bool_decide (a = b).

(** [MSC_OT_save_preset._sanitize_name(self, name_raw)] *)
Definition _sanitize_name (name_raw : ustr) : ustr :=
  let name := strip name_raw in
  if ustr_eqb name [] then []
  else if ustr_eqb name Default then []
  else
    (* Replace spaces with underscores to help the user *)
    let name := map (fun c => if c =? 32 then 95 else c) name in
    (* Now enforce identifier rules *)
    if negb (isidentifier name) then []
    else name.

(** The target name [MSC_OT_save_preset.execute] settles on before it
    writes the file; [None] is the [CANCELLED] return. *)
Definition save_target (active : ustr) (mode : string) (new_name : ustr)
    : option ustr :=
  let active := if ustr_eqb active [] then Default else active in
  if ustr_eqb active Default || String.eqb mode "NEW" then
    (* Must save as new *)
    let name := _sanitize_name new_name in
    if ustr_eqb name [] then None else Some name
  else
    (* Overwrite existing non-default preset *)
    Some active.
End Unicode.

(** ** The preset dropdown *)

(** An item of a dynamic enum: [(identifier, name, description)]. *)
Record EnumItem := mkItem {
  item_identifier : ustr;
  item_name : ustr;
  item_description : ustr
}.

Section Listing.
(** [lower fn] is [fn.lower()] and [splitext fn] is
    [os.path.splitext(fn)[0]]; [tr_default] and [tr_preset] are the
    translations of "Built-in default preset" and of "Preset ". *)
Context (unicode_xid_start unicode_xid_continue : N -> bool)
        (lower : ustr -> ustr) (splitext : ustr -> ustr)
        (tr_default tr_preset : ustr).

(** [s.endswith(suffix)] *)
Definition endswith (s suffix : ustr) : bool :=
  (length suffix <=? length s)%nat
  && ustr_eqb (drop (length s - length suffix) s) suffix.

(** One round of the loop over the directory listing: the item the file
    name [fn] adds, if any.  The line printed to the console for a name
    that is skipped is not part of the model. *)
Definition enum_item_of (fn : ustr) : option EnumItem :=
  if negb (endswith (lower fn) (of_ascii_string ".json")) then None
  else
    let base := splitext fn in  (* filename without .json *)
    if ustr_eqb base Default then None
    else if negb (isidentifier unicode_xid_start unicode_xid_continue base) then None
    else Some (mkItem base base (tr_preset ++ base)).

(** [preset_enum_items(self, context)]; [listing] is
    [sorted(os.listdir(folder))], or [None] when the folder does not exist
    or cannot be listed. *)
Definition preset_enum_items (listing : option (list ustr)) : list EnumItem :=
  mkItem Default Default tr_default
  :: match listing with
     | Some fns => omap enum_item_of fns
     | None => []
     end.
End Listing.

End Presets.

(* ================================================================== *)
(** * Vocabulary of the properties, and sample inputs *)
(* ================================================================== *)

Import Rna Events Presets.

(** ** Host calls of a redraw *)

Definition is_view3d (a : Area) : bool := String.eqb (area_type a) "VIEW_3D".

(** The [tag_redraw] calls one pass over [context.screen.areas] makes. *)
Definition view3d_tags (context : Context) : list HostCall :=
  map tag_redraw (List.filter is_view3d (ctx_screen_areas context)).

(** What the blocks of [modal] before the throttle leave alone. *)
Definition same_host (a b : World) : Prop :=
  _last_redraw_ts b = _last_redraw_ts a /\ host_log b = host_log a /\ clock b = clock a.

(** ** The watchdog's test *)

(** A button pressed at [t] is stuck at [now]. *)
Definition stuck (now t : float) : bool := (STUCK_TIMEOUT <? now - t)%float.
Global Arguments stuck : simpl never.

(** ** Valid settings and equality of serialized values *)

Definition int_in (lo hi z : Z) : Prop := lo <= z <= hi.

Definition float_in (lo hi f : float) : Prop :=
  (lo <=? f)%float = true /\ (f <=? hi)%float = true.

Definition color_in (c : list float) : Prop :=
  length c = 4%nat /\ Forall (float_in 0 1) c.

(** A settings object whose serialized properties hold values the
    declarations allow: enums among their items, numbers within their
    [min]/[max], colors of four components within [0, 1]. *)
Definition valid_settings (s : MSC_Settings) : Prop :=
  title_icon_mode s ∈ title_icon_mode_items /\
  title_builtin_icon s ∈ title_builtin_icon_items /\
  position s ∈ position_items /\
  int_in 8 256 (title_icon_size s) /\
  int_in 0 32 (title_icon_pad s) /\
  int_in 0 64 (title_font_size s) /\
  int_in 0 64 (font_size s) /\
  int_in 0 24 (corner_radius s) /\
  int_in (-4096) 4096 (offset_x s) /\
  int_in (-4096) 4096 (offset_y s) /\
  int_in 1 20 (history_count s) /\
  int_in 30 100 (mouse_glyph_size s) /\
  int_in 6 64 (mouse_sidecar_gap s) /\
  int_in 1 10 (mouse_outline_shade s) /\
  float_in 0 1 (bg_opacity s) /\
  float_in 0.25 30 (fade_seconds s) /\
  color_in (title_text_color s) /\
  color_in (bg_color s) /\
  color_in (text_color s) /\
  color_in (mouse_body_color s).

(** Equality of two serialized values as Python's [==] sees it: floats by
    the IEEE comparison, a tuple of floats element by element, anything else
    when it is the same value. *)
Definition same_float (x y : float) : Prop := (x =? y)%float = true.

Definition same_value (a b : value) : Prop :=
  match a, b with
  | VFloat x, VFloat y => same_float x y
  | VSeq l, VSeq m =>
      Forall2 (fun u v => match u, v with
                          | VFloat x, VFloat y => same_float x y
                          | _, _ => u = v
                          end) l m
  | _, _ => a = b
  end.

Definition same_items (d d' : list (string * value)) : Prop :=
  Forall2 (fun kv kv' => fst kv = fst kv' /\ same_value (snd kv) (snd kv')) d d'.

(** ** Sample inputs *)

Definition textinput_event : Event :=
  mkEvent "TEXTINPUT" "PRESS" false false false false false 0 0.

Definition wheel_up_event : Event :=
  mkEvent "WHEELUPMOUSE" "PRESS" false false false false false 0 0.

Definition view3d_context : Context :=
  mkContext (Some (mkArea 1 "VIEW_3D")) (Some (mkRegion "WINDOW" 800 600))
            [mkArea 1 "VIEW_3D"; mkArea 2 "OUTLINER"] [].

(** The module as imported, default settings, a clock that reads 0, 1, 2, ... *)
Definition idle_world : World :=
  mkWorld initial_state defaults 0 (fun n => Py.float_of_Z (Z.of_nat n)) 0 None None 0 [].

(** The same with the overlay running. *)
Definition running_world : World :=
  mkWorld (set_running true initial_state) defaults 0
          (fun n => Py.float_of_Z (Z.of_nat n)) 0 None None 0 [].

(** The left button held since time 0, seen at time 1. *)
Definition stuck_state : MSCState :=
  set_running true
    (set_button_times {["LEFTMOUSE" := 0%float]}
       (set_buttons_down {["LEFTMOUSE"]} initial_state)).

Definition stuck_world : World :=
  mkWorld stuck_state defaults 0 (fun _ => 1%float) 0 None None 0 [].


(** Two fresh lines in the history while [history_count] is 1. *)
Definition crowded_world : World :=
  mkWorld
    (set_events [mkInputEvent "A" 0; mkInputEvent "B" 0] initial_state)
    (Rna.setattr defaults "history_count" (VInt 1))
    0 (fun _ => 1%float) 0 None None 0 [].

(** A wheel-up group open since time 1, one line in the history, and a
    clock that advances by 0.02 s per reading. *)
Definition scrolling_world : World :=
  mkWorld
    (set_events [mkInputEvent "A" 0]
       (set_scroll_last_t 1 (set_scroll_count 1 (set_scroll_dir (Some "UP")
          (set_running true initial_state)))))
    defaults 0 (fun n => 1 + Py.float_of_Z (Z.of_nat n) * 0.02)%float 0 None None 0 [].

(** ** Invariants of the module state *)

(** Every button shown as held is the left or the right one and has a
    recorded press time, so the watchdog can release it. *)
Definition buttons_tracked (st : MSCState) : Prop :=
  forall b, b ∈ buttons_down st ->
    (b = "LEFTMOUSE" \/ b = "RIGHTMOUSE") /\ is_Some (button_times st !! b).

(** Two states with the same held buttons and press times. *)
Definition same_buttons (a b : MSCState) : Prop :=
  buttons_down b = buttons_down a /\ button_times b = button_times a.

(** ** Runs of callbacks *)

(** The entry points the host calls once the add-on is registered. *)
Inductive Callback :=
| Modal (context : Context) (event : Event)
| Draw (context : Context)
| Toggle (context : Context).

Section Run.
Context (gettext : option string -> string -> string)
        (import_locale : option string)
        (blf_dimensions : Z -> string -> float)
        (_ICON_DIR : string).

Definition call (w : World) (c : Callback) : World :=
  match c with
  | Modal context event =>
      snd (MSC_OT_modal_capture_modal gettext import_locale context event w)
  | Draw context => draw_callback_2d blf_dimensions _ICON_DIR context w
  | Toggle context => snd (MSC_OT_toggle_execute context w)
  end.

(** The world after the host has made the calls [cs], in order. *)
Definition run (cs : list Callback) (w : World) : World := foldl call w cs.
End Run.

(** Two worlds with the same settings, language preferences and clock. *)
Definition same_prefs (a b : World) : Prop :=
  settings b = settings a /\ addon_prefs b = addon_prefs a /\
  app_locale b = app_locale a /\ clock b = clock a.

(** ** Transform operators *)

(** An entry of [window_manager.operators] the transform monitor takes for
    a running transform: its [bl_idname] can be read and starts with
    [TRANSFORM_OT_]. *)
Definition is_transform (op : Operator) : bool :=
  match bl_idname op with
  | Some idname => Py.startswith idname "TRANSFORM_OT_"
  | None => false
  end.

(** ** Growth of the history *)

(** [new] keeps every entry of [old], in order and with its stamp (the text
    of an entry may have been rewritten), and has at most [n] entries more
    at its end. *)
Definition history_grows (n : nat) (old new : list InputEvent) : Prop :=
  exists kept added,
    new = kept ++ added /\ map t0 kept = map t0 old /\ (length added <= n)%nat.

(** ** Draw handlers *)

(** The effect of one host call on the draw handlers installed with the
    host. *)
Definition install (hs : list Handler) (c : HostCall) : list Handler :=
  match c with
  | draw_handler_add h => hs ++ [h]
  | draw_handler_remove h => List.filter (fun h' => negb (N.eqb h' h)) hs
  | _ => hs
  end.

(** The draw handlers installed after the host calls of [log]. *)
Definition installed (log : list HostCall) : list Handler := foldl install [] log.

(** The installed draw handlers are the one [MSCState.handler] records, if
    any, and no other. *)
Definition handler_accounted (w : World) : Prop :=
  installed (host_log w) = option_list (handler (state w)).

(** ** Scroll bursts *)


(** ** Ranges of the settings *)

(** The enum, integer and colour properties hold values their declarations
    allow.  (The two float properties are left out: the host's clamp lets a
    NaN through.) *)
Definition ranges_respected (s : MSC_Settings) : Prop :=
  title_icon_mode s ∈ title_icon_mode_items /\
  title_builtin_icon s ∈ title_builtin_icon_items /\
  position s ∈ position_items /\
  int_in 8 256 (title_icon_size s) /\
  int_in 0 32 (title_icon_pad s) /\
  int_in 0 64 (title_font_size s) /\
  int_in 0 64 (font_size s) /\
  int_in 0 24 (corner_radius s) /\
  int_in (-4096) 4096 (offset_x s) /\
  int_in (-4096) 4096 (offset_y s) /\
  int_in 1 20 (history_count s) /\
  int_in 30 100 (mouse_glyph_size s) /\
  int_in 6 64 (mouse_sidecar_gap s) /\
  int_in 1 10 (mouse_outline_shade s) /\
  color_in (title_text_color s) /\
  color_in (bg_color s) /\
  color_in (text_color s) /\
  color_in (mouse_body_color s).

(** A value that, stored in a colour property, gives components within
    [0, 1]. *)
Definition safe_color (v : value) : Prop :=
  forall cs, to_floats 4 v = Some cs -> Forall (float_in 0 1) cs.

(** ** Chronology of the history *)

(** The stamps of the history are readings of the clock made at strictly
    increasing ticks, all of them in the past. *)
Definition chronological (w : World) : Prop :=
  exists ks : list nat,
    map t0 (events (state w)) = map (clock w) ks /\
    StronglySorted lt ks /\
    Forall (fun k => (k < ticks w)%nat) ks.

(** A clock that never runs backwards. *)
Definition monotone (clock : nat -> float) : Prop :=
  forall i j, (i <= j)%nat -> (clock i <=? clock j)%float = true.

(** The clock is the same and time has not gone back. *)
Definition later (a b : World) : Prop :=
  clock b = clock a /\ (ticks a <= ticks b)%nat.

(** ** More sample inputs *)

Definition left_press_event : Event :=
  mkEvent "LEFTMOUSE" "PRESS" false false false false false 0 0.

Definition key_press_event : Event :=
  mkEvent "A" "PRESS" false true false false false 0 0.

(** A second 3D viewport of the same screen. *)
Definition other_view3d_context : Context :=
  mkContext (Some (mkArea 3 "VIEW_3D")) (Some (mkRegion "WINDOW" 640 480))
            [mkArea 1 "VIEW_3D"; mkArea 3 "VIEW_3D"] [].

(** The overlay running with its box recorded at (10, 10), 200 by 100. *)
Definition boxed_world : World :=
  upd_state (set_box_rect (Some (10, 10, 200, 100))) running_world.

(** The same while the box is dragged, grabbed 5 pixels from its corner. *)
Definition dragging_world : World :=
  upd_state (fun st => set_drag_dy 5 (set_drag_dx 5 (set_dragging true st))) boxed_world.

(** A preset dict with values out of range, of the wrong type and unknown. *)
Definition hostile_preset : list (string * value) :=
  [("font_size", VInt 9999);
   ("bg_color", VSeq [VFloat nan; VFloat 2; VInt (-1); VBool true]);
   ("position", VStr "NOWHERE");
   ("history_count", VStr "many");
   ("no_such_property", VNone)].

(** ** Language preferences *)

(** Two worlds with the same language preferences. *)
Definition same_locale (a b : World) : Prop :=
  addon_prefs b = addon_prefs a /\ app_locale b = app_locale a.

(** A 3D viewport in which a translation is under way. *)
Definition transform_context : Context :=
  mkContext (Some (mkArea 1 "VIEW_3D")) (Some (mkRegion "WINDOW" 800 600))
            [mkArea 1 "VIEW_3D"] [mkOperator (Some "TRANSFORM_OT_translate") None].

(** ** The active preset *)

(** What reading [active_preset] can give: the host keeps the value of a
    dynamic enum among the identifiers of its items, and reads it as the
    empty string when it is not. *)
Definition readable_preset (items : list EnumItem) (active : ustr) : Prop :=
  active = [] \/ active ∈ map item_identifier items.

(** ** The grab *)

(** The press that grabs the overlay: a left press (or left tweak) inside
    the recorded box, in a 3D viewport window with dragging enabled, with
    Shift when the settings ask for it, while this area is the active one or
    none is, or the overlay follows the pointer ([limit_one_per_screen]). *)
Definition grabs (context : Context) (event : Event) (w : World) : bool :=
  drag_enable (settings w) && _is_view3d_window context
  && Py.mem (ev_type event) ["LEFTMOUSE"; "EVT_TWEAK_L"]
  && String.eqb (ev_value event) "PRESS"
  && _point_in_rect (mouse_region_x event) (mouse_region_y event) (box_rect (state w))
  && (negb (drag_requires_shift (settings w)) || shift event)
  && (limit_one_per_screen (settings w)
      || bool_decide (active_area (state w) = None)
      || area_is (active_area (state w)) (ctx_area context)).

(** ** ASCII names *)

(** A string of ASCII characters only, on which the byte-wise case mappings
    of [Py] are Python's. *)
Definition is_ascii (s : string) : bool :=
  Py.str_forallb (fun c => (nat_of_ascii c <? 128)%nat) s.

(* ================================================================== *)
(** * Properties *)
(* ================================================================== *)

(** ** Order facts about binary64 comparisons

    Python's [<], [<=] and [==] on floats are the IEEE comparisons; they are
    related here through their specification on [spec_float]. *)

Section FloatOrder.
Local Open Scope float_scope.

Lemma SFcompare_antisym (x y : spec_float) :
  SFcompare y x = option_map CompOpp (SFcompare x y).
Proof.
  destruct x as [sx|sx| |sx mx ex], y as [sy|sy| |sy my ey]; cbn;
    try reflexivity; try (by destruct sx); try (by destruct sy);
    try (by destruct sx, sy).
  destruct sx, sy; cbn; try reflexivity; f_equal;
    rewrite (Z.compare_antisym ex ey);
    destruct (ex ?= ey)%Z; cbn; try reflexivity;
    change (Pos.compare_cont Eq my mx) with (my ?= mx)%positive;
    change (Pos.compare_cont Eq mx my) with (mx ?= my)%positive;
    rewrite (Pos.compare_antisym mx my); reflexivity.
Qed.

Lemma SFcompare_refl (x : spec_float) :
  x <> S754_nan -> SFcompare x x = Some Eq.
Proof.
  destruct x as [s|s| |s m e]; cbn; intros H; try done.
  - by destruct s.
  - destruct s; rewrite Z.compare_refl;
      change (Pos.compare_cont Eq m m) with (m ?= m)%positive;
      by rewrite Pos.compare_refl.
Qed.

Lemma SFcompare_some_not_nan (x y : spec_float) (c : comparison) :
  SFcompare x y = Some c -> x <> S754_nan /\ y <> S754_nan.
Proof. destruct x, y; cbn; intros H; split; congruence. Qed.

(** The three-way reading of a pair of floats. *)
Lemma float_compare_cases (x y : float) :
  match SFcompare (Prim2SF x) (Prim2SF y) with
  | Some Lt => (x <? y) = true /\ (x <=? y) = true /\ (x =? y) = false /\
               (y <? x) = false /\ (y <=? x) = false /\ (y =? x) = false
  | Some Eq => (x <? y) = false /\ (x <=? y) = true /\ (x =? y) = true /\
               (y <? x) = false /\ (y <=? x) = true /\ (y =? x) = true
  | Some Gt => (x <? y) = false /\ (x <=? y) = false /\ (x =? y) = false /\
               (y <? x) = true /\ (y <=? x) = true /\ (y =? x) = false
  | None => (x <? y) = false /\ (x <=? y) = false /\ (x =? y) = false /\
            (y <? x) = false /\ (y <=? x) = false /\ (y =? x) = false
  end.
Proof.
  rewrite !FloatAxioms.ltb_spec, !FloatAxioms.leb_spec, !FloatAxioms.eqb_spec.
  unfold SFltb, SFleb, SFeqb.
  rewrite (SFcompare_antisym (Prim2SF x) (Prim2SF y)).
  by destruct (SFcompare (Prim2SF x) (Prim2SF y)) as [[]|].
Qed.

Lemma leb_not_gtb (x y : float) : (x <=? y) = true -> (y <? x) = false.
Proof.
  pose proof (float_compare_cases x y) as H.
  destruct (SFcompare _ _) as [[]|]; destruct H as (?&?&?&?&?&?); congruence.
Qed.

Lemma ltb_not_geb (x y : float) : (x <? y) = true -> (y <=? x) = false.
Proof.
  pose proof (float_compare_cases x y) as H.
  destruct (SFcompare _ _) as [[]|]; destruct H as (?&?&?&?&?&?); congruence.
Qed.

Lemma leb_not_ltb_eqb (x y : float) :
  (x <=? y) = true -> (x <? y) = false -> (x =? y) = true /\ (y =? x) = true.
Proof.
  pose proof (float_compare_cases x y) as H.
  destruct (SFcompare _ _) as [[]|]; destruct H as (?&?&?&?&?&?); split; congruence.
Qed.

(** A float that compares with anything is not a NaN, hence equal to itself. *)
Lemma leb_eqb_refl_l (x y : float) : (x <=? y) = true -> (x =? x) = true.
Proof.
  intros H. rewrite FloatAxioms.leb_spec in H. rewrite FloatAxioms.eqb_spec. unfold SFleb in H. unfold SFeqb.
  destruct (SFcompare (Prim2SF x) (Prim2SF y)) as [c|] eqn:E; [|done].
  apply SFcompare_some_not_nan in E as [Hx _].
  by rewrite SFcompare_refl.
Qed.

Lemma leb_eqb_refl_r (x y : float) : (x <=? y) = true -> (y =? y) = true.
Proof.
  intros H. rewrite FloatAxioms.leb_spec in H. rewrite FloatAxioms.eqb_spec. unfold SFleb in H. unfold SFeqb.
  destruct (SFcompare (Prim2SF x) (Prim2SF y)) as [c|] eqn:E; [|done].
  apply SFcompare_some_not_nan in E as [_ Hy].
  by rewrite SFcompare_refl.
Qed.

(** Among floats that are not NaN, "not greater" is "at most". *)
Lemma not_gtb_leb (x y : float) :
  (x =? x) = true -> (y =? y) = true -> (y <? x) = false -> (x <=? y) = true.
Proof.
  intros Hx Hy Hgt.
  pose proof (float_compare_cases x y) as H.
  destruct (SFcompare (Prim2SF x) (Prim2SF y)) as [[]|] eqn:E;
    destruct H as (?&?&?&?&?&?); try congruence.
  exfalso. rewrite FloatAxioms.eqb_spec in Hx, Hy. unfold SFeqb in Hx, Hy.
  destruct (Prim2SF x) as [| | |] eqn:Ex, (Prim2SF y) as [| | |] eqn:Ey;
    cbn in E, Hx, Hy; try discriminate.
Qed.
End FloatOrder.

(** ** Frame facts about the host helpers *)

Lemma tag_view3d_areas_spec (context : Context) (w : World) :
  tag_view3d_areas context w =
  set_host_log (host_log w ++ map tag_redraw (List.filter is_view3d (ctx_screen_areas context))) w.
Proof.
  unfold tag_view3d_areas.
  generalize (ctx_screen_areas context) as areas. intros areas.
  revert w. induction areas as [|a areas IH]; intros w; cbn [foldl List.filter map].
  - rewrite app_nil_r. by destruct w.
  - unfold is_view3d at 1. destruct (String.eqb (area_type a) "VIEW_3D").
    + rewrite IH. unfold host, set_host_log. cbn. by rewrite <- app_assoc.
    + apply IH.
Qed.

Lemma retext_last_snoc (txt : string) (before : list InputEvent) (ev : InputEvent) :
  retext_last txt (before ++ [ev]) = before ++ [mkInputEvent txt (t0 ev)].
Proof. unfold retext_last. rewrite reverse_snoc. by rewrite reverse_involutive. Qed.

Lemma retext_last_length (txt : string) (evs : list InputEvent) :
  length (retext_last txt evs) = length evs.
Proof.
  destruct evs as [|ev before _] using rev_ind; [done|].
  rewrite retext_last_snoc. by rewrite !length_app.
Qed.

(** ** Scroll grouping *)

(** C1: [_handle_scroll_grouping] reads the clock ([now]), and with a window
    of 0.08 s either groups the wheel event with the previous one of the same
    direction (count incremented, timestamp updated, last history entry
    retexted to the label with the count, nothing appended), or starts a new
    group (direction recorded, count 1, exactly one entry appended with the
    plain label). *)
Theorem scroll_grouping_groups_or_appends
    (gettext : option string -> string -> string) (direction : string) (w : World) :
  let now := clock w (ticks w) in
  let st := state w in
  let st' := state (_handle_scroll_grouping gettext direction w) in
  let base_lbl :=
    if String.eqb direction "UP"
    then gettext (_active_locale w) "Scroll (↑)"
    else gettext (_active_locale w) "Scroll (↓)" in
  Py.fmax 0.08 (Py.float_of_Z SCROLL_GROUP_MS / 1000) = 0.08%float /\
  if bool_decide (scroll_dir st = Some direction)
     && (now - scroll_last_t st <=? 0.08)%float
  then
    scroll_dir st' = Some direction /\
    scroll_count st' = scroll_count st + 1 /\
    scroll_last_t st' = now /\
    length (events st') = length (events st) /\
    forall before ev, events st = before ++ [ev] ->
      events st' =
      before ++ [mkInputEvent (base_lbl +:+ " ×" +:+ pretty (scroll_count st + 1)) (t0 ev)]
  else
    scroll_dir st' = Some direction /\
    scroll_count st' = 1 /\
    scroll_last_t st' = now /\
    events st' = events st ++ [mkInputEvent base_lbl (clock w (S (S (ticks w))))].
Proof.
  cbv zeta. split; [reflexivity|].
  unfold _handle_scroll_grouping, _bump_wheel_active, _append_event, _now, tr,
    _active_locale.
  cbn.
  change (Py.fmax 0.08 (Py.float_of_Z SCROLL_GROUP_MS / 1000))%float with 0.08%float.
  destruct (bool_decide (scroll_dir (state w) = Some direction)) eqn:Hdir;
    [destruct (clock w (ticks w) - scroll_last_t (state w) <=? 0.08)%float eqn:Hwin|];
    cbn.
  - apply bool_decide_eq_true in Hdir.
    repeat split; try done.
    + apply retext_last_length.
    + intros before ev ->. apply retext_last_snoc.
  - done.
  - done.
Qed.

Lemma scroll_grouping_groups_or_appends_witness :
  let st' := state (_handle_scroll_grouping (fun _ msg => msg) "UP" scrolling_world) in
  scroll_count st' = 2 /\ events st' = [mkInputEvent "Scroll (↑) ×2" 0].
Proof.
  cbv zeta.
  pose proof (scroll_grouping_groups_or_appends (fun _ msg => msg) "UP" scrolling_world) as H.
  cbv zeta in H. destruct H as [_ H].
  change (bool_decide (scroll_dir (state scrolling_world) = Some "UP")
          && (clock scrolling_world (ticks scrolling_world)
              - scroll_last_t (state scrolling_world) <=? 0.08)%float)
    with true in H.
  destruct H as (_ & Hcount & _ & _ & Hlast).
  split; [exact Hcount|exact (Hlast [] (mkInputEvent "A" 0) eq_refl)].
Defined.

(** A wheel press that is not a key repeat is handed to the scroll grouping,
    with the direction of the wheel, and yields no label of its own. *)
Lemma label_from_event_wheel
    (gettext : option string -> string -> string) (import_locale : option string)
    (event : Event) (w : World) :
  Py.mem (ev_type event) _WHEEL_TYPES = true ->
  ev_value event = "PRESS" ->
  is_repeat event = false ->
  _label_from_event gettext import_locale event w =
  (None,
   _handle_scroll_grouping gettext
     (if Py.mem (ev_type event) ["WHEELUPMOUSE"; "WHEELINMOUSE"] then "UP" else "DOWN") w).
Proof.
  destruct event as [t v rep c s a o x y]. cbn [ev_type ev_value is_repeat].
  intros Hty -> ->.
  unfold Py.mem, _WHEEL_TYPES in Hty. cbn in Hty.
  rewrite !orb_true_iff, !String.eqb_eq in Hty.
  destruct Hty as [->|[->|[->|[->|?]]]]; try discriminate; reflexivity.
Qed.

(** The name on a standalone modifier line comes from [_MOD_KEYS], which
    holds the translations of the locale that was active when the module was
    imported, whatever the active locale is when the key is pressed. *)
Lemma modifier_label_is_import_time
    (gettext : option string -> string -> string) (import_locale : option string)
    (event : Event) (w : World) :
  ev_type event = "LEFT_SHIFT" ->
  ev_value event = "PRESS" ->
  is_repeat event = false ->
  show_modifiers (settings w) = true ->
  fst (_label_from_event gettext import_locale event w)
  = Some (gettext import_locale "Shift" +:+ " ↓").
Proof.
  destruct event as [t v rep c s a o x y]. cbn [ev_type ev_value is_repeat].
  intros -> -> -> Hshow. unfold _label_from_event. cbn. by rewrite Hshow.
Qed.

(** ** Layout *)

Lemma imax_imin_between (lo hi x : Z) :
  lo <= hi -> lo <= Py.imax lo (Py.imin hi x) <= hi.
Proof.
  intros Hle. unfold Py.imax, Py.imin.
  destruct (Z.ltb_spec x hi); [destruct (Z.ltb_spec lo x)|destruct (Z.ltb_spec lo hi)]; lia.
Qed.

(** C4: when the box leaves room for the 10-pixel margin on both axes,
    [_resolve_position] places it inside the region with that margin, for
    every position string (the nine anchors included) and all offsets. *)
Theorem resolve_position_within_margin (rw rh bw bh : Z) (s : MSC_Settings) :
  bw <= rw - 20 -> bh <= rh - 20 ->
  let '(bx, by_) := _resolve_position rw rh bw bh s in
  10 <= bx <= rw - bw - 10 /\ 10 <= by_ <= rh - bh - 10.
Proof.
  intros Hw Hh. unfold _resolve_position. cbv zeta.
  split; apply imax_imin_between; lia.
Qed.

Lemma resolve_position_within_margin_witness :
  _resolve_position 800 600 200 100 defaults = (74, 87) /\
  10 <= 74 <= 800 - 200 - 10 /\ 10 <= 87 <= 600 - 100 - 10.
Proof.
  split; [reflexivity|].
  exact (resolve_position_within_margin 800 600 200 100 defaults ltac:(lia) ltac:(lia)).
Defined.

(** ** Start/Stop *)

(** C7: [MSC_OT_toggle.execute] on a running overlay stops it and resets the
    module state, removing the installed draw handler; on a stopped overlay
    it sets [running], installs the draw handler unless one is installed, and
    invokes the modal capture operator.  Either way it finishes by tagging
    the 3D views. *)
Theorem toggle_execute_starts_or_stops (context : Context) (w : World) :
  let st := state w in
  let w' := snd (MSC_OT_toggle_execute context w) in
  let st' := state w' in
  let tags := map tag_redraw (List.filter is_view3d (ctx_screen_areas context)) in
  fst (MSC_OT_toggle_execute context w) = "FINISHED" /\
  if running st then
    running st' = false /\
    handler st' = None /\
    events st' = [] /\
    buttons_down st' = ∅ /\
    button_times st' = ∅ /\
    transform_active st' = false /\
    transform_kind st' = None /\
    transform_axis st' = None /\
    wheel_active_until st' = 0%float /\
    scroll_dir st' = None /\
    scroll_count st' = 0 /\
    scroll_last_t st' = 0%float /\
    active_area st' = None /\
    host_log w' =
      host_log w
      ++ match handler st with Some h => [draw_handler_remove h] | None => [] end
      ++ [report "INFO" "MoCast: stopped"] ++ tags
  else
    running st' = true /\
    active_area st' = None /\
    handler st' = Some (default (handlers_issued w) (handler st)) /\
    host_log w' =
      host_log w
      ++ match handler st with Some _ => [] | None => [draw_handler_add (handlers_issued w)] end
      ++ [invoke_modal_capture; report "INFO" "MoCast: started"] ++ tags.
Proof.
  cbv zeta. unfold MSC_OT_toggle_execute. cbn [fst snd].
  split; [reflexivity|].
  rewrite tag_view3d_areas_spec.
  destruct (running (state w)) eqn:Hrun; cbn [negb];
    destruct (handler (state w)) as [h|] eqn:Hh; cbn; rewrite ?Hh; cbn;
    repeat split; try done; by rewrite <- ?app_assoc.
Qed.

(** ** The stuck-button watchdog *)

Lemma release_if_stuck_times (now : float) (st : MSCState) (b k : string) :
  button_times (release_if_stuck now st b) !! k =
  match button_times st !! k with
  | Some t => if bool_decide (k = b) && stuck now t then None else Some t
  | None => None
  end.
Proof.
  unfold release_if_stuck.
  destruct (button_times st !! b) as [t|] eqn:Hb;
    [change (STUCK_TIMEOUT <? now - t)%float with (stuck now t);
     destruct (stuck now t) eqn:Hs|];
    cbn [button_times set_button_times set_buttons_down];
    (destruct (decide (k = b)) as [->|Hne];
     [rewrite bool_decide_eq_true_2 by done|rewrite bool_decide_eq_false_2 by done]).
  - by rewrite lookup_delete_eq, Hb, Hs.
  - rewrite lookup_delete_ne by done. by destruct (button_times st !! k).
  - by rewrite Hb, Hs.
  - by destruct (button_times st !! k).
  - by rewrite Hb.
  - by destruct (button_times st !! k).
Qed.

Lemma release_if_stuck_down (now : float) (st : MSCState) (b k : string) :
  k ∈ buttons_down (release_if_stuck now st b) <->
  k ∈ buttons_down st /\
  ~ (k = b /\ exists t, button_times st !! b = Some t /\ stuck now t = true).
Proof.
  unfold release_if_stuck.
  destruct (button_times st !! b) as [t|] eqn:Hb;
    [change (STUCK_TIMEOUT <? now - t)%float with (stuck now t);
     destruct (stuck now t) eqn:Hs|];
    cbn [buttons_down set_button_times set_buttons_down].
  - rewrite elem_of_difference, elem_of_singleton. split.
    + intros [Hin Hne]. split; [done|]. by intros [? _].
    + intros [Hin Hno]. split; [done|]. intros ->. apply Hno. eauto.
  - split; [|by intros [? _]]. intros Hin. split; [done|].
    intros [_ (t' & Ht' & Hst)]. congruence.
  - split; [|by intros [? _]]. intros Hin. split; [done|].
    intros [_ (t' & Ht' & _)]. congruence.
Qed.

Lemma watchdog_loop_times (now : float) (ks : list string) (st : MSCState) (k : string) :
  button_times (foldl (release_if_stuck now) st ks) !! k =
  match button_times st !! k with
  | Some t => if bool_decide (k ∈ ks) && stuck now t then None else Some t
  | None => None
  end.
Proof.
  revert st. induction ks as [|b ks IH]; intros st; cbn [foldl].
  - destruct (button_times st !! k); [|done].
    rewrite bool_decide_eq_false_2; [done|]. apply not_elem_of_nil.
  - rewrite IH, release_if_stuck_times.
    destruct (button_times st !! k) as [t|]; [|done].
    destruct (decide (k = b)) as [->|Hne].
    + rewrite (bool_decide_eq_true_2 (b = b)) by done.
      rewrite (bool_decide_eq_true_2 (b ∈ b :: ks)) by (apply elem_of_cons; by left).
      destruct (stuck now t) eqn:Hs; cbn; by rewrite ?Hs, ?andb_false_r.
    + rewrite (bool_decide_eq_false_2 (k = b)) by done. cbn.
      destruct (decide (k ∈ ks)) as [Hin|Hnin].
      * rewrite (bool_decide_eq_true_2 (k ∈ ks)) by done.
        by rewrite (bool_decide_eq_true_2 (k ∈ b :: ks)) by (apply elem_of_cons; by right).
      * rewrite (bool_decide_eq_false_2 (k ∈ ks)) by done.
        rewrite (bool_decide_eq_false_2 (k ∈ b :: ks)); [done|].
        rewrite elem_of_cons. tauto.
Qed.

Lemma watchdog_loop_down (now : float) (ks : list string) (st : MSCState) (k : string) :
  k ∈ buttons_down (foldl (release_if_stuck now) st ks) <->
  k ∈ buttons_down st /\
  ~ (k ∈ ks /\ exists t, button_times st !! k = Some t /\ stuck now t = true).
Proof.
  revert st. induction ks as [|b ks IH]; intros st; cbn [foldl].
  - split; [|by intros [? _]]. intros Hin. split; [done|].
    intros [Hk _]. by apply not_elem_of_nil in Hk.
  - rewrite IH, release_if_stuck_down. split.
    + intros [[Hin Hb] Hks]. split; [done|].
      intros [Hk (t & Ht & Hst)]. apply elem_of_cons in Hk as [->|Hk].
      * apply Hb. eauto.
      * apply Hks. split; [done|]. exists t. split; [|done].
        rewrite release_if_stuck_times, Ht.
        destruct (decide (k = b)) as [->|Hne].
        -- exfalso. apply Hb. eauto.
        -- by rewrite bool_decide_eq_false_2.
    + intros [Hin Hno]. split; [split; [done|]|].
      * intros [-> (t & Ht & Hst)]. apply Hno. split; [apply elem_of_cons; auto|eauto].
      * intros [Hk (t & Ht & Hst)]. apply Hno. split; [apply elem_of_cons; auto|].
        rewrite release_if_stuck_times in Ht.
        destruct (button_times st !! k) as [t'|] eqn:Hk'; [|done].
        destruct (bool_decide (k = b) && stuck now t'); [done|].
        exists t. by simplify_eq.
Qed.

Lemma watchdog_keys (m : gmap string float) (k : string) :
  k ∈ map fst (map_to_list m) <-> is_Some (m !! k).
Proof.
  rewrite list_elem_of_fmap. split.
  - intros ([k' t] & -> & Hin). apply elem_of_map_to_list in Hin. by exists t.
  - intros [t Ht]. exists (k, t). split; [done|]. by apply elem_of_map_to_list.
Qed.

(** C2: a running [modal] first reads the clock and runs the watchdog, and
    what follows (event labelling included) sees the state the watchdog
    left.  The watchdog removes from [button_times] and from [buttons_down]
    every button pressed more than [STUCK_TIMEOUT] = 0.6 s before, and keeps
    the rest; so every entry that remains is not older than 0.6 s. *)
Theorem modal_watchdog_releases_stuck_buttons
    (gettext : option string -> string -> string) (import_locale : option string)
    (context : Context) (event : Event) (w : World) :
  running (state w) = true ->
  let now := clock w (ticks w) in
  let st := state w in
  let st' := watchdog now st in
  STUCK_TIMEOUT = 0.6%float /\
  MSC_OT_modal_capture_modal gettext import_locale context event w =
    modal_after_watchdog gettext import_locale context event
      (upd_state (watchdog now) (set_ticks (S (ticks w)) w)) /\
  (forall b t, button_times st !! b = Some t ->
     (STUCK_TIMEOUT <? now - t)%float = true ->
     button_times st' !! b = None /\ b ∉ buttons_down st') /\
  (forall b t, button_times st !! b = Some t ->
     (STUCK_TIMEOUT <? now - t)%float = false ->
     button_times st' !! b = Some t /\ (b ∈ buttons_down st' <-> b ∈ buttons_down st)) /\
  (forall b t, button_times st' !! b = Some t ->
     button_times st !! b = Some t /\
     (STUCK_TIMEOUT <? now - t)%float = false /\
     ((now - t =? now - t)%float = true -> (now - t <=? STUCK_TIMEOUT)%float = true)).
Proof.
  intros Hrun. cbv zeta.
  split; [reflexivity|]. split.
  { unfold MSC_OT_modal_capture_modal. by rewrite Hrun. }
  unfold watchdog.
  assert (Hk : forall b t, button_times (state w) !! b = Some t ->
                 bool_decide (b ∈ map fst (map_to_list (button_times (state w)))) = true).
  { intros b t Hb. apply bool_decide_eq_true_2, watchdog_keys. eauto. }
  repeat split.
  - rewrite watchdog_loop_times, H. fold (stuck (clock w (ticks w)) t) in H0.
    by rewrite (Hk b t H), H0.
  - rewrite watchdog_loop_down. intros [_ Hno]. apply Hno.
    split; [apply watchdog_keys; eauto|]. eauto.
  - rewrite watchdog_loop_times, H. fold (stuck (clock w (ticks w)) t) in H0.
    by rewrite H0, andb_false_r.
  - rewrite watchdog_loop_down. by intros [? _].
  - intros Hin. rewrite watchdog_loop_down. split; [done|].
    intros [_ (t' & Ht' & Hst)]. unfold stuck in Hst. congruence.
  - rewrite watchdog_loop_times in H.
    destruct (button_times (state w) !! b) as [t'|]; [|done].
    destruct (_ && _); by simplify_eq.
  - rewrite watchdog_loop_times in H.
    destruct (button_times (state w) !! b) as [t'|] eqn:Hb; [|done].
    rewrite (Hk b t' Hb) in H. cbn in H.
    destruct (stuck (clock w (ticks w)) t') eqn:Hs; [done|]. by simplify_eq.
  - intros Hnum. apply not_gtb_leb; [done|reflexivity|].
    rewrite watchdog_loop_times in H.
    destruct (button_times (state w) !! b) as [t'|] eqn:Hb; [|done].
    rewrite (Hk b t' Hb) in H. cbn in H.
    destruct (stuck (clock w (ticks w)) t') eqn:Hs; [done|]. by simplify_eq.
Qed.

Lemma modal_watchdog_releases_stuck_buttons_witness :
  button_times (watchdog 1 stuck_state) !! "LEFTMOUSE" = None /\
  "LEFTMOUSE" ∉ buttons_down (watchdog 1 stuck_state).
Proof.
  destruct (modal_watchdog_releases_stuck_buttons
              (fun _ msg => msg) None view3d_context textinput_event stuck_world eq_refl)
    as (_ & _ & Hstuck & _).
  apply (Hstuck "LEFTMOUSE" 0%float); reflexivity.
Defined.

(** ** The rolling history *)

Lemma slice_from_last {A} (n : Z) (l : list A) :
  1 <= n ->
  Py.slice_from (- n) l = drop (length l - Z.to_nat n) l /\
  Z.of_nat (length (drop (length l - Z.to_nat n) l)) <= n.
Proof.
  intros Hn. unfold Py.slice_from.
  destruct (Z.ltb_spec (- n) 0) as [_|?]; [|lia].
  split.
  - f_equal. lia.
  - rewrite length_drop. lia.
Qed.

Lemma filter_elem_of {A} (f : A -> bool) (l : list A) (x : A) :
  x ∈ List.filter f l <-> x ∈ l /\ f x = true.
Proof. rewrite !list_elem_of_In. apply filter_In. Qed.

(** C3, as the code has it: [gather_lines] drops from the history every
    event older than [fade_seconds] and returns the texts of the last
    [history_count] events that remain (all of them if there are fewer);
    when there is nothing to return and [show_idle_hint] is set, it returns
    the idle hint line instead, flagged as idle. *)
Theorem gather_lines_expires_and_truncates (w : World) :
  1 <= history_count (settings w) ->
  let s := settings w in
  let now := clock w (ticks w) in
  let kept := List.filter (fun ev => (now - t0 ev <=? fade_seconds s)%float)
                (events (state w)) in
  let shown := drop (length kept - Z.to_nat (history_count s)) kept in
  let lines := fst (fst (gather_lines w)) in
  let idle := snd (fst (gather_lines w)) in
  let w' := snd (gather_lines w) in
  events (state w') = kept /\
  (forall ev, ev ∈ events (state w) ->
     (fade_seconds s <? now - t0 ev)%float = true -> ev ∉ events (state w')) /\
  (forall ev, ev ∈ events (state w') ->
     ev ∈ events (state w) /\ (now - t0 ev <=? fade_seconds s)%float = true) /\
  Z.of_nat (length shown) <= history_count s /\
  match shown with
  | [] => if show_idle_hint s
          then lines = [idle_hint_text s] /\ idle = true
          else lines = [] /\ idle = false
  | _ :: _ => lines = map text shown /\ idle = false
  end.
Proof.
  intros Hhc. cbv zeta.
  unfold gather_lines, _now. cbn.
  set (kept := List.filter _ (events (state w))).
  destruct (slice_from_last (history_count (settings w)) kept Hhc) as [-> Hlen].
  set (shown := drop _ kept) in *.
  assert (Hkept : forall ev, ev ∈ kept ->
            ev ∈ events (state w) /\
            (clock w (ticks w) - t0 ev <=? fade_seconds (settings w))%float = true).
  { intros ev Hev. by apply filter_elem_of in Hev. }
  split; [by destruct shown; destruct (show_idle_hint (settings w))|].
  split.
  { intros ev Hin Hold Hin'.
    assert (Hin'' : ev ∈ kept) by (by destruct shown; destruct (show_idle_hint (settings w))).
    apply Hkept in Hin'' as [_ Hfresh].
    apply ltb_not_geb in Hold. congruence. }
  split.
  { intros ev Hin. apply Hkept.
    by destruct shown; destruct (show_idle_hint (settings w)). }
  split; [done|].
  destruct shown as [|ev shown']; cbn.
  - by destruct (show_idle_hint (settings w)).
  - done.
Qed.

Lemma gather_lines_expires_and_truncates_witness :
  fst (fst (gather_lines crowded_world)) = ["B"] /\
  snd (fst (gather_lines crowded_world)) = false /\
  map text (events (state (snd (gather_lines crowded_world)))) = ["A"; "B"].
Proof.
  pose proof (gather_lines_expires_and_truncates crowded_world ltac:(done)) as H.
  cbv zeta in H. destruct H as (Hev & _ & _ & _ & Hlines).
  split; [exact (proj1 Hlines)|]. split; [exact (proj2 Hlines)|].
  rewrite Hev. reflexivity.
Defined.

(** C3 as stated fails in two places.  On the idle overlay (empty history,
    default settings) the returned line is the idle hint, which is the text
    of no event.  And with two fresh events and [history_count] = 1 the
    history keeps both events although only the last one is returned: what
    lies beyond [history_count] is not displayed, but it is retained. *)
Lemma gather_lines_idle_hint_and_retention :
  (fst (fst (gather_lines idle_world)) = ["Momentum Screencast Overlay"] /\
   map text (events (state (snd (gather_lines idle_world)))) = []) /\
  (history_count (settings crowded_world) = 1 /\
   fst (fst (gather_lines crowded_world)) = ["B"] /\
   map text (events (state (snd (gather_lines crowded_world)))) = ["A"; "B"]).
Proof. repeat split. Qed.

(** ** The draw callback *)

Lemma draw_lines_state (size x ty line_h : Z) (color : list float)
    (lines : list string) (w : World) :
  state (draw_lines size x ty line_h color lines w) = state w.
Proof.
  revert ty w. induction lines as [|tx rest IH]; intros ty w; cbn; [done|].
  by rewrite IH.
Qed.

Lemma draw_two_box_overlay_state (blf_dimensions : Z -> string -> float)
    (_ICON_DIR : string) (lines : list string) (context : Context) (w : World) :
  state (snd (_draw_two_box_overlay blf_dimensions _ICON_DIR lines context w)) = state w.
Proof.
  unfold _draw_two_box_overlay.
  destruct (_measure_brand_box _ _ _) as [[[[[brand_w brand_h] bpad] title_pre] icon_sz] icon_path].
  destruct (_measure_events_box _ _ _) as [[[ev_w ev_h] epad] line_h].
  destruct (ctx_region context) as [region|]; [|done].
  destruct (_resolve_position _ _ _ _ _) as [bx by_]. cbn.
  rewrite draw_lines_state.
  repeat (case_match; cbn); done.
Qed.

Lemma sidecar_state (evx evy evw evh : Z) (idle_only : bool) (region : Region) (w : World) :
  state (_draw_mouse_sidecar_for_events evx evy evw evh idle_only region w) = state w.
Proof. unfold _draw_mouse_sidecar_for_events. by case_match. Qed.

Lemma gather_lines_state (w : World) :
  state (snd (gather_lines w)) =
  set_events
    (List.filter (fun ev => (clock w (ticks w) - t0 ev <=? fade_seconds (settings w))%float)
       (events (state w)))
    (state w).
Proof. unfold gather_lines, _now. cbn. by case_match. Qed.




(** ** The redraw throttle *)

Lemma same_host_refl (w : World) : same_host w w.
Proof. by unfold same_host. Qed.

Lemma same_host_trans (a b c : World) : same_host a b -> same_host b c -> same_host a c.
Proof. unfold same_host. intros (?&?&?) (?&?&?). repeat split; congruence. Qed.

Ltac frame :=
  unfold same_host; repeat (case_match; simplify_eq); cbn; try done.

Lemma append_event_same_host (t : string) (w : World) : same_host w (_append_event t w).
Proof. unfold _append_event, _now. frame. Qed.

Lemma handle_scroll_grouping_same_host
    (gettext : option string -> string -> string) (direction : string) (w : World) :
  same_host w (_handle_scroll_grouping gettext direction w).
Proof.
  unfold _handle_scroll_grouping, _bump_wheel_active, _append_event, _now. cbn. frame.
Qed.

Lemma label_from_event_same_host
    (gettext : option string -> string -> string) (import_locale : option string)
    (event : Event) (w : World) :
  same_host w (snd (_label_from_event gettext import_locale event w)).
Proof.
  unfold _label_from_event.
  destruct (_ || _); [apply same_host_refl|].
  destruct (is_repeat event); [apply same_host_refl|].
  destruct (dict_get _ _); [unfold _now; frame|].
  destruct (_ && _); [apply handle_scroll_grouping_same_host|].
  unfold _bump_wheel_active, _now. cbn. frame.
Qed.

Lemma tick_transform_monitor_same_host
    (gettext : option string -> string -> string) (context : Context) (w : World) :
  same_host w (_tick_transform_monitor gettext context w).
Proof.
  unfold _tick_transform_monitor, transform_off, _append_event, _now. cbn. frame.
Qed.

Lemma modal_labels_same_host
    (gettext : option string -> string -> string) (import_locale : option string)
    (context : Context) (event : Event) (w : World) :
  same_host w (modal_labels gettext import_locale context event w).
Proof.
  unfold modal_labels.
  destruct (_ || _); [|apply same_host_refl].
  pose proof (label_from_event_same_host gettext import_locale event w) as H.
  destruct (_label_from_event _ _ _ _) as [label w1]. cbn [snd] in H.
  destruct (truthy label); [|done].
  eapply same_host_trans; [exact H|apply append_event_same_host].
Qed.

Lemma modal_follow_area_same_host (context : Context) (event : Event) (w : World) :
  same_host w (modal_follow_area context event w).
Proof. unfold modal_follow_area. frame. Qed.

Lemma modal_drag_same_host (context : Context) (event : Event) (w : World) :
  match modal_drag context event w with
  | Return (_, w') => same_host w w'
  | Continue w' => same_host w w'
  end.
Proof. unfold modal_drag. frame. Qed.

(** A modal callback either stops before the throttle, having left the
    host alone, or reaches the throttle in a world where the host is as it
    was on entry. *)
Lemma modal_reaches_throttle
    (gettext : option string -> string -> string) (import_locale : option string)
    (context : Context) (event : Event) (w : World) :
  same_host w (snd (MSC_OT_modal_capture_modal gettext import_locale context event w))
  \/ exists w5, same_host w w5 /\
       snd (MSC_OT_modal_capture_modal gettext import_locale context event w)
       = modal_redraw context w5.
Proof.
  unfold MSC_OT_modal_capture_modal.
  destruct (running (state w)); cbn [negb]; [|left; apply same_host_refl].
  unfold _now. cbv iota beta.
  set (w1 := upd_state _ _).
  assert (H1 : same_host w w1) by (subst w1; unfold same_host; by cbn).
  clearbody w1.
  unfold modal_after_watchdog.
  pose proof (modal_follow_area_same_host context event w1) as H2.
  set (w2 := modal_follow_area context event w1) in *. clearbody w2.
  pose proof (modal_drag_same_host context event w2) as H3.
  destruct (modal_drag context event w2) as [[r w3]|w3]; cbn [snd].
  { left. eauto using same_host_trans. }
  pose proof (modal_labels_same_host gettext import_locale context event w3) as H4.
  set (w4 := modal_labels _ _ _ _ w3) in *. clearbody w4.
  pose proof (tick_transform_monitor_same_host gettext context w4) as H5.
  set (w5 := _tick_transform_monitor _ _ w4) in *. clearbody w5.
  right. exists w5. split; [eauto 6 using same_host_trans|done].
Qed.

(** One modal callback either leaves the host log and the recorded timestamp
    as they were, or makes one redraw pass: at least [_REDRAW_MIN_INTERVAL]
    after the recorded timestamp, it tags the 3D views and records the time
    it read. *)
Lemma modal_step_throttled
    (gettext : option string -> string -> string) (import_locale : option string)
    (context : Context) (event : Event) (w : World) :
  let w' := snd (MSC_OT_modal_capture_modal gettext import_locale context event w) in
  (host_log w' = host_log w /\ _last_redraw_ts w' = _last_redraw_ts w)
  \/ ((_REDRAW_MIN_INTERVAL <=? _last_redraw_ts w' - _last_redraw_ts w)%float = true /\
      _last_redraw_ts w' = clock w (pred (ticks w')) /\
      host_log w' = host_log w ++ view3d_tags context).
Proof.
  cbv zeta.
  destruct (modal_reaches_throttle gettext import_locale context event w)
    as [(Hts & Hlog & _)|(w5 & (Hts & Hlog & Hclk) & ->)]; [by left|].
  unfold modal_redraw, _now.
  cbn [_last_redraw_ts set_ticks ticks clock].
  destruct (_REDRAW_MIN_INTERVAL <=? _)%float eqn:Hle.
  - right. rewrite tag_view3d_areas_spec. cbn.
    rewrite Hts in Hle. rewrite Hlog, <- Hclk. by repeat split.
  - left. cbn. done.
Qed.

(** Two successive worlds of a run are one modal callback apart. *)
Lemma modal_run_step
    (gettext : option string -> string -> string) (import_locale : option string)
    (inputs : list (Context * Event)) (w : World) (i : nat) (a b : World) :
  modal_run gettext import_locale inputs w !! i = Some a ->
  modal_run gettext import_locale inputs w !! S i = Some b ->
  exists context event,
    inputs !! i = Some (context, event) /\
    b = snd (MSC_OT_modal_capture_modal gettext import_locale context event a).
Proof.
  revert w i. induction inputs as [|[context event] rest IH]; intros w i Ha Hb; cbn in *.
  - destruct i; done.
  - destruct i as [|i]; cbn in *.
    + simplify_eq. exists context, event. split; [done|].
      destruct rest as [|[c e] rest']; cbn in Hb; by simplify_eq.
    + eapply IH; eassumption.
Qed.

(** C10: along every run of the modal callback, a step either leaves the
    host log and the recorded redraw timestamp untouched, or is a redraw pass:
    it happens at least 0.05 s after the recorded timestamp, tags the 3D
    views, and records the time it read.  Hence two successive passes are
    never less than 0.05 s apart. *)
Theorem modal_redraw_is_throttled
    (gettext : option string -> string -> string) (import_locale : option string)
    (inputs : list (Context * Event)) (w : World) :
  let trace := modal_run gettext import_locale inputs w in
  _REDRAW_MIN_INTERVAL = 0.05%float /\
  (forall i a b, trace !! i = Some a -> trace !! S i = Some b ->
     (host_log b = host_log a /\ _last_redraw_ts b = _last_redraw_ts a)
     \/ exists context event,
          inputs !! i = Some (context, event) /\
          (_REDRAW_MIN_INTERVAL <=? _last_redraw_ts b - _last_redraw_ts a)%float = true /\
          _last_redraw_ts b = clock a (pred (ticks b)) /\
          host_log b = host_log a ++ view3d_tags context) /\
  (forall i j a b c d,
     (i < j)%nat ->
     trace !! i = Some a -> trace !! S i = Some b ->
     trace !! j = Some c -> trace !! S j = Some d ->
     _last_redraw_ts b <> _last_redraw_ts a ->
     _last_redraw_ts d <> _last_redraw_ts c ->
     (forall k x y, (i < k < j)%nat -> trace !! k = Some x -> trace !! S k = Some y ->
        _last_redraw_ts y = _last_redraw_ts x) ->
     (_REDRAW_MIN_INTERVAL <=? _last_redraw_ts d - _last_redraw_ts b)%float = true).
Proof.
  cbv zeta. set (trace := modal_run gettext import_locale inputs w).
  assert (Hstep : forall i a b, trace !! i = Some a -> trace !! S i = Some b ->
     (host_log b = host_log a /\ _last_redraw_ts b = _last_redraw_ts a)
     \/ exists context event,
          inputs !! i = Some (context, event) /\
          (_REDRAW_MIN_INTERVAL <=? _last_redraw_ts b - _last_redraw_ts a)%float = true /\
          _last_redraw_ts b = clock a (pred (ticks b)) /\
          host_log b = host_log a ++ view3d_tags context).
  { intros i a b Ha Hb.
    destruct (modal_run_step gettext import_locale inputs w i a b Ha Hb)
      as (context & event & Hin & ->).
    destruct (modal_step_throttled gettext import_locale context event a) as [H|H];
      [by left|right; by exists context, event]. }
  split; [reflexivity|]. split; [exact Hstep|].
  intros i j a b c d Hij Ha Hb Hc Hd Hpass_i Hpass_j Hquiet.
  assert (Hsame : forall n x, (S i + n <= j)%nat -> trace !! (S i + n)%nat = Some x ->
            _last_redraw_ts x = _last_redraw_ts b).
  { induction n as [|n IH]; intros x Hn Hx.
    - rewrite Nat.add_0_r in Hx. congruence.
    - destruct (trace !! (S i + n)%nat) as [y|] eqn:Hy.
      + rewrite <- (IH y) by (lia || done).
        apply (Hquiet (S i + n)%nat y x); [lia|done|].
        by replace (S (S i + n)) with (S i + S n)%nat by lia.
      + apply lookup_ge_None in Hy. apply lookup_lt_Some in Hx. lia. }
  assert (Hcb : _last_redraw_ts c = _last_redraw_ts b).
  { apply (Hsame (j - S i)%nat); [lia|]. by replace (S i + (j - S i))%nat with j by lia. }
  destruct (Hstep j c d Hc Hd) as [[_ Hno]|(context & event & _ & Hle & _)]; [done|].
  by rewrite <- Hcb.
Qed.

Lemma modal_redraw_is_throttled_witness :
  let a := running_world in
  let b := snd (MSC_OT_modal_capture_modal (fun _ msg => msg) None
                  view3d_context textinput_event running_world) in
  (host_log b = host_log a /\ _last_redraw_ts b = _last_redraw_ts a)
  \/ exists context event,
       [(view3d_context, textinput_event)] !! 0%nat = Some (context, event) /\
       (_REDRAW_MIN_INTERVAL <=? _last_redraw_ts b - _last_redraw_ts a)%float = true /\
       _last_redraw_ts b = clock a (pred (ticks b)) /\
       host_log b = host_log a ++ view3d_tags context.
Proof.
  cbv zeta.
  apply (proj1 (proj2 (modal_redraw_is_throttled (fun _ msg => msg) None
                         [(view3d_context, textinput_event)] running_world)) 0%nat);
    reflexivity.
Defined.

(** ** Preset names *)

Lemma underscore_spaces_inv (name target : ustr) :
  Forall (fun c => c <> 95%N) target ->
  map (fun c => if (c =? 32)%N then 95%N else c) name = target ->
  name = target.
Proof.
  revert target. induction name as [|c name IH]; intros [|d target] Hno Heq;
    cbn in Heq; try done.
  apply Forall_cons in Hno as [Hd Hno]. simplify_eq.
  f_equal; [|by apply IH].
  destruct (c =? 32)%N; [done|reflexivity].
Qed.

Lemma preset_items_identifiers
    (unicode_xid_start unicode_xid_continue : N -> bool)
    (lower splitext : ustr -> ustr) (tr_default tr_preset : ustr)
    (listing : option (list ustr)) (x : ustr) :
  x ∈ map item_identifier
        (preset_enum_items unicode_xid_start unicode_xid_continue lower splitext
           tr_default tr_preset listing) ->
  x = Default \/
  (x <> Default /\ isidentifier unicode_xid_start unicode_xid_continue x = true).
Proof.
  unfold preset_enum_items. cbn [map item_identifier].
  intros [->|Hx]%elem_of_cons; [by left|].
  right. destruct listing as [fns|]; [|by apply not_elem_of_nil in Hx].
  induction fns as [|fn fns IH]; cbn in Hx; [by apply not_elem_of_nil in Hx|].
  destruct (enum_item_of _ _ _ _ _ fn) as [item|] eqn:Hitem; cbn in Hx; [|by apply IH].
  apply elem_of_cons in Hx as [->|Hx]; [|by apply IH].
  unfold enum_item_of, ustr_eqb in Hitem.
  destruct (negb (endswith _ _)); [done|].
  case_bool_decide as Hdef; [done|].
  destruct (isidentifier _ _ _) eqn:Hid; cbn [negb] in Hitem; [|done].
  by simplify_eq.
Qed.

(** C9: whatever the input, [_sanitize_name] returns the empty string or a
    non-empty identifier other than [Default]; the name [execute] then saves
    under is never empty and never [Default], and it is an identifier: a new
    name because it was sanitized, the active preset's name because the
    dropdown [preset_enum_items] only offers identifiers. *)
Theorem sanitize_name_identifier_or_empty
    (unicode_space unicode_xid_start unicode_xid_continue : N -> bool)
    (name_raw : ustr) :
  let sanitize := _sanitize_name unicode_space unicode_xid_start unicode_xid_continue in
  let identifier := isidentifier unicode_xid_start unicode_xid_continue in
  (sanitize name_raw = []
   \/ (sanitize name_raw <> [] /\
       identifier (sanitize name_raw) = true /\
       sanitize name_raw <> Default)) /\
  (forall active mode target,
     save_target unicode_space unicode_xid_start unicode_xid_continue
       active mode name_raw = Some target ->
     target <> [] /\ target <> Default /\
     (target = active \/ (target = sanitize name_raw /\ identifier target = true))) /\
  (forall lower splitext tr_default tr_preset listing active mode target,
     readable_preset
       (preset_enum_items unicode_xid_start unicode_xid_continue lower splitext
          tr_default tr_preset listing)
       active ->
     save_target unicode_space unicode_xid_start unicode_xid_continue
       active mode name_raw = Some target ->
     target <> [] /\ target <> Default /\ identifier target = true).
Proof.
  cbv zeta.
  assert (Hsan : _sanitize_name unicode_space unicode_xid_start unicode_xid_continue name_raw = []
    \/ (_sanitize_name unicode_space unicode_xid_start unicode_xid_continue name_raw <> [] /\
        isidentifier unicode_xid_start unicode_xid_continue
          (_sanitize_name unicode_space unicode_xid_start unicode_xid_continue name_raw) = true /\
        _sanitize_name unicode_space unicode_xid_start unicode_xid_continue name_raw <> Default)).
  { unfold _sanitize_name, ustr_eqb.
    set (name := strip unicode_space name_raw).
    case_bool_decide as Hempty; [by left|].
    case_bool_decide as Hdefault; [by left|].
    set (name' := map _ name).
    destruct (isidentifier unicode_xid_start unicode_xid_continue name') eqn:Hid;
      cbn [negb]; [right|by left].
    repeat split.
    - intros E. by rewrite E in Hid.
    - done.
    - intros E. apply Hdefault. apply underscore_spaces_inv in E; [done|].
      unfold Default. cbn. repeat constructor; done. }
  assert (Hsave : forall active mode target,
     save_target unicode_space unicode_xid_start unicode_xid_continue
       active mode name_raw = Some target ->
     target <> [] /\ target <> Default /\
     (target = active \/
      (target = _sanitize_name unicode_space unicode_xid_start unicode_xid_continue name_raw /\
       isidentifier unicode_xid_start unicode_xid_continue target = true))).
  { intros active mode target. unfold save_target, ustr_eqb.
    set (active' := if bool_decide (active = []) then Default else active).
    case_bool_decide as Hdef; cbn [orb].
    - case_bool_decide as Hempty; [done|]. intros [= <-].
      destruct Hsan as [?|(?&?&?)]; [done|]. repeat split; auto.
    - destruct (String.eqb mode "NEW").
      + case_bool_decide as Hempty; [done|]. intros [= <-].
        destruct Hsan as [?|(?&?&?)]; [done|]. repeat split; auto.
      + intros [= <-]. subst active'.
        case_bool_decide as Hact; [done|]. repeat split; auto. }
  split; [exact Hsan|]. split; [exact Hsave|].
  intros lower splitext tr_default tr_preset listing active mode target Hread Htarget.
  destruct (Hsave active mode target Htarget) as (Hne & Hnd & [->|[_ Hid]]); [|done].
  repeat split; [done..|].
  destruct Hread as [->|Hin]; [done|].
  apply preset_items_identifiers in Hin as [->|[_ Hid]]; done.
Qed.

Lemma sanitize_name_identifier_or_empty_witness :
  let quiet := fun _ : N => false in
  _sanitize_name quiet quiet quiet (of_ascii_string "  my preset ") = of_ascii_string "my_preset" /\
  _sanitize_name quiet quiet quiet (of_ascii_string " Default ") = [] /\
  _sanitize_name quiet quiet quiet (of_ascii_string "../evil") = [] /\
  of_ascii_string "my_preset" <> Default /\
  isidentifier quiet quiet (of_ascii_string "studio") = true.
Proof.
  cbv zeta. do 3 (split; [reflexivity|]). split.
  - apply (proj1 (proj2 (sanitize_name_identifier_or_empty
                  (fun _ => false) (fun _ => false) (fun _ => false)
                  (of_ascii_string "  my preset ")))
           [] "NEW" (of_ascii_string "my_preset") eq_refl).
  - apply (proj2 (proj2 (sanitize_name_identifier_or_empty
                  (fun _ => false) (fun _ => false) (fun _ => false)
                  (of_ascii_string "  my preset ")))
           (fun fn => fn) (fun fn => take (length fn - 5) fn) [] []
           (Some [of_ascii_string "../evil.json"; of_ascii_string "studio.json"])
           (of_ascii_string "studio") "OVERWRITE" (of_ascii_string "studio")).
    + right. vm_compute. set_solver.
    + reflexivity.
Defined.

(** ** Preset round trip *)

Lemma store_int (lo hi z : Z) :
  - 2 ^ 31 <= lo -> hi < 2 ^ 31 -> int_in lo hi z ->
  clamp_int lo hi <$> to_int (VInt z) = Some z.
Proof.
  unfold int_in, to_int, clamp_int. intros Hlo Hhi [H1 H2].
  destruct (Z.leb_spec (- 2 ^ 31) z); [|lia].
  destruct (Z.ltb_spec z (2 ^ 31)); [|lia]. cbn.
  destruct (Z.ltb_spec z lo); [lia|].
  destruct (Z.ltb_spec hi z); [lia|done].
Qed.

Lemma store_enum (items : list string) (x : string) :
  x ∈ items -> to_enum items (VStr x) = Some x.
Proof. intros H. unfold to_enum. by rewrite bool_decide_eq_true_2. Qed.

Lemma store_float (lo hi f : float) :
  float_in lo hi f -> clamp_float lo hi <$> to_float (VFloat f) = Some f.
Proof.
  intros [H1 H2]. cbn. unfold clamp_float.
  by rewrite (leb_not_gtb lo f H1), (leb_not_gtb f hi H2).
Qed.

Lemma float_in_same (lo hi f : float) : float_in lo hi f -> same_float f f.
Proof. intros [H _]. exact (leb_eqb_refl_r lo f H). Qed.

Lemma clamp_unit_same (c : float) :
  float_in 0 1 c -> same_float (clamp_float 0 1 (clamp01 c)) c.
Proof.
  intros [H0 H1]. unfold clamp01, Py.fmax, Py.fmin, same_float.
  destruct (c <? 1)%float eqn:Hlt1.
  - destruct (0 <? c)%float eqn:Hlt0.
    + unfold clamp_float.
      rewrite (leb_not_gtb 0 c H0), (leb_not_gtb c 1 H1).
      exact (leb_eqb_refl_r 0 c H0).
    + change (clamp_float 0 1 0) with 0%float.
      exact (proj1 (leb_not_ltb_eqb 0 c H0 Hlt0)).
  - change (0 <? 1)%float with true. cbv iota.
    change (clamp_float 0 1 1) with 1%float.
    exact (proj2 (leb_not_ltb_eqb c 1 H1 Hlt1)).
Qed.

(** Negative zero lies within [0, 1] for the comparisons; the clamp returns
    positive zero for it, which [==] does not tell apart. *)
Lemma clamp01_negative_zero :
  float_in 0 1 (- 0)%float /\ clamp01 (- 0)%float = 0%float /\ same_float 0 (- 0)%float.
Proof. repeat split. Qed.

Section ColorStore.
Context (float_of_str : string -> option float).

Lemma mapM_py_float_floats (cs : list float) :
  mapM (py_float float_of_str) (map VFloat cs) = Some cs.
Proof. induction cs as [|c cs IH]; [done|]. cbn. by rewrite IH. Qed.

Lemma clamp_color_tuple_color (cs : list float) :
  _clamp_color_tuple float_of_str (color cs) = color (map clamp01 cs).
Proof.
  unfold _clamp_color_tuple, color. cbn [iterate mbind option_bind].
  rewrite mapM_py_float_floats. by rewrite map_map.
Qed.
End ColorStore.

Lemma mapM_to_float_floats (cs : list float) : mapM to_float (map VFloat cs) = Some cs.
Proof. induction cs as [|c cs IH]; [done|]. cbn. by rewrite IH. Qed.

Lemma store_color (cs : list float) :
  length cs = 4%nat ->
  map (clamp_float 0 1) <$> to_floats 4 (color (map clamp01 cs))
  = Some (map (fun c => clamp_float 0 1 (clamp01 c)) cs).
Proof.
  intros Hlen. unfold to_floats, color. rewrite !length_map, Hlen. cbn [Nat.eqb].
  rewrite mapM_to_float_floats. cbn. by rewrite map_map.
Qed.

Lemma same_color (cs : list float) :
  Forall (float_in 0 1) cs ->
  same_value (color (map (fun c => clamp_float 0 1 (clamp01 c)) cs)) (color cs).
Proof.
  intros H. unfold same_value, color.
  induction H as [|c cs Hc _ IH]; cbn; constructor; [by apply clamp_unit_same|done].
Qed.

Lemma setattr_position (s : MSC_Settings) (x : string) :
  x ∈ position_items ->
  Rna.setattr s "position" (VStr x) =
  _on_position_update (assign_property "position" (VStr x) s).
Proof.
  intros H. unfold Rna.setattr. rewrite (store_enum _ _ H). cbn [String.eqb Ascii.eqb Bool.eqb andb].
  by rewrite bool_decide_eq_true_2.
Qed.

Ltac reduce_assignments :=
  cbv [foldl hasattr Py.mem existsb String.eqb Ascii.eqb Bool.eqb property_names color_keys
       orb andb negb Presets.setattr Rna.setattr assign_property _on_position_update
       BoolProperty IntProperty FloatProperty FloatVectorProperty StringProperty EnumProperty
       assign to_bool
       ui_show_advanced show_title title_text title_icon_mode title_builtin_icon
       title_icon_path title_icon_auto title_icon_size title_icon_pad title_font_size
       title_text_color font_size bg_color bg_opacity text_color corner_radius position
       offset_x offset_y history_count fade_seconds show_keys show_mouse show_modifiers
       show_idle_hint idle_hint_text show_transform_axis drag_enable drag_requires_shift
       show_mouse_glyph mouse_glyph_size mouse_sidecar_gap mouse_hide_when_idle
       mirror_mouse_lr mouse_use_custom_body mouse_body_color mouse_outline_shade
       mouse_show_tail limit_one_per_screen].

(** C5: applying the dict of a valid settings object [s] to any settings
    object [s2] leaves every serialized property of [s2] equal to its value
    on [s]: serializing the result gives the items of [s] back, key by key. *)
Theorem preset_round_trip
    (float_of_str : string -> option float)
    (assign_active_preset : value -> MSC_Settings -> MSC_Settings)
    (s s2 : MSC_Settings) :
  valid_settings s ->
  same_items
    (_settings_to_dict
       (_apply_settings_from_dict float_of_str assign_active_preset s2 (_settings_to_dict s)))
    (_settings_to_dict s).
Proof.
  intros (Hmode & Hicon & Hpos & Hisz & Hipad & Htfs & Hfs & Hcr & Hox & Hoy & Hhc & Hgs &
          Hgap & Hshade & Hop & Hfade & [Lttc Cttc] & [Lbg Cbg] & [Ltc Ctc] & [Lmb Cmb]).
  destruct s, s2. cbn [title_icon_mode title_builtin_icon position title_icon_size
    title_icon_pad title_font_size font_size corner_radius offset_x offset_y history_count
    mouse_glyph_size mouse_sidecar_gap mouse_outline_shade bg_opacity fade_seconds
    title_text_color bg_color text_color mouse_body_color] in *.
  unfold _apply_settings_from_dict. unfold _settings_to_dict at 2.
  cbv [foldl hasattr Py.mem existsb String.eqb Ascii.eqb Bool.eqb property_names color_keys
       orb andb negb Presets.setattr
       ui_show_advanced show_title title_text title_icon_mode title_builtin_icon
       title_icon_path title_icon_auto title_icon_size title_icon_pad title_font_size
       title_text_color font_size bg_color bg_opacity text_color corner_radius position
       offset_x offset_y history_count fade_seconds show_keys show_mouse show_modifiers
       show_idle_hint idle_hint_text show_transform_axis drag_enable drag_requires_shift
       show_mouse_glyph mouse_glyph_size mouse_sidecar_gap mouse_hide_when_idle
       mirror_mouse_lr mouse_use_custom_body mouse_body_color mouse_outline_shade
       mouse_show_tail limit_one_per_screen].
  rewrite (setattr_position _ _ Hpos).
  rewrite !clamp_color_tuple_color.
  unfold _settings_to_dict.
  reduce_assignments.
  rewrite !store_int by (done || lia).
  rewrite !store_enum by done.
  rewrite !store_float by done.
  rewrite !store_color by done.
  cbv [default id].
  unfold same_items.
  repeat (constructor; [split; [reflexivity|]; cbn [snd]|]);
    try constructor; try reflexivity;
    eauto using same_color;
    cbn [same_value]; eauto using float_in_same.
Qed.

Lemma defaults_valid : valid_settings defaults.
Proof.
  unfold valid_settings, int_in, float_in, color_in. cbn.
  repeat split; try lia; try reflexivity;
    try (apply bool_decide_unpack; reflexivity);
    repeat constructor.
Qed.

Lemma preset_round_trip_witness :
  same_items
    (_settings_to_dict
       (_apply_settings_from_dict (fun _ => None) (fun _ s => s)
          (Rna.setattr (Rna.setattr defaults "position" (VStr "TOP_RIGHT"))
             "font_size" (VInt 40))
          (_settings_to_dict defaults)))
    (_settings_to_dict defaults).
Proof.
  apply preset_round_trip.
  unfold valid_settings, int_in, float_in, color_in. cbn.
  repeat split; try lia; try reflexivity;
    try (apply bool_decide_unpack; reflexivity);
    repeat constructor.
Defined.

(* ================================================================== *)
(** * Events that yield no label *)
(* ================================================================== *)

(** ** What the blocks of the modal callback leave alone *)

Lemma tag_view3d_areas_state (context : Context) (w : World) :
  state (tag_view3d_areas context w) = state w.
Proof.
  unfold tag_view3d_areas. revert w.
  induction (ctx_screen_areas context) as [|a l IH]; intros w; cbn; [done|].
  rewrite IH. by case_match.
Qed.

Lemma modal_redraw_state (context : Context) (w : World) :
  state (modal_redraw context w) = state w.
Proof.
  unfold modal_redraw, _now. cbn. case_match; [|done]. cbn. by rewrite tag_view3d_areas_state.
Qed.

Lemma watchdog_events (now : float) (st : MSCState) : events (watchdog now st) = events st.
Proof.
  unfold watchdog. generalize (map fst (map_to_list (button_times st))).
  intros ks. revert st. induction ks as [|k ks IH]; intros st; [done|].
  cbn. rewrite IH. unfold release_if_stuck. by repeat case_match.
Qed.

Lemma modal_follow_area_events (context : Context) (event : Event) (w : World) :
  events (state (modal_follow_area context event w)) = events (state w).
Proof. unfold modal_follow_area. by case_match. Qed.

Lemma modal_drag_events (context : Context) (event : Event) (w : World) :
  match modal_drag context event w with
  | Return (_, w') => events (state w') = events (state w)
  | Continue w' => events (state w') = events (state w)
  end.
Proof. unfold modal_drag. repeat (case_match; simplify_eq); cbn; done. Qed.

(** ** Ignored events *)

Lemma same_locale_tr (gettext : option string -> string -> string) (a b : World) (msgid : string) :
  same_locale a b -> tr gettext b msgid = tr gettext a msgid.
Proof. intros [Hp Hl]. unfold tr, _active_locale. by rewrite Hp, Hl. Qed.

(** Up to the labelling block, a modal pass leaves the history and the
    language preferences alone. *)
Lemma modal_before_labels (context : Context) (event : Event) (w : World) (now : float) :
  let w2 := modal_follow_area context event
              (upd_state (watchdog now) (set_ticks (S (ticks w)) w)) in
  match modal_drag context event w2 with
  | Return (_, w') => events (state w') = events (state w)
  | Continue w' => events (state w') = events (state w) /\ same_locale w w'
  end.
Proof.
  cbv zeta.
  set (w1 := upd_state _ _).
  assert (H1 : events (state w1) = events (state w) /\ same_locale w w1).
  { subst w1. cbn. by rewrite watchdog_events. }
  clearbody w1. destruct H1 as [He1 Hl1].
  set (w2 := modal_follow_area _ _ _).
  assert (H2 : events (state w2) = events (state w) /\ same_locale w w2).
  { subst w2. rewrite modal_follow_area_events. split; [done|].
    unfold modal_follow_area. by case_match. }
  clearbody w2. destruct H2 as [He2 Hl2].
  pose proof (modal_drag_events context event w2) as H3.
  assert (H4 : match modal_drag context event w2 with
               | Return _ => True
               | Continue w' => same_locale w2 w'
               end).
  { unfold modal_drag, same_locale. repeat (case_match; simplify_eq); done. }
  destruct (modal_drag context event w2) as [[r w3]|w3]; [congruence|].
  split; [congruence|]. destruct Hl2, H4. split; congruence.
Qed.

(** C6: an event whose value is neither PRESS nor RELEASE, a TEXTINPUT
    event, and a key repeat all make [_label_from_event] return [None] at
    once, leaving the state alone, and the modal callback's labelling block
    then appends no text line.  The callback as a whole can still add a
    line during such an event, but only the transform monitor's: the history
    comes out as it went in, or with one line "Transform: ..." or "Axis ..."
    more, and unchanged when no transform operator is active. *)
Theorem label_from_event_ignored
    (gettext : option string -> string -> string) (import_locale : option string)
    (context : Context) (event : Event) (w : World) :
  (ev_value event <> "PRESS" /\ ev_value event <> "RELEASE")
  \/ ev_type event = "TEXTINPUT"
  \/ is_repeat event = true ->
  _label_from_event gettext import_locale event w = (None, w) /\
  modal_labels gettext import_locale context event w = w /\
  let w' := snd (MSC_OT_modal_capture_modal gettext import_locale context event w) in
  (events (state w') = events (state w) \/
   exists kind axis t,
     _active_transform_info context = Some (kind, axis) /\
     (events (state w')
      = events (state w) ++ [mkInputEvent (tr gettext w "Transform: " +:+ kind) t] \/
      events (state w')
      = events (state w)
        ++ [mkInputEvent (tr gettext w "Axis " +:+ default (tr gettext w "Free") axis) t])) /\
  (_active_transform_info context = None -> events (state w') = events (state w)).
Proof.
  intros H.
  assert (Hlabel : forall w0, _label_from_event gettext import_locale event w0 = (None, w0)).
  { intros w0. unfold _label_from_event.
    destruct H as [[Hp Hr]|[Ht|Hrep]].
    - replace (Py.mem (ev_value event) ["PRESS"; "RELEASE"]) with false.
      + by rewrite orb_true_r.
      + symmetry. unfold Py.mem. cbn. rewrite orb_false_r.
        apply orb_false_iff. split; by apply String.eqb_neq.
    - by rewrite Ht.
    - rewrite Hrep. by destruct (_ || _). }
  assert (Hblock : forall w0, modal_labels gettext import_locale context event w0 = w0).
  { intros w0. unfold modal_labels. rewrite Hlabel. by destruct (_ || _). }
  split; [apply Hlabel|]. split; [apply Hblock|].
  cbv zeta. unfold MSC_OT_modal_capture_modal.
  destruct (negb _); [by split; [left|]|]. unfold _now. cbv beta iota.
  unfold modal_after_watchdog.
  pose proof (modal_before_labels context event w (clock w (ticks w))) as Hpre.
  cbv zeta in Hpre.
  destruct (modal_drag context event _) as [[r w3]|w3]; cbn [snd]; [by split; [left|]|].
  destruct Hpre as [He Hloc].
  rewrite Hblock, modal_redraw_state.
  unfold _tick_transform_monitor, transform_off.
  destruct (negb (show_transform_axis (settings w3))).
  { split; [left|intros _]; by destruct (transform_active (state w3)). }
  destruct (_active_transform_info context) as [[kind axis]|].
  - split; [|done].
    assert (Htr : forall f msgid, tr gettext (upd_state f w3) msgid = tr gettext w msgid).
    { intros f msgid. by apply same_locale_tr. }
    destruct (negb (transform_active (state w3))).
    + right. exists kind, axis, (clock w3 (ticks w3)). split; [done|]. left.
      unfold _append_event, _now. cbn. by rewrite He, Htr.
    + destruct (negb (bool_decide _)); [|by left].
      right. exists kind, axis, (clock w3 (ticks w3)). split; [done|]. right.
      unfold _append_event, _now. cbn. by rewrite He, !Htr.
  - split; [left|intros _]; by destruct (transform_active (state w3)).
Qed.

Lemma label_from_event_ignored_witness :
  _label_from_event (fun _ msg => msg) None textinput_event running_world
  = (None, running_world) /\
  modal_labels (fun _ msg => msg) None view3d_context textinput_event running_world
  = running_world /\
  events (state (snd (MSC_OT_modal_capture_modal (fun _ msg => msg) None view3d_context
                        textinput_event running_world))) = [].
Proof.
  destruct (label_from_event_ignored (fun _ msg => msg) None view3d_context textinput_event
              running_world) as (Hl & Hb & _ & Hnone).
  - right. left. reflexivity.
  - split; [exact Hl|]. split; [exact Hb|]. exact (Hnone eq_refl).
Defined.

(** A TEXTINPUT event that reaches the modal callback while a translation is
    under way: the callback adds a line to an empty history. *)
Lemma modal_ignored_event_adds_transform_line :
  events (state running_world) = [] /\
  ev_type textinput_event = "TEXTINPUT" /\
  map text
    (events (state (snd (MSC_OT_modal_capture_modal (fun _ msg => msg) None
                           transform_context textinput_event running_world))))
  = ["Transform: Translate"].
Proof. repeat split. Qed.

(* ================================================================== *)
(** * Further properties of the code *)
(* ================================================================== *)

Set Warnings "-clear-no-such-hyp".

(** ** Membership in the key tables *)

Lemma mem_true (x : string) (l : list string) : Py.mem x l = true <-> x ∈ l.
Proof.
  unfold Py.mem. rewrite existsb_exists. split.
  - intros (y & Hin & Heq). apply String.eqb_eq in Heq. subst. by apply list_elem_of_In.
  - intros Hin. exists x. split; [by apply list_elem_of_In|apply String.eqb_refl].
Qed.

Lemma mem_false (x : string) (l : list string) : Py.mem x l = false <-> x ∉ l.
Proof.
  rewrite <- mem_true. destruct (Py.mem x l); split; intros; congruence.
Qed.

Lemma ignore_up_is_keyboard
    (gettext : option string -> string -> string) (import_locale : option string)
    (t : string) :
  Py.mem t _IGNORE_UP = true ->
  t <> "TEXTINPUT" /\
  dict_get (_MOD_KEYS gettext import_locale) t = None /\
  Py.mem t _WHEEL_TYPES = false /\
  Py.mem t _MOUSE_BUTTONS = false.
Proof.
  intros H. apply mem_true in H. vm_compute in H.
  repeat (apply elem_of_cons in H as [->|H]; [by vm_compute|]).
  by apply not_elem_of_nil in H.
Qed.

(** ** Held buttons *)

Lemma same_buttons_tracked (a b : MSCState) :
  same_buttons a b -> buttons_tracked a -> buttons_tracked b.
Proof. intros [Hd Ht] H b0. unfold buttons_tracked in *. rewrite Hd, Ht. apply H. Qed.

Lemma release_if_stuck_tracked (now : float) (st : MSCState) (b : string) :
  buttons_tracked st -> buttons_tracked (release_if_stuck now st b).
Proof.
  intros H. unfold release_if_stuck.
  destruct (button_times st !! b); [|done].
  destruct (_ <? _)%float; [|done].
  intros k. cbn. intros Hk. apply elem_of_difference in Hk as [Hk Hne].
  rewrite not_elem_of_singleton in Hne.
  destruct (H k Hk) as [? ?]. split; [done|]. by rewrite lookup_delete_ne.
Qed.

Lemma watchdog_tracked (now : float) (st : MSCState) :
  buttons_tracked st -> buttons_tracked (watchdog now st).
Proof.
  unfold watchdog. generalize (map fst (map_to_list (button_times st))).
  intros ks. revert st. induction ks as [|k ks IH]; intros st H; [done|].
  cbn. apply IH. by apply release_if_stuck_tracked.
Qed.

Lemma clear_buttons_tracked (st : MSCState) : buttons_tracked (clear_buttons st).
Proof. intros b. cbn. set_solver. Qed.

Lemma modal_follow_area_tracked (context : Context) (event : Event) (w : World) :
  buttons_tracked (state w) -> buttons_tracked (state (modal_follow_area context event w)).
Proof.
  intros H. unfold modal_follow_area. case_match; [|done]. cbn. intros b. cbn. set_solver.
Qed.

Lemma modal_drag_tracked (context : Context) (event : Event) (w : World) :
  buttons_tracked (state w) ->
  match modal_drag context event w with
  | Return (_, w') => buttons_tracked (state w')
  | Continue w' => buttons_tracked (state w')
  end.
Proof.
  intros H. unfold modal_drag.
  repeat (case_match; simplify_eq); cbn; try done; try (intros b; cbn; set_solver).
Qed.

Lemma append_event_buttons (t : string) (w : World) :
  same_buttons (state w) (state (_append_event t w)).
Proof. by unfold _append_event, _now. Qed.

Lemma handle_scroll_grouping_buttons
    (gettext : option string -> string -> string) (direction : string) (w : World) :
  same_buttons (state w) (state (_handle_scroll_grouping gettext direction w)).
Proof.
  unfold _handle_scroll_grouping, _bump_wheel_active, _append_event, _now. cbn.
  by case_match.
Qed.

Ltac tracked H :=
  let b := fresh "b" in
  let Hb := fresh "Hb" in
  intros b Hb; cbn in Hb |- *;
  rewrite ?elem_of_union, ?elem_of_difference, ?elem_of_singleton in Hb;
  rewrite ?lookup_insert_is_Some', ?lookup_delete_is_Some;
  pose proof (H b) as ?; naive_solver.

Lemma label_from_event_tracked
    (gettext : option string -> string -> string) (import_locale : option string)
    (event : Event) (w : World) :
  buttons_tracked (state w) ->
  buttons_tracked (state (snd (_label_from_event gettext import_locale event w))).
Proof.
  intros H. unfold _label_from_event.
  destruct (_ || _); [done|].
  destruct (is_repeat event); [done|].
  destruct (dict_get _ _); [unfold _now; by repeat case_match|].
  destruct (_ && _).
  { eapply same_buttons_tracked; [apply handle_scroll_grouping_buttons|done]. }
  unfold _bump_wheel_active, _now.
  destruct event as [t v rep c s a o x y]. cbn.
  destruct (String.eqb_spec t "MIDDLEMOUSE") as [->|Hmid].
  { cbn. repeat (case_match; simplify_eq); cbn; tracked H. }
  destruct (String.eqb_spec t "LEFTMOUSE") as [->|HL].
  { cbn. repeat (case_match; simplify_eq); cbn; tracked H. }
  destruct (String.eqb_spec t "RIGHTMOUSE") as [->|HR].
  { cbn. repeat (case_match; simplify_eq); cbn; tracked H. }
  cbn. repeat (case_match; simplify_eq); cbn; exact H.
Qed.

Lemma tick_transform_monitor_buttons
    (gettext : option string -> string -> string) (context : Context) (w : World) :
  same_buttons (state w) (state (_tick_transform_monitor gettext context w)).
Proof.
  unfold _tick_transform_monitor, transform_off, _append_event, _now, same_buttons.
  repeat (case_match; simplify_eq); cbn; done.
Qed.

Lemma modal_labels_tracked
    (gettext : option string -> string -> string) (import_locale : option string)
    (context : Context) (event : Event) (w : World) :
  buttons_tracked (state w) ->
  buttons_tracked (state (modal_labels gettext import_locale context event w)).
Proof.
  intros H. unfold modal_labels. destruct (_ || _); [|done].
  pose proof (label_from_event_tracked gettext import_locale event w H) as H1.
  destruct (_label_from_event _ _ _ _) as [label w1]. cbn [snd] in H1.
  destruct (truthy label); [|done].
  eapply same_buttons_tracked; [apply append_event_buttons|done].
Qed.

Lemma modal_tracked
    (gettext : option string -> string -> string) (import_locale : option string)
    (context : Context) (event : Event) (w : World) :
  buttons_tracked (state w) ->
  buttons_tracked (state (snd (MSC_OT_modal_capture_modal gettext import_locale context event w))).
Proof.
  intros H. unfold MSC_OT_modal_capture_modal.
  destruct (negb _); [done|]. unfold _now. cbn [fst snd].
  set (w1 := upd_state _ _).
  assert (H1 : buttons_tracked (state w1)) by (by apply watchdog_tracked).
  clearbody w1. unfold modal_after_watchdog.
  apply (modal_follow_area_tracked context event) in H1.
  set (w2 := modal_follow_area _ _ _) in *. clearbody w2.
  pose proof (modal_drag_tracked context event w2 H1) as H2.
  destruct (modal_drag context event w2) as [[r w3]|w3]; [done|]. cbn [snd].
  rewrite modal_redraw_state.
  eapply same_buttons_tracked; [apply tick_transform_monitor_buttons|].
  by apply modal_labels_tracked.
Qed.

Lemma toggle_tracked (context : Context) (w : World) :
  buttons_tracked (state w) ->
  buttons_tracked (state (snd (MSC_OT_toggle_execute context w))).
Proof.
  intros H. unfold MSC_OT_toggle_execute. cbn [snd]. rewrite tag_view3d_areas_state.
  repeat (case_match; simplify_eq); cbn; first [exact H|intros b; cbn; set_solver].
Qed.

Lemma same_prefs_refl (w : World) : same_prefs w w.
Proof. by unfold same_prefs. Qed.

Lemma same_prefs_trans (a b c : World) : same_prefs a b -> same_prefs b c -> same_prefs a c.
Proof. unfold same_prefs. intros (?&?&?&?) (?&?&?&?). repeat split; congruence. Qed.

Lemma same_prefs_locale (a b : World) : same_prefs a b -> _active_locale b = _active_locale a.
Proof. intros (_ & Hp & Hl & _). unfold _active_locale. by rewrite Hp, Hl. Qed.

Lemma draw_lines_prefs (size x ty line_h : Z) (color : list float)
    (lines : list string) (w : World) :
  same_prefs w (draw_lines size x ty line_h color lines w).
Proof.
  revert ty w. induction lines as [|tx rest IH]; intros ty w; cbn; [apply same_prefs_refl|].
  eapply same_prefs_trans; [|apply IH]. by unfold same_prefs.
Qed.

Lemma draw_two_box_overlay_prefs (blf_dimensions : Z -> string -> float)
    (_ICON_DIR : string) (lines : list string) (context : Context) (w : World) :
  same_prefs w (snd (_draw_two_box_overlay blf_dimensions _ICON_DIR lines context w)).
Proof.
  unfold _draw_two_box_overlay.
  destruct (_measure_brand_box _ _ _) as [[[[[brand_w brand_h] bpad] tpre] isz] ipath].
  destruct (_measure_events_box _ _ _) as [[[ev_w ev_h] epad] line_h].
  destruct (ctx_region context) as [region|]; [|apply same_prefs_refl].
  destruct (_resolve_position _ _ _ _ _) as [bx by_]. cbn.
  eapply same_prefs_trans; [|apply draw_lines_prefs].
  unfold same_prefs. repeat (case_match; cbn); done.
Qed.

(** What the draw callback does to the module state: it records the
    active locale, claims the area if none is active and the overlay is
    limited to one per screen, drops entries of the history, and may record
    the box.  It leaves the settings and the preferences alone. *)
Lemma draw_callback_state (blf_dimensions : Z -> string -> float) (_ICON_DIR : string)
    (context : Context) (w : World) :
  let w' := draw_callback_2d blf_dimensions _ICON_DIR context w in
  let area :=
    if limit_one_per_screen (settings w) && bool_decide (active_area (state w) = None)
    then ctx_area context else active_area (state w) in
  same_prefs w w' /\
  exists evs rect,
    state w' =
      set_box_rect rect (set_events evs (set_active_area area
        (set_current_locale (_active_locale w) (state w)))) /\
    sublist evs (events (state w)).
Proof.
  cbv zeta. unfold draw_callback_2d.
  set (w0 := if negb _ then _ else w).
  assert (H0 : same_prefs w w0 /\ exists evs,
            state w0 = set_events evs (set_current_locale (_active_locale w) (state w)) /\
            sublist evs (events (state w))).
  { subst w0. destruct (bool_decide _) eqn:Hl; cbn [negb].
    - apply bool_decide_eq_true in Hl. split; [apply same_prefs_refl|].
      exists (events (state w)). rewrite <- Hl. by destruct w as [[]].
    - split; [done|]. exists []. split; [done|apply sublist_nil_l]. }
  destruct H0 as (Hs0 & evs0 & H0 & Hsub0).
  assert (Ha0 : active_area (state w0) = active_area (state w)) by (by rewrite H0).
  rewrite <- Ha0.
  set (area := if _ && _ then ctx_area context else _).
  clearbody w0.
  set (w1 := if _ && _ then _ else w0).
  assert (H1 : same_prefs w w1 /\
            state w1 = set_active_area area
                         (set_events evs0 (set_current_locale (_active_locale w) (state w)))).
  { subst w1 area. destruct (_ && _); cbn; rewrite H0; [done|].
    split; [done|]. by destruct w as [[]]. }
  clearbody w1 area. destruct H1 as (Hs1 & H1).
  destruct (_ && negb _).
  { split; [done|]. exists evs0, (box_rect (state w)). rewrite H1. by destruct w as [[]]. }
  pose proof (gather_lines_state w1) as Hg.
  assert (Hgs : same_prefs w1 (snd (gather_lines w1))).
  { unfold gather_lines, _now, same_prefs. cbn. by case_match. }
  destruct (gather_lines w1) as [[lines idle_only] w2]. cbn [snd] in Hg, Hgs.
  destruct (_title_icon_metrics _ _) as [[[title_pre top_h] icon_sz] icon_p].
  set (lines' := if _ && _ then _ else lines). clearbody lines'.
  pose proof (draw_two_box_overlay_state blf_dimensions _ICON_DIR lines' context w2) as Hd.
  pose proof (draw_two_box_overlay_prefs blf_dimensions _ICON_DIR lines' context w2) as Hds.
  rewrite H1 in Hg. cbn in Hg.
  set (evs := List.filter _ evs0) in Hg.
  assert (Hsub : sublist evs (events (state w))).
  { etrans; [|exact Hsub0]. subst evs. clear.
    induction evs0 as [|e l IH]; cbn; [done|].
    destruct (_ <=? _)%float; by constructor. }
  clearbody evs.
  destruct (_draw_two_box_overlay _ _ _ _ _) as [[[[[[[[[bx by_] bw] bh] brx] bry] brw] brh]|] w3];
    cbn [snd] in Hd, Hds.
  - assert (H3 : forall w4, same_prefs w3 w4 ->
        state w4 = set_box_rect (Some (bx, by_, bw, bh)) (state w3) ->
        same_prefs w w4 /\
        exists evs rect,
          state w4 = set_box_rect rect (set_events evs (set_active_area area
                       (set_current_locale (_active_locale w) (state w)))) /\
          sublist evs (events (state w))).
    { intros w4 Hs4 ->. split; [eauto using same_prefs_trans|].
      exists evs, (Some (bx, by_, bw, bh)).
      rewrite Hd, Hg. by destruct w as [[]]. }
    destruct (show_mouse_glyph _); [|by apply H3].
    destruct (ctx_region context); [|by apply H3].
    apply H3; [|by rewrite sidecar_state].
    unfold _draw_mouse_sidecar_for_events, _now, same_prefs. by case_match.
  - split; [eauto using same_prefs_trans|].
    exists evs, (box_rect (state w)). rewrite Hd, Hg. by destruct w as [[]].
Qed.

Lemma draw_callback_tracked (blf_dimensions : Z -> string -> float) (_ICON_DIR : string)
    (context : Context) (w : World) :
  buttons_tracked (state w) ->
  buttons_tracked (state (draw_callback_2d blf_dimensions _ICON_DIR context w)).
Proof.
  intros H.
  destruct (draw_callback_state blf_dimensions _ICON_DIR context w) as (_&?&?&->&_).
  exact H.
Qed.

(** X1: whatever calls the host makes, every button in [buttons_down] is
    the left or the right one and has its press time in [button_times]. *)
Theorem held_buttons_stay_tracked
    (gettext : option string -> string -> string) (import_locale : option string)
    (blf_dimensions : Z -> string -> float) (_ICON_DIR : string)
    (cs : list Callback) (w : World) :
  buttons_tracked (state w) ->
  buttons_tracked (state (run gettext import_locale blf_dimensions _ICON_DIR cs w)).
Proof.
  unfold run. revert w. induction cs as [|c cs IH]; intros w H; [done|].
  cbn. apply IH. destruct c; cbn.
  - by apply modal_tracked.
  - by apply draw_callback_tracked.
  - by apply toggle_tracked.
Qed.

Lemma held_buttons_stay_tracked_witness :
  buttons_tracked
    (state (run (fun _ msg => msg) None (fun _ _ => 0%float) "icons"
              [Toggle view3d_context; Modal view3d_context left_press_event;
               Draw view3d_context]
              idle_world)).
Proof.
  apply held_buttons_stay_tracked. intros b Hb. cbn in Hb. by apply elem_of_empty in Hb.
Defined.

(** ** Labels *)

Lemma lr_button_cases (t : string) :
  Py.mem t _LR_BUTTONS = true -> t = "LEFTMOUSE" \/ t = "RIGHTMOUSE".
Proof.
  intros H. apply mem_true in H. unfold _LR_BUTTONS in H.
  rewrite !elem_of_cons in H. destruct H as [?|[?|H]]; auto. by apply not_elem_of_nil in H.
Qed.

Lemma suppressed_press_none
    (gettext : option string -> string -> string) (import_locale : option string)
    (event : Event) (w : World) :
  Py.mem (ev_type event) _LR_BUTTONS = true ->
  ev_value event = "PRESS" ->
  suppress_buttons_until_mouseup (state w) = true ->
  _label_from_event gettext import_locale event w = (None, w).
Proof.
  destruct event as [t v rep c s a o x y]. cbn [ev_type ev_value is_repeat].
  intros Ht -> Hsup. apply lr_button_cases in Ht.
  unfold _label_from_event. cbn [ev_type ev_value is_repeat].
  destruct rep; [by destruct Ht as [-> | ->]|].
  destruct Ht as [-> | ->]; cbn; by rewrite Hsup.
Qed.

(** X2: a press of the left or right button that is already held (no
    release was seen in between) yields no label; the held buttons and the
    history stay as they are, and only the button's press time is renewed. *)
Theorem duplicate_press_is_silent
    (gettext : option string -> string -> string) (import_locale : option string)
    (event : Event) (w : World) :
  Py.mem (ev_type event) _LR_BUTTONS = true ->
  ev_value event = "PRESS" ->
  is_repeat event = false ->
  suppress_buttons_until_mouseup (state w) = false ->
  ev_type event ∈ buttons_down (state w) ->
  let r := _label_from_event gettext import_locale event w in
  fst r = None /\
  buttons_down (state (snd r)) = buttons_down (state w) /\
  button_times (state (snd r))
    = <[ev_type event := clock w (ticks w)]> (button_times (state w)) /\
  events (state (snd r)) = events (state w).
Proof.
  destruct event as [t v rep c s a o x y]. cbn [ev_type ev_value is_repeat].
  intros Ht -> -> Hsup Hdown. cbv zeta. apply lr_button_cases in Ht.
  unfold _label_from_event, _now. cbn [ev_type ev_value is_repeat].
  destruct Ht as [-> | ->]; cbn; rewrite Hsup; cbn;
    rewrite (bool_decide_eq_true_2 _ Hdown), andb_false_r; cbn;
    (split; [done|]); (split; [set_solver|done]).
Qed.

Lemma duplicate_press_is_silent_witness :
  let w := upd_state (set_button_times {["LEFTMOUSE" := 0%float]})
             (upd_state (set_buttons_down {["LEFTMOUSE"]}) running_world) in
  let e := mkEvent "LEFTMOUSE" "PRESS" false false false false false 0 0 in
  fst (_label_from_event (fun _ msg => msg) None e w) = None /\
  events (state (snd (_label_from_event (fun _ msg => msg) None e w))) = [].
Proof.
  cbv zeta.
  destruct (duplicate_press_is_silent (fun _ msg => msg) None
              (mkEvent "LEFTMOUSE" "PRESS" false false false false false 0 0)
              (upd_state (set_button_times {["LEFTMOUSE" := 0%float]})
                 (upd_state (set_buttons_down {["LEFTMOUSE"]}) running_world)))
    as (Hl & _ & _ & He); [reflexivity..|cbn; set_solver|].
  split; [exact Hl|exact He].
Defined.

(** X3: while [suppress_buttons_until_mouseup] is set (a drag of the
    overlay is under way), a press of the left or right button yields no
    label and changes nothing. *)
Theorem suppressed_press_is_dropped
    (gettext : option string -> string -> string) (import_locale : option string)
    (event : Event) (w : World) :
  Py.mem (ev_type event) _LR_BUTTONS = true ->
  ev_value event = "PRESS" ->
  suppress_buttons_until_mouseup (state w) = true ->
  _label_from_event gettext import_locale event w = (None, w).
Proof. apply suppressed_press_none. Qed.

Lemma suppressed_press_is_dropped_witness :
  let w := upd_state (set_suppress_buttons_until_mouseup true) running_world in
  let e := mkEvent "RIGHTMOUSE" "PRESS" false false false false false 0 0 in
  _label_from_event (fun _ msg => msg) None e w = (None, w).
Proof.
  cbv zeta. apply suppressed_press_is_dropped; reflexivity.
Defined.

(** X4: an event of a key that is no modifier, mouse button or wheel
    leaves the module state and the clock untouched, and yields no label
    when [show_keys] is off. *)
Theorem keyboard_event_leaves_world
    (gettext : option string -> string -> string) (import_locale : option string)
    (event : Event) (w : World) :
  dict_get (_MOD_KEYS gettext import_locale) (ev_type event) = None ->
  Py.mem (ev_type event) _MOUSE_BUTTONS = false ->
  Py.mem (ev_type event) _WHEEL_TYPES = false ->
  snd (_label_from_event gettext import_locale event w) = w /\
  (show_keys (settings w) = false ->
   fst (_label_from_event gettext import_locale event w) = None).
Proof.
  destruct event as [t v rep c s a o x y]. cbn [ev_type].
  intros Hmod Hmouse Hwheel.
  assert (Hmid : String.eqb t "MIDDLEMOUSE" = false).
  { apply String.eqb_neq. intros ->. discriminate Hmouse. }
  assert (Hlr : Py.mem t _LR_BUTTONS = false).
  { apply mem_false. apply mem_false in Hmouse. unfold _LR_BUTTONS, _MOUSE_BUTTONS in *.
    set_solver. }
  unfold _label_from_event. cbn [ev_type ev_value is_repeat].
  rewrite Hmod, Hwheel, Hmid, Hlr, Hmouse. cbn [andb orb].
  destruct (_ || _); [done|].
  destruct rep; [done|].
  split.
  - repeat case_match; simplify_eq; done.
  - intros ->. repeat case_match; simplify_eq; done.
Qed.

Lemma keyboard_event_leaves_world_witness :
  let e := mkEvent "A" "PRESS" false true false false false 0 0 in
  snd (_label_from_event (fun _ msg => msg) None e running_world) = running_world.
Proof.
  cbv zeta.
  exact (proj1 (keyboard_event_leaves_world (fun _ msg => msg) None
                  (mkEvent "A" "PRESS" false true false false false 0 0) running_world
                  eq_refl eq_refl eq_refl)).
Defined.

(** X5: the release of a key of [_IGNORE_UP] (function keys, navigation
    keys, the numpad, letters and top-row digits) yields no label and
    changes nothing. *)
Theorem ignored_key_release_is_dropped
    (gettext : option string -> string -> string) (import_locale : option string)
    (event : Event) (w : World) :
  Py.mem (ev_type event) _IGNORE_UP = true ->
  ev_value event = "RELEASE" ->
  _label_from_event gettext import_locale event w = (None, w).
Proof.
  destruct event as [t v rep c s a o x y]. cbn [ev_type ev_value].
  intros Hup ->.
  destruct (ignore_up_is_keyboard gettext import_locale t Hup) as (Hti & Hmod & Hwheel & Hmouse).
  assert (Hmid : String.eqb t "MIDDLEMOUSE" = false).
  { apply String.eqb_neq. intros ->. discriminate Hmouse. }
  assert (Hlr : Py.mem t _LR_BUTTONS = false).
  { apply mem_false. apply mem_false in Hmouse. unfold _LR_BUTTONS, _MOUSE_BUTTONS in *.
    set_solver. }
  unfold _label_from_event. cbn [ev_type ev_value is_repeat].
  rewrite Hmod, Hwheel, Hmid, Hlr, Hmouse, Hup. cbn.
  destruct (_ || _); [done|].
  by destruct rep.
Qed.

Lemma ignored_key_release_is_dropped_witness :
  let e := mkEvent "F5" "RELEASE" false false false false false 0 0 in
  _label_from_event (fun _ msg => msg) None e running_world = (None, running_world).
Proof.
  cbv zeta. apply ignored_key_release_is_dropped; reflexivity.
Defined.

Lemma append_nonempty (a b : string) : b <> "" -> a +:+ b <> "".
Proof. destruct a; cbn; [done|discriminate]. Qed.

Lemma mouse_labels_middle (gettext : option string -> string -> string) (w : World) :
  dict_get (_mouse_labels_runtime gettext w) "MIDDLEMOUSE" = Some (tr gettext w "Middle Click").
Proof. unfold _mouse_labels_runtime. by destruct (mirror_mouse_lr _). Qed.

(** X6: a press of the middle button in a 3D viewport window always adds
    one line to the history, whatever [show_mouse], [show_mouse_glyph] and
    [show_keys] say; with no modifier held the line is the translated
    "Middle Click" followed by a down arrow.  Its stamp is the third clock
    reading of the block. *)
Theorem middle_press_is_always_shown
    (gettext : option string -> string -> string) (import_locale : option string)
    (context : Context) (event : Event) (w : World) :
  _is_view3d_window context = true ->
  ev_type event = "MIDDLEMOUSE" ->
  ev_value event = "PRESS" ->
  is_repeat event = false ->
  exists txt,
    events (state (modal_labels gettext import_locale context event w))
      = events (state w) ++ [mkInputEvent txt (clock w (2 + ticks w))] /\
    (ctrl event || shift event || alt event || oskey event = false ->
     txt = tr gettext w "Middle Click" +:+ " ↓").
Proof.
  destruct event as [t v rep c s a o x y]. cbn [ev_type ev_value is_repeat ctrl shift alt oskey].
  intros Hwin -> -> ->.
  unfold modal_labels. rewrite Hwin. cbn [orb].
  unfold _label_from_event, _bump_wheel_active, _now.
  cbn [ev_type ev_value is_repeat ctrl shift alt oskey].
  cbn -[Py.join String.append _mouse_labels_runtime].
  rewrite mouse_labels_middle. cbn [default].
  set (lbl := (_ +:+ " ↓")).
  assert (Hlbl : String.eqb lbl "" = false).
  { apply String.eqb_neq. subst lbl. by apply append_nonempty. }
  rewrite Hlbl. cbn [negb andb].
  set (mods := if show_modifiers _ then _ else _).
  destruct (bool_decide (mods = [])) eqn:Hm; cbn [negb].
  - cbn -[Py.join String.append]. rewrite Hlbl. cbn -[Py.join String.append].
    exists lbl. by split.
  - cbn -[Py.join String.append].
    destruct (String.eqb (Py.join _ _) "") eqn:Hj.
    + exfalso. apply String.eqb_eq in Hj. apply bool_decide_eq_false in Hm.
      destruct mods as [|m1 ms]; [done|].
      clear -Hj. cbn [app Py.join] in Hj.
      destruct (ms ++ [lbl]) eqn:E; [by destruct ms|].
      revert Hj. by apply append_nonempty.
    + cbn -[Py.join String.append]. eexists. split; [done|].
      intros Hno. exfalso. apply bool_decide_eq_false in Hm. apply Hm. subst mods.
      apply orb_false_iff in Hno as [Hno ->]. apply orb_false_iff in Hno as [Hno ->].
      apply orb_false_iff in Hno as [-> ->]. by destruct (show_modifiers _).
Qed.

Lemma middle_press_is_always_shown_witness :
  exists txt,
    events (state (modal_labels (fun _ msg => msg) None view3d_context
                     (mkEvent "MIDDLEMOUSE" "PRESS" false false false false false 0 0)
                     running_world))
      = [mkInputEvent txt 2] /\
    (false = false -> txt = "Middle Click ↓").
Proof.
  exact (middle_press_is_always_shown (fun _ msg => msg) None view3d_context
           (mkEvent "MIDDLEMOUSE" "PRESS" false false false false false 0 0)
           running_world eq_refl eq_refl eq_refl eq_refl).
Defined.

(** ** Transform monitor *)

Lemma first_transform_none (ops : list Operator) :
  first_transform ops = None <-> Forall (fun op => is_transform op = false) ops.
Proof.
  induction ops as [|op ops IH]; cbn; [by split|].
  unfold is_transform at 1. rewrite Forall_cons.
  destruct (bl_idname op) as [idname|]; [|by rewrite IH; intuition].
  destruct (Py.startswith idname "TRANSFORM_OT_"); cbn.
  - split; [done|]. by intros [? _].
  - rewrite IH. unfold is_transform. intuition.
Qed.

Lemma first_transform_app (l r : list Operator) :
  Forall (fun op => is_transform op = false) l ->
  first_transform (l ++ r) = first_transform r.
Proof.
  induction 1 as [|op l Hop _ IH]; cbn; [done|].
  unfold is_transform in Hop.
  destruct (bl_idname op) as [idname|]; [|done].
  by rewrite Hop.
Qed.

(** X7: [_active_transform_info] returns [None] exactly when no operator
    of the list is a transform, and otherwise describes the last transform
    in the list, whatever comes before it or after it: the kind is the
    capitalized last word of its name, the axis the first locked one. *)
Theorem active_transform_is_last_transform (context : Context) :
  (_active_transform_info context = None <->
   Forall (fun op => is_transform op = false) (ctx_operators context)) /\
  (forall before op after idname,
     ctx_operators context = before ++ op :: after ->
     bl_idname op = Some idname ->
     Py.startswith idname "TRANSFORM_OT_" = true ->
     Forall (fun op => is_transform op = false) after ->
     _active_transform_info context
     = Some (Py.capitalize (Py.split_last "_" idname), constraint_axis op ≫= axis_of)).
Proof.
  unfold _active_transform_info. split.
  - rewrite first_transform_none. by rewrite Forall_reverse.
  - intros before op after idname -> Hid Hpre Hafter.
    rewrite reverse_app, reverse_cons, <- app_assoc.
    rewrite first_transform_app by (by apply Forall_reverse).
    cbn. by rewrite Hid, Hpre.
Qed.

(** X8: run twice in a row on the same context, the transform monitor
    does nothing the second time: a transform that goes on with the same
    axis adds no further line. *)
Theorem tick_transform_monitor_idempotent
    (gettext : option string -> string -> string) (context : Context) (w : World) :
  let w1 := _tick_transform_monitor gettext context w in
  _tick_transform_monitor gettext context w1 = w1.
Proof.
  cbv zeta. set (w1 := _tick_transform_monitor gettext context w).
  assert (H : settings w1 = settings w /\
              match _active_transform_info context with
              | Some (_, axis) =>
                  if show_transform_axis (settings w)
                  then transform_active (state w1) = true /\ transform_axis (state w1) = axis
                  else transform_active (state w1) = false
              | None => transform_active (state w1) = false
              end).
  { subst w1. unfold _tick_transform_monitor, transform_off, _append_event, _now.
    repeat (case_match; simplify_eq); cbn; try done.
    all: repeat match goal with
         | H : negb _ = false |- _ => apply negb_false_iff in H
         | H : bool_decide _ = true |- _ => apply bool_decide_eq_true in H
         end; try done. }
  clearbody w1. destruct H as [Hs H].
  unfold _tick_transform_monitor, transform_off. rewrite Hs.
  destruct (_active_transform_info context) as [[kind axis]|];
    destruct (show_transform_axis (settings w)); cbn [negb].
  - destruct H as [-> ->]. cbn [negb]. by rewrite bool_decide_eq_true_2.
  - by rewrite H.
  - by rewrite H.
  - by rewrite H.
Qed.

(** ** Growth of the history *)

Lemma history_grows_refl (n : nat) (evs : list InputEvent) : history_grows n evs evs.
Proof. exists evs, []. rewrite app_nil_r. repeat split. cbn. lia. Qed.

Lemma history_grows_snoc (evs : list InputEvent) (ev : InputEvent) :
  history_grows 1 evs (evs ++ [ev]).
Proof. exists evs, [ev]. by repeat split. Qed.

Lemma history_grows_le (n m : nat) (a b : list InputEvent) :
  (n <= m)%nat -> history_grows n a b -> history_grows m a b.
Proof. intros Hle (k & ad & ? & ? & ?). exists k, ad. repeat split; [done..|lia]. Qed.

Lemma history_grows_trans (n m : nat) (a b c : list InputEvent) :
  history_grows n a b -> history_grows m b c -> history_grows (n + m) a c.
Proof.
  intros (k1 & a1 & -> & Hk1 & Hn) (k2 & a2 & -> & Hk2 & Hm).
  exists (take (length k1) k2), (drop (length k1) k2 ++ a2).
  split; [by rewrite app_assoc, take_drop|].
  assert (Hlen : length k2 = (length k1 + length a1)%nat).
  { apply (f_equal length) in Hk2. by rewrite !length_map, length_app in Hk2. }
  split.
  - rewrite <- Hk1, <- firstn_map, Hk2, map_app.
    apply take_app_length'. by rewrite length_map.
  - rewrite length_app, length_drop. lia.
Qed.

Lemma retext_last_grows (txt : string) (evs : list InputEvent) :
  history_grows 0 evs (retext_last txt evs).
Proof.
  exists (retext_last txt evs), []. rewrite app_nil_r. repeat split; [|cbn; lia].
  unfold retext_last. destruct (reverse evs) as [|ev before] eqn:E; [done|].
  apply (f_equal reverse) in E. rewrite reverse_involutive, reverse_cons in E. subst evs.
  by rewrite !map_app.
Qed.

Lemma handle_scroll_grouping_grows
    (gettext : option string -> string -> string) (direction : string) (w : World) :
  history_grows 1 (events (state w))
    (events (state (_handle_scroll_grouping gettext direction w))).
Proof.
  unfold _handle_scroll_grouping, _bump_wheel_active, _append_event, _now. cbn.
  case_match; cbn.
  - eapply history_grows_le; [|apply retext_last_grows]. lia.
  - apply history_grows_snoc.
Qed.

(** The labelling block: the scroll grouping may rewrite or append, and
    yields no label; anything else leaves the history to the caller. *)
Lemma label_from_event_events
    (gettext : option string -> string -> string) (import_locale : option string)
    (event : Event) (w : World) :
  let r := _label_from_event gettext import_locale event w in
  (fst r = None /\ history_grows 1 (events (state w)) (events (state (snd r)))) \/
  events (state (snd r)) = events (state w).
Proof.
  cbv zeta. unfold _label_from_event.
  destruct (_ || _); [by right|].
  destruct (is_repeat event); [by right|].
  destruct (dict_get _ _); [right; unfold _now; by repeat case_match|].
  destruct (_ && _).
  { left. split; [done|]. apply handle_scroll_grouping_grows. }
  right. unfold _bump_wheel_active, _now. cbn.
  repeat (case_match; simplify_eq); done.
Qed.

Lemma modal_labels_grows
    (gettext : option string -> string -> string) (import_locale : option string)
    (context : Context) (event : Event) (w : World) :
  history_grows 1 (events (state w))
    (events (state (modal_labels gettext import_locale context event w))).
Proof.
  unfold modal_labels. destruct (_ || _); [|apply history_grows_refl].
  pose proof (label_from_event_events gettext import_locale event w) as H. cbv zeta in H.
  destruct (_label_from_event _ _ _ _) as [label w1]. cbn [fst snd] in H.
  destruct H as [[-> H]|H]; [exact H|].
  destruct (truthy label); [|rewrite H; apply history_grows_refl].
  unfold _append_event, _now. cbn. rewrite H. apply history_grows_snoc.
Qed.

Lemma tick_transform_monitor_grows
    (gettext : option string -> string -> string) (context : Context) (w : World) :
  history_grows 1 (events (state w))
    (events (state (_tick_transform_monitor gettext context w))).
Proof.
  unfold _tick_transform_monitor, transform_off, _append_event, _now.
  repeat (case_match; simplify_eq); cbn;
    first [apply history_grows_refl|apply history_grows_snoc].
Qed.

(** X9: one pass of the modal callback removes no line from the history
    and changes no stamp; it adds at most two lines (one for the event, one
    from the transform monitor). *)
Theorem modal_history_only_grows
    (gettext : option string -> string -> string) (import_locale : option string)
    (context : Context) (event : Event) (w : World) :
  history_grows 2 (events (state w))
    (events (state (snd (MSC_OT_modal_capture_modal gettext import_locale context event w)))).
Proof.
  unfold MSC_OT_modal_capture_modal.
  destruct (negb _); [apply history_grows_refl|]. unfold _now. cbn [fst snd].
  set (w1 := upd_state _ _).
  assert (H1 : events (state w1) = events (state w)) by apply watchdog_events.
  clearbody w1. rewrite <- H1. unfold modal_after_watchdog.
  rewrite <- (modal_follow_area_events context event w1).
  set (w2 := modal_follow_area _ _ _). clearbody w2.
  pose proof (modal_drag_events context event w2) as H2.
  destruct (modal_drag context event w2) as [[r w3]|w3];
    [cbn [snd]; rewrite H2; apply history_grows_refl|].
  cbn [snd]. rewrite modal_redraw_state, <- H2.
  apply (history_grows_trans 1 1 _ _ _ (modal_labels_grows _ _ _ _ _)
           (tick_transform_monitor_grows _ _ _)).
Qed.

(** ** Chronology *)

Lemma later_refl (w : World) : later w w.
Proof. by split. Qed.

Lemma later_trans (a b c : World) : later a b -> later b c -> later a c.
Proof. intros [? ?] [? ?]. split; [congruence|lia]. Qed.

Lemma chrono_frame (w w' : World) :
  later w w' -> map t0 (events (state w')) = map t0 (events (state w)) ->
  chronological w -> chronological w'.
Proof.
  intros [Hc Ht] He (ks & Hks & Hs & Hb). exists ks. rewrite He, Hc. split; [done|].
  split; [done|]. eapply Forall_impl; [exact Hb|]. intros k Hk. cbn in *. lia.
Qed.

Lemma sublist_map_inv {A B} (f : A -> B) (l : list B) (ks : list A) :
  sublist l (map f ks) -> exists ks', l = map f ks' /\ sublist ks' ks.
Proof.
  revert l. induction ks as [|k ks IH]; intros l H; cbn in H.
  - apply sublist_nil_r in H as ->. by exists [].
  - inversion H as [|x l1 l2 H1|x l1 l2 H1]; subst.
    + destruct (IH _ H1) as (ks' & -> & Hs). exists (k :: ks'). split; [done|by constructor].
    + destruct (IH _ H1) as (ks' & -> & Hs). exists ks'. split; [done|by constructor].
Qed.

Lemma sublist_Forall {A} (P : A -> Prop) (l1 l2 : list A) :
  sublist l1 l2 -> Forall P l2 -> Forall P l1.
Proof.
  induction 1 as [|x l1 l2 H IH|x l1 l2 H IH]; intros Hf; [done| |].
  - apply Forall_cons in Hf as [? ?]. constructor; [done|by apply IH].
  - apply Forall_cons in Hf as [? ?]. by apply IH.
Qed.

Lemma sublist_sorted (ks' ks : list nat) :
  sublist ks' ks -> StronglySorted lt ks -> StronglySorted lt ks'.
Proof.
  induction 1 as [|x l1 l2 H IH|x l1 l2 H IH]; intros Hs; [done| |].
  - apply StronglySorted_inv in Hs as [Hs Hx]. constructor; [by apply IH|].
    by eapply sublist_Forall.
  - apply StronglySorted_inv in Hs as [Hs _]. by apply IH.
Qed.

Lemma chrono_sublist (w w' : World) :
  later w w' -> sublist (events (state w')) (events (state w)) ->
  chronological w -> chronological w'.
Proof.
  intros [Hc Ht] He (ks & Hks & Hs & Hb).
  assert (Hm : sublist (map t0 (events (state w'))) (map (clock w) ks)).
  { rewrite <- Hks. by apply (fmap_sublist t0). }
  apply sublist_map_inv in Hm as (ks' & Hks' & Hsub).
  exists ks'. rewrite Hc. split; [done|]. split; [by eapply sublist_sorted|].
  eapply sublist_Forall; [exact Hsub|].
  eapply Forall_impl; [exact Hb|]. intros k Hk. cbn in *. lia.
Qed.

Lemma chrono_nil (w' : World) : events (state w') = [] -> chronological w'.
Proof. intros He. exists []. rewrite He. repeat split; constructor. Qed.

Lemma sorted_snoc (ks : list nat) (k : nat) :
  StronglySorted lt ks -> Forall (fun i => (i < k)%nat) ks -> StronglySorted lt (ks ++ [k]).
Proof.
  induction 1 as [|x l Hl IH Hx]; intros Hb; cbn.
  - repeat constructor.
  - apply Forall_cons in Hb as [Hxk Hb]. constructor; [by apply IH|].
    apply Forall_app. split; [done|by constructor].
Qed.

(** A line appended with the current reading of the clock. *)
Lemma chrono_snoc (w w' : World) (txt : string) (k : nat) :
  later w w' -> (ticks w <= k < ticks w')%nat ->
  events (state w') = events (state w) ++ [mkInputEvent txt (clock w k)] ->
  chronological w -> chronological w'.
Proof.
  intros [Hc Ht] Hk He (ks & Hks & Hs & Hb). exists (ks ++ [k]).
  rewrite He, Hc, !map_app, Hks. split; [done|]. split.
  - apply sorted_snoc; [done|]. eapply Forall_impl; [exact Hb|]. intros i Hi. cbn in *. lia.
  - apply Forall_app. split.
    + eapply Forall_impl; [exact Hb|]. intros i Hi. cbn in *. lia.
    + constructor; [lia|constructor].
Qed.

Lemma append_event_chrono (txt : string) (w : World) :
  chronological w -> chronological (_append_event txt w).
Proof.
  apply (chrono_snoc w _ txt (ticks w)); unfold _append_event, _now, later; cbn;
    [split; [done|lia]|lia|done].
Qed.

Lemma retext_last_stamps (txt : string) (evs : list InputEvent) :
  map t0 (retext_last txt evs) = map t0 evs.
Proof.
  unfold retext_last. destruct (reverse evs) as [|ev before] eqn:E; [done|].
  apply (f_equal reverse) in E. rewrite reverse_involutive, reverse_cons in E. subst evs.
  by rewrite !map_app.
Qed.

Lemma handle_scroll_grouping_chrono
    (gettext : option string -> string -> string) (direction : string) (w : World) :
  chronological w -> chronological (_handle_scroll_grouping gettext direction w).
Proof.
  intros H. unfold _handle_scroll_grouping, _bump_wheel_active, _append_event, _now. cbn.
  case_match.
  - eapply chrono_frame; [| |exact H]; [split; cbn; [done|lia]|].
    cbn. apply retext_last_stamps.
  - eapply (chrono_snoc w _ _ (S (S (ticks w)))); [| | |exact H];
      [split; cbn; [done|lia]|cbn; lia|done].
Qed.

Ltac chrono_same H :=
  eapply chrono_frame; [| |exact H]; [split; cbn; [done|lia]|done].

Lemma label_from_event_chrono
    (gettext : option string -> string -> string) (import_locale : option string)
    (event : Event) (w : World) :
  chronological w ->
  chronological (snd (_label_from_event gettext import_locale event w)).
Proof.
  intros H. unfold _label_from_event.
  destruct (_ || _); [done|].
  destruct (is_repeat event); [done|].
  destruct (dict_get _ _); [unfold _now; repeat case_match; cbn; chrono_same H|].
  destruct (_ && _); [by apply handle_scroll_grouping_chrono|].
  unfold _bump_wheel_active, _now. cbn.
  repeat (case_match; simplify_eq); cbn; first [exact H|chrono_same H].
Qed.

Lemma modal_labels_chrono
    (gettext : option string -> string -> string) (import_locale : option string)
    (context : Context) (event : Event) (w : World) :
  chronological w ->
  chronological (modal_labels gettext import_locale context event w).
Proof.
  intros H. unfold modal_labels. destruct (_ || _); [|done].
  pose proof (label_from_event_chrono gettext import_locale event w H) as H1.
  destruct (_label_from_event _ _ _ _) as [label w1]. cbn [snd] in H1.
  destruct (truthy label); [|done]. by apply append_event_chrono.
Qed.

Lemma tick_transform_monitor_chrono
    (gettext : option string -> string -> string) (context : Context) (w : World) :
  chronological w -> chronological (_tick_transform_monitor gettext context w).
Proof.
  intros H. unfold _tick_transform_monitor, transform_off.
  repeat (case_match; simplify_eq); try done; try (chrono_same H).
  - apply append_event_chrono. chrono_same H.
  - apply append_event_chrono. chrono_same H.
Qed.

Lemma tag_view3d_areas_later (context : Context) (w : World) :
  later w (tag_view3d_areas context w).
Proof.
  unfold tag_view3d_areas. revert w.
  induction (ctx_screen_areas context) as [|a l IH]; intros w; cbn; [apply later_refl|].
  eapply later_trans; [|apply IH]. case_match; by split.
Qed.

Lemma modal_chrono
    (gettext : option string -> string -> string) (import_locale : option string)
    (context : Context) (event : Event) (w : World) :
  chronological w ->
  chronological (snd (MSC_OT_modal_capture_modal gettext import_locale context event w)).
Proof.
  intros H. unfold MSC_OT_modal_capture_modal.
  destruct (negb _); [done|]. unfold _now. cbn [fst snd].
  set (w1 := upd_state _ _).
  assert (H1 : chronological w1).
  { eapply chrono_frame; [| |exact H]; [split; cbn; [done|lia]|].
    subst w1. cbn. by rewrite watchdog_events. }
  clearbody w1. unfold modal_after_watchdog.
  assert (H2 : chronological (modal_follow_area context event w1)).
  { unfold modal_follow_area. case_match; [|done]. chrono_same H1. }
  set (w2 := modal_follow_area _ _ _) in *. clearbody w2.
  assert (H3 : match modal_drag context event w2 with
               | Return (_, w') => chronological w'
               | Continue w' => chronological w'
               end).
  { unfold modal_drag. repeat (case_match; simplify_eq); try done; chrono_same H2. }
  destruct (modal_drag context event w2) as [[r w3]|w3]; [done|]. cbn [snd].
  apply (modal_labels_chrono gettext import_locale context event) in H3.
  apply (tick_transform_monitor_chrono gettext context) in H3.
  set (w5 := _tick_transform_monitor _ _ _) in *. clearbody w5.
  unfold modal_redraw, _now. cbn. case_match.
  - eapply chrono_frame; [| |exact H3].
    + eapply later_trans; [|split; [reflexivity|]; cbn; lia].
      eapply later_trans; [|apply tag_view3d_areas_later]. split; cbn; [done|lia].
    + cbn. by rewrite tag_view3d_areas_state.
  - chrono_same H3.
Qed.

Lemma toggle_chrono (context : Context) (w : World) :
  chronological w -> chronological (snd (MSC_OT_toggle_execute context w)).
Proof.
  intros H. unfold MSC_OT_toggle_execute. cbn [snd].
  destruct (negb (running (state w))).
  - eapply chrono_frame; [| |exact H].
    + eapply later_trans; [|apply tag_view3d_areas_later]. by case_match.
    + rewrite tag_view3d_areas_state. by case_match.
  - apply chrono_nil. rewrite tag_view3d_areas_state. by case_match.
Qed.

Lemma draw_lines_later (size x ty line_h : Z) (color : list float)
    (lines : list string) (w : World) :
  later w (draw_lines size x ty line_h color lines w).
Proof.
  revert ty w. induction lines as [|tx rest IH]; intros ty w; cbn; [apply later_refl|].
  eapply later_trans; [|apply IH]. by split.
Qed.

Lemma draw_callback_later (blf_dimensions : Z -> string -> float) (_ICON_DIR : string)
    (context : Context) (w : World) :
  later w (draw_callback_2d blf_dimensions _ICON_DIR context w).
Proof.
  unfold draw_callback_2d.
  set (w0 := if negb _ then _ else w).
  assert (H0 : later w w0) by (subst w0; by destruct (negb _)).
  clearbody w0.
  set (w1 := if _ && _ then _ else w0).
  assert (H1 : later w w1).
  { eapply later_trans; [exact H0|]. subst w1. by destruct (_ && _). }
  clearbody w1.
  destruct (_ && negb _); [done|].
  assert (Hg : later w (snd (gather_lines w1))).
  { eapply later_trans; [exact H1|]. unfold gather_lines, _now. cbn.
    case_match; split; cbn; (done || lia). }
  destruct (gather_lines w1) as [[lines idle_only] w2]. cbn [snd] in Hg.
  destruct (_title_icon_metrics _ _) as [[[title_pre top_h] icon_sz] icon_p].
  set (lines' := if _ && _ then _ else lines). clearbody lines'.
  assert (Hd : later w (snd (_draw_two_box_overlay blf_dimensions _ICON_DIR lines' context w2))).
  { eapply later_trans; [exact Hg|]. unfold _draw_two_box_overlay.
    destruct (_measure_brand_box _ _ _) as [[[[[brand_w brand_h] bpad] tpre] isz] ipath].
    destruct (_measure_events_box _ _ _) as [[[ev_w ev_h] epad] line_h].
    destruct (ctx_region context) as [region|]; [|apply later_refl].
    destruct (_resolve_position _ _ _ _ _) as [bx by_]. cbn.
    eapply later_trans; [|apply draw_lines_later].
    unfold later. repeat (case_match; cbn); done. }
  destruct (_draw_two_box_overlay _ _ _ _ _) as [[[[[[[[[bx by_] bw] bh] brx] bry] brw] brh]|] w3];
    cbn [snd] in Hd; [|done].
  assert (H3 : later w (upd_state (set_box_rect (Some (bx, by_, bw, bh))) w3)).
  { eapply later_trans; [exact Hd|]. by split. }
  destruct (show_mouse_glyph _); [|done].
  destruct (ctx_region context); [|done].
  eapply later_trans; [exact H3|].
  unfold _draw_mouse_sidecar_for_events, _now.
  case_match; split; cbn; (done || lia).
Qed.

Lemma draw_callback_chrono (blf_dimensions : Z -> string -> float) (_ICON_DIR : string)
    (context : Context) (w : World) :
  chronological w -> chronological (draw_callback_2d blf_dimensions _ICON_DIR context w).
Proof.
  intros H. eapply chrono_sublist; [apply draw_callback_later| |exact H].
  destruct (draw_callback_state blf_dimensions _ICON_DIR context w) as (_&evs&rect&->&Hsub).
  exact Hsub.
Qed.

Lemma run_chrono
    (gettext : option string -> string -> string) (import_locale : option string)
    (blf_dimensions : Z -> string -> float) (_ICON_DIR : string)
    (cs : list Callback) (w : World) :
  chronological w ->
  chronological (run gettext import_locale blf_dimensions _ICON_DIR cs w).
Proof.
  unfold run. revert w. induction cs as [|c cs IH]; intros w H; [done|].
  cbn. apply IH. destruct c; cbn.
  - by apply modal_chrono.
  - by apply draw_callback_chrono.
  - by apply toggle_chrono.
Qed.

Lemma run_clock
    (gettext : option string -> string -> string) (import_locale : option string)
    (blf_dimensions : Z -> string -> float) (_ICON_DIR : string)
    (cs : list Callback) (w : World) :
  clock (run gettext import_locale blf_dimensions _ICON_DIR cs w) = clock w.
Proof.
  unfold run. revert w. induction cs as [|c cs IH]; intros w; [done|].
  cbn. rewrite IH. destruct c; cbn.
  - destruct (modal_reaches_throttle gettext import_locale context event w)
      as [(_ & _ & Hk)|(w5 & (_ & _ & Hk) & ->)]; [done|].
    unfold modal_redraw, _now. cbn. case_match; cbn; [|done].
    by destruct (tag_view3d_areas_later context (set_ticks (S (ticks w5)) w5)) as [-> _].
  - by destruct (draw_callback_later blf_dimensions _ICON_DIR context w).
  - unfold MSC_OT_toggle_execute. cbn [snd].
    match goal with |- clock (tag_view3d_areas ?c ?x) = _ =>
      destruct (tag_view3d_areas_later c x) as [-> _] end.
    by repeat case_match.
Qed.

(** X10: whatever calls the host makes, the history stays in the order
    of the clock: its stamps are readings made at strictly increasing ticks,
    so with a clock that never runs backwards each line is stamped no later
    than the lines after it. *)
Theorem history_is_chronological
    (gettext : option string -> string -> string) (import_locale : option string)
    (blf_dimensions : Z -> string -> float) (_ICON_DIR : string)
    (cs : list Callback) (w : World) :
  chronological w ->
  let w' := run gettext import_locale blf_dimensions _ICON_DIR cs w in
  chronological w' /\
  (monotone (clock w) ->
   forall i j a b, (i <= j)%nat ->
     events (state w') !! i = Some a -> events (state w') !! j = Some b ->
     (t0 a <=? t0 b)%float = true).
Proof.
  intros H. cbv zeta.
  pose proof (run_chrono gettext import_locale blf_dimensions _ICON_DIR cs w H) as H'.
  split; [exact H'|].
  pose proof (run_clock gettext import_locale blf_dimensions _ICON_DIR cs w) as Hc.
  destruct H' as (ks & Hks & Hs & _). rewrite Hc in Hks.
  intros Hmono i j a b Hij Ha Hb.
  assert (Hta : map t0 (events (state (run gettext import_locale blf_dimensions _ICON_DIR cs w))) !! i
                = Some (t0 a)) by (by rewrite (list_lookup_fmap t0), Ha).
  assert (Htb : map t0 (events (state (run gettext import_locale blf_dimensions _ICON_DIR cs w))) !! j
                = Some (t0 b)) by (by rewrite (list_lookup_fmap t0), Hb).
  rewrite Hks in Hta, Htb.
  rewrite (list_lookup_fmap (clock w)) in Hta, Htb.
  destruct (ks !! i) as [ki|] eqn:Hki; [|done].
  destruct (ks !! j) as [kj|] eqn:Hkj; [|done].
  cbn in Hta, Htb. injection Hta as <-. injection Htb as <-.
  apply Hmono.
  destruct (decide (i = j)) as [->|Hne]; [by simplify_eq|].
  assert (Hlt : (i < j)%nat) by lia.
  clear -Hs Hki Hkj Hlt.
  revert i j Hki Hkj Hlt. induction Hs as [|k l Hl IH Hk]; intros i j Hki Hkj Hlt; [done|].
  destruct i as [|i], j as [|j]; try lia; cbn in *.
  - simplify_eq. apply list_elem_of_lookup_2 in Hkj.
    rewrite Forall_forall in Hk. specialize (Hk _ Hkj). lia.
  - apply (IH i j); [done|done|lia].
Qed.

Lemma history_is_chronological_witness :
  let w' := run (fun _ msg => msg) None (fun _ _ => 0%float) "icons"
              [Toggle view3d_context; Modal view3d_context key_press_event;
               Modal view3d_context left_press_event; Draw view3d_context]
              idle_world in
  chronological w' /\
  (monotone (clock idle_world) ->
   forall i j a b, (i <= j)%nat ->
     events (state w') !! i = Some a -> events (state w') !! j = Some b ->
     (t0 a <=? t0 b)%float = true).
Proof.
  apply history_is_chronological. exists []. repeat split; constructor.
Defined.

(** ** Draw handler *)

Lemma installed_snoc (log : list HostCall) (c : HostCall) :
  installed (log ++ [c]) = install (installed log) c.
Proof. unfold installed. by rewrite foldl_app. Qed.

Lemma installed_tags (log : list HostCall) (areas : list Area) :
  installed (log ++ map tag_redraw areas) = installed log.
Proof.
  unfold installed. rewrite foldl_app. generalize (foldl install [] log). intros hs.
  induction areas as [|a l IH]; cbn; done.
Qed.

Lemma watchdog_handler (now : float) (st : MSCState) : handler (watchdog now st) = handler st.
Proof.
  unfold watchdog. generalize (map fst (map_to_list (button_times st))).
  intros ks. revert st. induction ks as [|k ks IH]; intros st; [done|].
  cbn. rewrite IH. unfold release_if_stuck. by repeat case_match.
Qed.

Lemma label_from_event_handler
    (gettext : option string -> string -> string) (import_locale : option string)
    (event : Event) (w : World) :
  handler (state (snd (_label_from_event gettext import_locale event w))) = handler (state w).
Proof.
  unfold _label_from_event, _handle_scroll_grouping, _bump_wheel_active, _append_event, _now.
  cbn. repeat (case_match; simplify_eq); done.
Qed.

Lemma modal_handler
    (gettext : option string -> string -> string) (import_locale : option string)
    (context : Context) (event : Event) (w : World) :
  handler (state (snd (MSC_OT_modal_capture_modal gettext import_locale context event w)))
  = handler (state w).
Proof.
  unfold MSC_OT_modal_capture_modal.
  destruct (negb _); [done|]. unfold _now. cbn [fst snd].
  set (w1 := upd_state _ _).
  assert (H1 : handler (state w1) = handler (state w)) by apply watchdog_handler.
  clearbody w1. rewrite <- H1. unfold modal_after_watchdog.
  assert (H2 : handler (state (modal_follow_area context event w1)) = handler (state w1)).
  { unfold modal_follow_area. by case_match. }
  rewrite <- H2.
  set (w2 := modal_follow_area _ _ _). clearbody w2.
  assert (H3 : match modal_drag context event w2 with
               | Return (_, w') => handler (state w') = handler (state w2)
               | Continue w' => handler (state w') = handler (state w2)
               end).
  { unfold modal_drag. repeat (case_match; simplify_eq); done. }
  destruct (modal_drag context event w2) as [[r w3]|w3]; [done|].
  cbn [snd]. rewrite modal_redraw_state, <- H3.
  unfold modal_labels.
  set (w4 := if _ || _ then _ else w3).
  assert (H4 : handler (state w4) = handler (state w3)).
  { subst w4. destruct (_ || _); [|done].
    pose proof (label_from_event_handler gettext import_locale event w3) as H.
    destruct (_label_from_event _ _ _ _) as [label w']. cbn [snd] in H.
    by destruct (truthy label). }
  rewrite <- H4. clearbody w4.
  unfold _tick_transform_monitor, transform_off, _append_event, _now.
  repeat (case_match; simplify_eq); done.
Qed.

Lemma modal_accounted
    (gettext : option string -> string -> string) (import_locale : option string)
    (context : Context) (event : Event) (w : World) :
  handler_accounted w ->
  handler_accounted (snd (MSC_OT_modal_capture_modal gettext import_locale context event w)).
Proof.
  unfold handler_accounted. intros H. rewrite modal_handler.
  pose proof (modal_step_throttled gettext import_locale context event w) as Hs.
  cbv zeta in Hs. destruct Hs as [[-> _]|(_ & _ & ->)]; [done|].
  unfold view3d_tags. by rewrite installed_tags.
Qed.

Lemma draw_lines_installed (size x ty line_h : Z) (color : list float)
    (lines : list string) (w : World) :
  installed (host_log (draw_lines size x ty line_h color lines w)) = installed (host_log w).
Proof.
  revert ty w. induction lines as [|tx rest IH]; intros ty w; cbn; [done|].
  rewrite IH. cbn. by rewrite installed_snoc.
Qed.

Lemma draw_two_box_overlay_installed (blf_dimensions : Z -> string -> float)
    (_ICON_DIR : string) (lines : list string) (context : Context) (w : World) :
  installed (host_log (snd (_draw_two_box_overlay blf_dimensions _ICON_DIR lines context w)))
  = installed (host_log w).
Proof.
  unfold _draw_two_box_overlay.
  destruct (_measure_brand_box _ _ _) as [[[[[brand_w brand_h] bpad] title_pre] icon_sz] icon_path].
  destruct (_measure_events_box _ _ _) as [[[ev_w ev_h] epad] line_h].
  destruct (ctx_region context) as [region|]; [|done].
  destruct (_resolve_position _ _ _ _ _) as [bx by_]. cbn.
  rewrite draw_lines_installed.
  repeat (case_match; cbn); by rewrite ?installed_snoc.
Qed.

Lemma draw_callback_installed (blf_dimensions : Z -> string -> float) (_ICON_DIR : string)
    (context : Context) (w : World) :
  installed (host_log (draw_callback_2d blf_dimensions _ICON_DIR context w))
  = installed (host_log w).
Proof.
  unfold draw_callback_2d.
  set (w0 := if negb _ then _ else w).
  assert (H0 : host_log w0 = host_log w) by (subst w0; by destruct (negb _)).
  rewrite <- H0. clearbody w0.
  set (w1 := if _ && _ then _ else w0).
  assert (H1 : host_log w1 = host_log w0) by (subst w1; by destruct (_ && _)).
  rewrite <- H1. clearbody w1.
  destruct (_ && negb _); [done|].
  assert (Hg : host_log (snd (gather_lines w1)) = host_log w1).
  { unfold gather_lines, _now. cbn. by case_match. }
  destruct (gather_lines w1) as [[lines idle_only] w2]. cbn [snd] in Hg. rewrite <- Hg.
  destruct (_title_icon_metrics _ _) as [[[title_pre top_h] icon_sz] icon_p].
  set (lines' := if _ && _ then _ else lines). clearbody lines'.
  pose proof (draw_two_box_overlay_installed blf_dimensions _ICON_DIR lines' context w2) as Hd.
  destruct (_draw_two_box_overlay _ _ _ _ _) as [[[[[[[[[bx by_] bw] bh] brx] bry] brw] brh]|] w3];
    cbn [snd] in Hd; [|done].
  rewrite <- Hd.
  destruct (show_mouse_glyph _); [|done].
  destruct (ctx_region context); [|done].
  unfold _draw_mouse_sidecar_for_events, _now.
  case_match; [done|]. cbn. by rewrite installed_snoc.
Qed.

Lemma draw_callback_accounted (blf_dimensions : Z -> string -> float) (_ICON_DIR : string)
    (context : Context) (w : World) :
  handler_accounted w ->
  handler_accounted (draw_callback_2d blf_dimensions _ICON_DIR context w).
Proof.
  unfold handler_accounted. intros H. rewrite draw_callback_installed, H.
  destruct (draw_callback_state blf_dimensions _ICON_DIR context w) as (_&?&?&->&_).
  done.
Qed.

Lemma tag_view3d_areas_log (context : Context) (w : World) :
  host_log (tag_view3d_areas context w) = host_log w ++ view3d_tags context.
Proof. by rewrite tag_view3d_areas_spec. Qed.

Lemma toggle_accounted (context : Context) (w : World) :
  handler_accounted w -> handler_accounted (snd (MSC_OT_toggle_execute context w)).
Proof.
  unfold handler_accounted. intros H. unfold MSC_OT_toggle_execute. cbn [snd].
  rewrite tag_view3d_areas_state, tag_view3d_areas_log.
  unfold view3d_tags. rewrite installed_tags.
  destruct (running (state w)); cbn [negb]; cbn;
    destruct (handler (state w)) as [h|] eqn:Hh; cbn;
    rewrite !installed_snoc; cbn; rewrite ?installed_snoc, H; cbn; try done.
  - by destruct (N.eqb_spec h h).
  - by rewrite Hh.
  - by rewrite Hh.
Qed.

(** X11: whatever calls the host makes, the draw handlers installed with
    the host are the one [MSCState.handler] records, and no other: never two
    at once, and none once [handler] is [None]. *)
Theorem one_draw_handler_at_most
    (gettext : option string -> string -> string) (import_locale : option string)
    (blf_dimensions : Z -> string -> float) (_ICON_DIR : string)
    (cs : list Callback) (w : World) :
  handler_accounted w ->
  let w' := run gettext import_locale blf_dimensions _ICON_DIR cs w in
  installed (host_log w') = option_list (handler (state w')) /\
  (length (installed (host_log w')) <= 1)%nat.
Proof.
  intros H. cbv zeta.
  assert (H' : handler_accounted (run gettext import_locale blf_dimensions _ICON_DIR cs w)).
  { unfold run. revert w H. induction cs as [|c cs IH]; intros w H; [done|].
    cbn. apply IH. destruct c; cbn.
    - by apply modal_accounted.
    - by apply draw_callback_accounted.
    - by apply toggle_accounted. }
  split; [exact H'|]. rewrite H'. destruct (handler _); cbn; lia.
Qed.

Lemma one_draw_handler_at_most_witness :
  let w' := run (fun _ msg => msg) None (fun _ _ => 0%float) "icons"
              [Toggle view3d_context; Draw view3d_context; Toggle view3d_context;
               Toggle view3d_context]
              idle_world in
  installed (host_log w') = option_list (handler (state w')) /\
  (length (installed (host_log w')) <= 1)%nat.
Proof.
  apply one_draw_handler_at_most. reflexivity.
Defined.

(** ** Dragging *)

Lemma area_is_refl (a : option Area) : area_is a a = true.
Proof. unfold area_is. destruct a; [apply N.eqb_refl|done]. Qed.

(** X12: the left press that grabs the overlay (inside the box, in a 3D
    viewport window with dragging enabled, with Shift if the settings ask for
    it, and while this area is the active one or none is, which
    [limit_one_per_screen] sees to) starts the drag and ends the callback at
    once: no line is added to the history, the pressed buttons are
    forgotten, further button presses are suppressed, the grab offset is
    recorded, and no redraw is requested. *)
Theorem drag_grab_is_not_recorded
    (gettext : option string -> string -> string) (import_locale : option string)
    (context : Context) (event : Event) (w : World) (bx by_ bw bh : Z) :
  running (state w) = true ->
  drag_enable (settings w) = true ->
  _is_view3d_window context = true ->
  ev_type event = "LEFTMOUSE" ->
  ev_value event = "PRESS" ->
  box_rect (state w) = Some (bx, by_, bw, bh) ->
  bx <= mouse_region_x event <= bx + bw ->
  by_ <= mouse_region_y event <= by_ + bh ->
  drag_requires_shift (settings w) = false \/ shift event = true ->
  limit_one_per_screen (settings w) = true \/ active_area (state w) = None
    \/ area_is (active_area (state w)) (ctx_area context) = true ->
  exists w',
    MSC_OT_modal_capture_modal gettext import_locale context event w = ("RUNNING_MODAL", w') /\
    events (state w') = events (state w) /\
    dragging (state w') = true /\
    suppress_buttons_until_mouseup (state w') = true /\
    buttons_down (state w') = ∅ /\
    button_times (state w') = ∅ /\
    drag_dx (state w') = mouse_region_x event - bx /\
    drag_dy (state w') = mouse_region_y event - by_ /\
    settings w' = settings w /\
    host_log w' = host_log w.
Proof.
  destruct event as [t v rep c s a o x y].
  cbn [ev_type ev_value shift mouse_region_x mouse_region_y].
  intros Hrun Hen Hwin -> -> Hbox Hx Hy Hshift Harea.
  unfold MSC_OT_modal_capture_modal. rewrite Hrun. cbn [negb]. unfold _now.
  set (w1 := upd_state _ _).
  assert (H1 : events (state w1) = events (state w) /\ box_rect (state w1) = box_rect (state w)
               /\ active_area (state w1) = active_area (state w)
               /\ settings w1 = settings w /\ host_log w1 = host_log w).
  { subst w1. cbn. rewrite watchdog_events. repeat split.
    - unfold watchdog. generalize (map fst (map_to_list (button_times (state w)))).
      intros ks. generalize (state w). induction ks as [|k ks IH]; intros st; [done|].
      cbn. rewrite IH. unfold release_if_stuck. by repeat case_match.
    - unfold watchdog. generalize (map fst (map_to_list (button_times (state w)))).
      intros ks. generalize (state w). induction ks as [|k ks IH]; intros st; [done|].
      cbn. rewrite IH. unfold release_if_stuck. by repeat case_match. }
  clearbody w1. destruct H1 as (He1 & Hb1 & Ha1 & Hs1 & Hl1).
  unfold modal_after_watchdog.
  set (w2 := modal_follow_area _ _ w1).
  assert (H2 : events (state w2) = events (state w) /\ box_rect (state w2) = box_rect (state w)
               /\ settings w2 = settings w /\ host_log w2 = host_log w
               /\ (active_area (state w2) = None
                   \/ area_is (active_area (state w2)) (ctx_area context) = true)).
  { subst w2. unfold modal_follow_area. rewrite Hs1, Hwin, Ha1.
    cbn [ev_type Py.mem existsb String.eqb Ascii.eqb Bool.eqb orb andb].
    destruct (limit_one_per_screen (settings w)) eqn:Hlim; cbn [andb].
    - destruct (area_is (active_area (state w)) (ctx_area context)) eqn:Hsame; cbn [negb].
      + rewrite Ha1, Hsame. by repeat split; auto.
      + cbn. repeat split; try done. right. apply area_is_refl.
    - rewrite Ha1. repeat split; try done. destruct Harea as [?|[?|?]]; [done|by left|by right]. }
  clearbody w2. destruct H2 as (He2 & Hb2 & Hs2 & Hl2 & Ha2).
  unfold modal_drag. rewrite Hs2, Hen, Hwin, Hb2, Hbox.
  cbn [andb ev_type ev_value shift mouse_region_x mouse_region_y Py.mem existsb
       String.eqb Ascii.eqb Bool.eqb orb _point_in_rect default].
  replace ((bx <=? x) && (x <=? bx + bw) && (by_ <=? y) && (y <=? by_ + bh)) with true
    by (symmetry; rewrite !andb_true_iff, !Z.leb_le; lia).
  replace (negb (drag_requires_shift (settings w)) || s) with true
    by (symmetry; destruct Hshift as [-> | ->]; [done|apply orb_true_r]).
  replace (bool_decide (active_area (state w2) = None)
           || area_is (active_area (state w2)) (ctx_area context)) with true
    by (symmetry; destruct Ha2 as [-> | ->]; [done|apply orb_true_r]).
  cbn [andb]. unfold id. cbv beta iota.
  eexists. split; [reflexivity|]. cbn. by rewrite He2.
Qed.

Lemma drag_grab_is_not_recorded_witness :
  exists w',
    MSC_OT_modal_capture_modal (fun _ msg => msg) None view3d_context
      (mkEvent "LEFTMOUSE" "PRESS" false false true false false 50 60) boxed_world
    = ("RUNNING_MODAL", w') /\
    events (state w') = [] /\
    dragging (state w') = true /\
    suppress_buttons_until_mouseup (state w') = true /\
    buttons_down (state w') = ∅ /\
    button_times (state w') = ∅ /\
    drag_dx (state w') = 40 /\
    drag_dy (state w') = 50 /\
    settings w' = defaults /\
    host_log w' = [].
Proof.
  apply (drag_grab_is_not_recorded (fun _ msg => msg) None view3d_context
           (mkEvent "LEFTMOUSE" "PRESS" false false true false false 50 60)
           boxed_world 10 10 200 100);
    first [reflexivity|cbn; lia|right; reflexivity|left; reflexivity].
Defined.

Lemma setattr_offset_x (s : MSC_Settings) (z : Z) :
  int_in (-4096) 4096 z ->
  let s' := Rna.setattr s "offset_x" (VInt z) in
  offset_x s' = z /\ offset_y s' = offset_y s /\ position s' = position s.
Proof.
  intros H. cbv zeta. unfold Rna.setattr.
  cbn [String.eqb Ascii.eqb Bool.eqb andb].
  unfold assign_property. cbn [offset_x offset_y position].
  unfold IntProperty, EnumProperty, assign. cbn [String.eqb Ascii.eqb Bool.eqb andb].
  by rewrite store_int.
Qed.

Lemma setattr_offset_y (s : MSC_Settings) (z : Z) :
  int_in (-4096) 4096 z ->
  let s' := Rna.setattr s "offset_y" (VInt z) in
  offset_y s' = z /\ offset_x s' = offset_x s /\ position s' = position s.
Proof.
  intros H. cbv zeta. unfold Rna.setattr.
  cbn [String.eqb Ascii.eqb Bool.eqb andb].
  unfold assign_property. cbn [offset_x offset_y position].
  unfold IntProperty, EnumProperty, assign. cbn [String.eqb Ascii.eqb Bool.eqb andb].
  by rewrite store_int.
Qed.

(** X13: while the overlay is dragged in a 3D viewport window, a mouse
    move stores the offsets from which [_resolve_position] places the box,
    whatever the anchor [position] is, where the pointer has taken it: at
    the pointer less the grab offset, kept within the margin.  (The box lies
    within a region of at most 4096 pixels, so that the offsets are within
    the range of their properties.) *)
Theorem drag_move_places_box_at_pointer
    (context : Context) (event : Event) (w : World) (region : Region)
    (bx by_ bw bh : Z) :
  drag_enable (settings w) = true ->
  _is_view3d_window context = true ->
  ctx_region context = Some region ->
  ev_type event = "MOUSEMOVE" ->
  dragging (state w) = true ->
  box_rect (state w) = Some (bx, by_, bw, bh) ->
  let nbx := mouse_region_x event - drag_dx (state w) in
  let nby := mouse_region_y event - drag_dy (state w) in
  0 <= nbx <= width region - bw ->
  0 <= nby <= height region - bh ->
  width region - bw <= 4096 ->
  height region - bh <= 4096 ->
  exists w',
    modal_drag context event w = Continue w' /\
    state w' = state w /\
    _resolve_position (width region) (height region) bw bh (settings w')
    = (Py.imax 10 (Py.imin (width region - bw - 10) nbx),
       Py.imax 10 (Py.imin (height region - bh - 10) nby)).
Proof.
  destruct event as [t v rep c s a o x y]. cbn [ev_type mouse_region_x mouse_region_y].
  intros Hen Hwin Hreg -> Hdrag Hbox Hx Hy Hw Hh.
  set (nbx := x - drag_dx (state w)) in *. set (nby := y - drag_dy (state w)) in *.
  unfold modal_drag. rewrite Hen, Hwin, Hreg. cbn [andb ev_type ev_value Py.mem existsb
    String.eqb Ascii.eqb Bool.eqb orb mouse_region_x mouse_region_y].
  rewrite Hdrag, Hbox. cbn [default].
  unfold id. cbv beta iota. fold nbx nby.
  set (ox := if Py.endswith _ "_LEFT" then _ else _).
  set (oy := if Py.startswith _ "TOP_" then _ else _).
  assert (Hdx : 0 <= (width region - bw) `div` 2 <= width region - bw).
  { split; [apply Z.div_pos|apply Z.div_le_upper_bound]; lia. }
  assert (Hdy : 0 <= (height region - bh) `div` 2 <= height region - bh).
  { split; [apply Z.div_pos|apply Z.div_le_upper_bound]; lia. }
  assert (Hox : int_in (-4096) 4096 ox).
  { subst ox. unfold int_in. repeat case_match; lia. }
  assert (Hoy : int_in (-4096) 4096 oy).
  { subst oy. unfold int_in. repeat case_match; lia. }
  destruct (setattr_offset_x (settings w) ox Hox) as (Hx1 & Hx2 & Hx3).
  set (s1 := Rna.setattr (settings w) "offset_x" (VInt ox)) in *.
  destruct (setattr_offset_y s1 oy Hoy) as (Hy1 & Hy2 & Hy3).
  set (s2 := Rna.setattr s1 "offset_y" (VInt oy)) in *.
  eexists. split; [reflexivity|]. split; [done|].
  unfold _resolve_position. cbn [settings set_settings].
  rewrite Hy1, Hy2, Hy3, Hx1, Hx3. subst ox oy.
  f_equal; f_equal; f_equal; repeat case_match; lia.
Qed.

Lemma drag_move_places_box_at_pointer_witness :
  exists w',
    modal_drag view3d_context
      (mkEvent "MOUSEMOVE" "NOTHING" false false false false false 105 55) dragging_world
    = Continue w' /\
    state w' = state dragging_world /\
    _resolve_position 800 600 200 100 (settings w') = (100, 50).
Proof.
  apply (drag_move_places_box_at_pointer view3d_context
           (mkEvent "MOUSEMOVE" "NOTHING" false false false false false 105 55)
           dragging_world (mkRegion "WINDOW" 800 600) 10 10 200 100);
    first [reflexivity|cbn; lia].
Defined.

(** ** Draw callback *)

(** X14: the draw callback only reads the settings and only prunes the
    history: afterwards the settings are as before, the history is a
    sub-sequence of what it was, the held buttons, the running flag and the
    draw handler are untouched, and the recorded locale is the active one. *)
Theorem draw_callback_only_prunes (blf_dimensions : Z -> string -> float) (_ICON_DIR : string)
    (context : Context) (w : World) :
  let w' := draw_callback_2d blf_dimensions _ICON_DIR context w in
  settings w' = settings w /\
  sublist (events (state w')) (events (state w)) /\
  same_buttons (state w) (state w') /\
  running (state w') = running (state w) /\
  handler (state w') = handler (state w) /\
  current_locale (state w') = _active_locale w.
Proof.
  cbv zeta.
  destruct (draw_callback_state blf_dimensions _ICON_DIR context w)
    as ((Hs & _) & evs & rect & -> & Hsub).
  by repeat split.
Qed.

(** X15: with the overlay limited to one per screen, the first area to
    draw while none is active becomes the active area, and a draw callback
    for any other area then draws nothing and leaves the module state
    alone. *)
Theorem one_overlay_per_screen (blf_dimensions : Z -> string -> float) (_ICON_DIR : string)
    (first other : Context) (w : World) (a : Area) :
  limit_one_per_screen (settings w) = true ->
  active_area (state w) = None ->
  ctx_area first = Some a ->
  area_is (ctx_area other) (Some a) = false ->
  let w1 := draw_callback_2d blf_dimensions _ICON_DIR first w in
  let w2 := draw_callback_2d blf_dimensions _ICON_DIR other w1 in
  active_area (state w1) = Some a /\
  host_log w2 = host_log w1 /\
  state w2 = state w1.
Proof.
  intros Hlim Hnone Hfirst Hother. cbv zeta.
  destruct (draw_callback_state blf_dimensions _ICON_DIR first w)
    as (Hs & evs & rect & Hst & Hsub).
  rewrite Hlim, Hnone, Hfirst in Hst. cbn in Hst.
  set (w1 := draw_callback_2d blf_dimensions _ICON_DIR first w) in *.
  assert (Ha : active_area (state w1) = Some a) by (by rewrite Hst).
  assert (Hl : current_locale (state w1) = _active_locale w1).
  { rewrite (same_prefs_locale _ _ Hs). by rewrite Hst. }
  split; [exact Ha|].
  destruct Hs as (Hs & _).
  clearbody w1. unfold draw_callback_2d.
  rewrite (bool_decide_eq_true_2 _ Hl). cbn [negb].
  rewrite Hs, Hlim, Ha. cbn [andb].
  rewrite (bool_decide_eq_false_2 (Some a = None)) by done.
  rewrite Ha, Hother. by cbn.
Qed.

Lemma one_overlay_per_screen_witness :
  let w1 := draw_callback_2d (fun _ _ => 0%float) "icons" view3d_context idle_world in
  let w2 := draw_callback_2d (fun _ _ => 0%float) "icons" other_view3d_context w1 in
  active_area (state w1) = Some (mkArea 1 "VIEW_3D") /\
  host_log w2 = host_log w1 /\
  state w2 = state w1.
Proof.
  apply one_overlay_per_screen; reflexivity.
Defined.

(** ** Scroll bursts *)




(** ** Measurement *)

Lemma imax_ge_l (a b : Z) : a <= Py.imax a b.
Proof. unfold Py.imax. destruct (Z.ltb_spec a b); lia. Qed.

Lemma imax_ge_r (a b : Z) : b <= Py.imax a b.
Proof. unfold Py.imax. destruct (Z.ltb_spec a b); lia. Qed.

Lemma foldl_imax_bounds (f : string -> Z) (lines : list string) (m : Z) :
  m <= foldl (fun acc tx => Py.imax acc (f tx)) m lines /\
  forall tx, tx ∈ lines -> f tx <= foldl (fun acc tx => Py.imax acc (f tx)) m lines.
Proof.
  revert m. induction lines as [|l ls IH]; intros m; cbn.
  - split; [lia|]. intros tx H. by apply not_elem_of_nil in H.
  - destruct (IH (Py.imax m (f l))) as [Hm Hall]. split.
    + pose proof (imax_ge_l m (f l)). lia.
    + intros tx [->|H]%elem_of_cons; [|by apply Hall].
      pose proof (imax_ge_r m (f l)). lia.
Qed.

(** X17: the events box is measured for every line: its width is at
    least the integer part of the width the font engine gives for each line
    (the code truncates it) plus the padding on both sides, and never less
    than the padding alone; its height counts one row per line and one spare
    row, the padding, and at least 6 pixels at the bottom. *)
Theorem events_box_fits_every_line
    (blf_dimensions : Z -> string -> float) (lines : list string) (s : MSC_Settings) :
  let '(ew, eh, pad, line_h) := _measure_events_box blf_dimensions lines s in
  pad = 6 /\
  2 * pad <= ew /\
  (forall tx, tx ∈ lines ->
     Py.int_of_float (blf_dimensions (font_size s) tx) + 2 * pad <= ew) /\
  (Z.of_nat (length lines) + 1) * line_h + 2 * pad + 6 <= eh.
Proof.
  unfold _measure_events_box.
  destruct (foldl_imax_bounds
              (fun tx => Py.int_of_float (blf_dimensions (font_size s) tx)) lines 0)
    as [H0 Hall].
  split; [done|]. split; [lia|]. split.
  - intros tx Htx. specialize (Hall tx Htx). cbn beta in Hall. lia.
  - pose proof (imax_ge_l 6 (scaled (scaled (font_size s) 1.4) 0.40)). lia.
Qed.

(** ** Anchors, glyph and toggle *)

(** X18: choosing an anchor snaps the box to it: after [position] is
    assigned one of its items, whatever the offsets were, a box that fits
    within the margins is placed against the left margin, centred, or against
    the right margin, and likewise vertically, as the item's name says. *)
Theorem position_change_snaps_to_anchor (rw rh bw bh : Z) (s : MSC_Settings) (p : string) :
  p ∈ position_items ->
  bw <= rw - 20 ->
  bh <= rh - 20 ->
  _resolve_position rw rh bw bh (Rna.setattr s "position" (VStr p))
  = (if Py.endswith p "_LEFT" then 10
     else if Py.endswith p "_CENTER" then (rw - bw) / 2
     else rw - bw - 10,
     if Py.startswith p "TOP_" then rh - bh - 10
     else if Py.startswith p "MIDDLE_" then (rh - bh) / 2
     else 10).
Proof.
  intros Hp Hw Hh. rewrite (setattr_position s p Hp).
  assert (Hs : let s' := _on_position_update (assign_property "position" (VStr p) s) in
               position s' = p /\ offset_x s' = 0 /\ offset_y s' = 0).
  { cbv zeta. unfold _on_position_update, assign_property.
    cbn [position offset_x offset_y]. unfold EnumProperty, IntProperty, assign.
    cbn [String.eqb Ascii.eqb Bool.eqb]. by rewrite (store_enum _ _ Hp). }
  cbv zeta in Hs. destruct Hs as (Hpos & Hx & Hy).
  unfold _resolve_position. rewrite Hpos, Hx, Hy.
  assert (Hdx : 0 <= rw - bw - 20) by lia.
  assert (Hdy : 0 <= rh - bh - 20) by lia.
  assert (H2x : 10 <= (rw - bw) / 2 <= rw - bw - 10).
  { split; [apply Z.div_le_lower_bound|apply Z.div_le_upper_bound]; lia. }
  assert (H2y : 10 <= (rh - bh) / 2 <= rh - bh - 10).
  { split; [apply Z.div_le_lower_bound|apply Z.div_le_upper_bound]; lia. }
  unfold Py.imax, Py.imin.
  f_equal; repeat case_match; lia.
Qed.

Lemma position_change_snaps_to_anchor_witness :
  _resolve_position 800 600 200 100 (Rna.setattr defaults "position" (VStr "TOP_RIGHT"))
  = (590, 490).
Proof.
  apply (position_change_snaps_to_anchor 800 600 200 100 defaults "TOP_RIGHT");
    [unfold position_items; set_solver|lia|lia].
Defined.

(** X19: with the mouse glyph shown and [show_mouse] off, a press or a
    release of the left or right button adds no text of its own (the glyph
    shows it); the release removes the button from [buttons_down], and the
    press adds it, unless presses are suppressed (an overlay drag is under
    way), in which case the press changes nothing. *)
Theorem glyph_replaces_button_text
    (gettext : option string -> string -> string) (import_locale : option string)
    (event : Event) (w : World) :
  Py.mem (ev_type event) _LR_BUTTONS = true ->
  ev_value event = "PRESS" \/ ev_value event = "RELEASE" ->
  is_repeat event = false ->
  show_mouse_glyph (settings w) = true ->
  show_mouse (settings w) = false ->
  let r := _label_from_event gettext import_locale event w in
  fst r = None /\
  events (state (snd r)) = events (state w) /\
  buttons_down (state (snd r))
  = (if String.eqb (ev_value event) "PRESS"
     then if suppress_buttons_until_mouseup (state w)
          then buttons_down (state w)
          else buttons_down (state w) ∪ {[ev_type event]}
     else buttons_down (state w) ∖ {[ev_type event]}).
Proof.
  destruct event as [t v rep c s a o x y]. cbn [ev_type ev_value is_repeat].
  intros Ht Hv -> Hglyph Hmouse. cbv zeta. apply lr_button_cases in Ht.
  unfold _label_from_event, _now. cbn [ev_type ev_value is_repeat].
  rewrite Hglyph, Hmouse.
  destruct (suppress_buttons_until_mouseup (state w)) eqn:Hsup;
    destruct Ht as [-> | ->]; destruct Hv as [-> | ->]; cbn; rewrite ?Hsup; cbn; done.
Qed.

Lemma glyph_replaces_button_text_witness :
  let w := set_settings (Rna.setattr defaults "show_mouse" (VBool false)) running_world in
  let e := mkEvent "LEFTMOUSE" "PRESS" false false false false false 0 0 in
  fst (_label_from_event (fun _ msg => msg) None e w) = None /\
  buttons_down (state (snd (_label_from_event (fun _ msg => msg) None e w))) = {["LEFTMOUSE"]}.
Proof.
  cbv zeta.
  destruct (glyph_replaces_button_text (fun _ msg => msg) None
              (mkEvent "LEFTMOUSE" "PRESS" false false false false false 0 0)
              (set_settings (Rna.setattr defaults "show_mouse" (VBool false)) running_world))
    as (Hl & _ & Hb); [reflexivity|by left|reflexivity..|].
  split; [exact Hl|]. rewrite Hb. cbn. set_solver.
Defined.

(** X20: stopping and starting the overlay does not end a drag: both
    leave [dragging], [suppress_buttons_until_mouseup], the grab offset, the
    recorded box and the settings as they are; so after a stop and a start
    during a drag, presses of the left and right buttons still yield no
    label. *)
Theorem toggle_keeps_drag_state
    (gettext : option string -> string -> string) (import_locale : option string)
    (context : Context) (w : World) :
  let w' := snd (MSC_OT_toggle_execute context w) in
  dragging (state w') = dragging (state w) /\
  suppress_buttons_until_mouseup (state w') = suppress_buttons_until_mouseup (state w) /\
  drag_dx (state w') = drag_dx (state w) /\
  drag_dy (state w') = drag_dy (state w) /\
  box_rect (state w') = box_rect (state w) /\
  settings w' = settings w /\
  (suppress_buttons_until_mouseup (state w) = true ->
   forall event,
     Py.mem (ev_type event) _LR_BUTTONS = true ->
     ev_value event = "PRESS" ->
     fst (_label_from_event gettext import_locale event w') = None).
Proof.
  cbv zeta.
  assert (H : dragging (state (snd (MSC_OT_toggle_execute context w))) = dragging (state w) /\
              suppress_buttons_until_mouseup (state (snd (MSC_OT_toggle_execute context w)))
              = suppress_buttons_until_mouseup (state w) /\
              drag_dx (state (snd (MSC_OT_toggle_execute context w))) = drag_dx (state w) /\
              drag_dy (state (snd (MSC_OT_toggle_execute context w))) = drag_dy (state w) /\
              box_rect (state (snd (MSC_OT_toggle_execute context w))) = box_rect (state w) /\
              settings (snd (MSC_OT_toggle_execute context w)) = settings w).
  { unfold MSC_OT_toggle_execute. cbn [snd]. rewrite tag_view3d_areas_state.
    assert (Hs : forall c w0, settings (tag_view3d_areas c w0) = settings w0).
    { intros c w0. unfold tag_view3d_areas. revert w0.
      induction (ctx_screen_areas c) as [|ar l IH]; intros w0; cbn; [done|].
      rewrite IH. by case_match. }
    rewrite Hs. repeat (case_match; simplify_eq); cbn; done. }
  destruct H as (Hd & Hsup & Hx & Hy & Hb & Hs).
  repeat split; try done.
  intros Hon event Ht Hv.
  rewrite (suppressed_press_none gettext import_locale event _ Ht Hv); [done|].
  by rewrite Hsup.
Qed.

(** X21: when the mouse glyph is drawn beside the events box it is
    drawn once, at its configured size, clear of the box: to the right of
    it by the gap, or, when that would cross the right edge of the region,
    with its right side a gap to the left of the box; and never below the
    bottom of the region. *)
Theorem mouse_glyph_is_clear_of_box
    (evx evy evw evh : Z) (idle_only : bool) (region : Region) (w : World) :
  idle_only && mouse_hide_when_idle (settings w) = false ->
  exists gx gy down wheel_on,
    host_log (_draw_mouse_sidecar_for_events evx evy evw evh idle_only region w)
    = host_log w ++ [draw_mouse_glyph gx gy (mouse_glyph_size (settings w)) down wheel_on] /\
    down = buttons_down (state w) /\
    (gx = evx + evw + mouse_sidecar_gap (settings w) /\
       gx + mouse_glyph_size (settings w) <= width region
     \/ gx + mouse_glyph_size (settings w) = evx - mouse_sidecar_gap (settings w) /\
        width region < evx + evw + mouse_sidecar_gap (settings w) + mouse_glyph_size (settings w)) /\
    0 <= gy.
Proof.
  intros Hidle. unfold _draw_mouse_sidecar_for_events, _now. rewrite Hidle.
  cbn [host host_log set_host_log set_ticks state settings].
  eexists _, _, _, _. split; [reflexivity|]. split; [done|]. split.
  - destruct (Z.ltb_spec (width region)
                (evx + evw + mouse_sidecar_gap (settings w) + mouse_glyph_size (settings w)));
      [right|left]; lia.
  - apply imax_ge_l.
Qed.

Lemma mouse_glyph_is_clear_of_box_witness :
  exists gx gy down wheel_on,
    host_log (_draw_mouse_sidecar_for_events 700 10 90 50 false
                (mkRegion "WINDOW" 800 600) running_world)
    = [draw_mouse_glyph gx gy 46 down wheel_on] /\
    down = ∅ /\
    (gx = 700 + 90 + 14 /\ gx + 46 <= 800
     \/ gx + 46 = 700 - 14 /\ 800 < 700 + 90 + 14 + 46) /\
    0 <= gy.
Proof.
  apply (mouse_glyph_is_clear_of_box 700 10 90 50 false
           (mkRegion "WINDOW" 800 600) running_world).
  reflexivity.
Defined.

(** ** Drawing order and the modal's result *)

Lemma draw_lines_log (size x ty line_h : Z) (color : list float)
    (lines : list string) (w : World) :
  host_log (draw_lines size x ty line_h color lines w)
  = host_log w
    ++ imap (fun i tx => blf_draw size x (ty - Z.of_nat i * line_h) color tx) lines.
Proof.
  revert ty w. induction lines as [|tx rest IH]; intros ty w; cbn [draw_lines imap].
  - by rewrite app_nil_r.
  - rewrite IH. cbn [host host_log set_host_log]. rewrite <- app_assoc. cbn [app].
    f_equal. f_equal; [f_equal; lia|].
    apply imap_ext. intros i tx' _. cbn. f_equal. lia.
Qed.

(** X22: the overlay draws the lines it is given once each and in
    order, from the top of the events box down, one row height apart and
    the padding in from the left of the box; before them it makes at most
    four other drawing calls (the two backgrounds, the icon, the title). *)
Theorem overlay_rows_in_order
    (blf_dimensions : Z -> string -> float) (_ICON_DIR : string)
    (lines : list string) (context : Context) (w : World) (region : Region) :
  ctx_region context = Some region ->
  let s := settings w in
  let '(ev_w, ev_h, epad, line_h) := _measure_events_box blf_dimensions lines s in
  exists bx by_ bw bh brx bry brw brh w' decor,
    _draw_two_box_overlay blf_dimensions _ICON_DIR lines context w
    = (Some (bx, by_, bw, bh, brx, bry, brw, brh), w') /\
    (length decor <= 4)%nat /\
    host_log w'
    = host_log w ++ decor
      ++ imap (fun i tx =>
                 blf_draw (font_size s) (bx + epad)
                   (by_ + ev_h - epad - line_h - Z.of_nat i * line_h) (text_color s) tx)
              lines.
Proof.
  intros Hreg. cbv zeta. unfold _draw_two_box_overlay. rewrite Hreg.
  destruct (_measure_brand_box _ _ _) as [[[[[brand_w brand_h] bpad] title_pre] icon_sz] icon_path].
  destruct (_measure_events_box _ _ _) as [[[ev_w ev_h] epad] line_h].
  destruct (_resolve_position _ _ _ _ _) as [bx by_].
  cbv beta iota zeta.
  do 9 eexists.
  match goal with
  | |- exists decor, (Some ?r, draw_lines ?sz ?x ?ty ?lh ?col ?ls ?w0) = _ /\ _ =>
      assert (Hd : exists decor, (length decor <= 4)%nat /\ host_log w0 = host_log w ++ decor)
  end.
  { destruct (0 <? brand_h); cbn [host host_log set_host_log].
    - destruct (_ && _); destruct (negb _); cbn [host host_log set_host_log];
        rewrite <- ?app_assoc; eexists; (split; [|reflexivity]); cbn; lia.
    - exists [rounded_bg bx by_ (Py.imax brand_w ev_w) ev_h]. split; [cbn; lia|done]. }
  destruct Hd as (decor & Hlen & Hlog).
  exists decor. split; [reflexivity|]. split; [exact Hlen|].
  rewrite draw_lines_log, Hlog, <- app_assoc. done.
Qed.

Lemma overlay_rows_in_order_witness :
  let '(ev_w, ev_h, epad, line_h) :=
    _measure_events_box (fun _ _ => 0%float) ["Ctrl + A"; "Left Click ↓"] defaults in
  exists bx by_ bw bh brx bry brw brh w' decor,
    _draw_two_box_overlay (fun _ _ => 0%float) "icons" ["Ctrl + A"; "Left Click ↓"]
      view3d_context running_world
    = (Some (bx, by_, bw, bh, brx, bry, brw, brh), w') /\
    (length decor <= 4)%nat /\
    host_log w'
    = host_log running_world ++ decor
      ++ imap (fun i tx =>
                 blf_draw (font_size defaults) (bx + epad)
                   (by_ + ev_h - epad - line_h - Z.of_nat i * line_h)
                   (text_color defaults) tx)
              ["Ctrl + A"; "Left Click ↓"].
Proof.
  exact (overlay_rows_in_order (fun _ _ => 0%float) "icons" ["Ctrl + A"; "Left Click ↓"]
           view3d_context running_world (mkRegion "WINDOW" 800 600) eq_refl).
Defined.

Lemma watchdog_dragging (now : float) (st : MSCState) :
  dragging (watchdog now st) = dragging st.
Proof.
  unfold watchdog. generalize (map fst (map_to_list (button_times st))).
  intros ks. revert st. induction ks as [|k ks IH]; intros st; [done|].
  cbn. rewrite IH. unfold release_if_stuck. by repeat case_match.
Qed.

Lemma tag_view3d_areas_settings (context : Context) (w : World) :
  settings (tag_view3d_areas context w) = settings w.
Proof.
  unfold tag_view3d_areas. revert w.
  induction (ctx_screen_areas context) as [|a l IH]; intros w; cbn; [done|].
  rewrite IH. by case_match.
Qed.

Lemma label_from_event_settings
    (gettext : option string -> string -> string) (import_locale : option string)
    (event : Event) (w : World) :
  settings (snd (_label_from_event gettext import_locale event w)) = settings w.
Proof.
  unfold _label_from_event, _handle_scroll_grouping, _bump_wheel_active, _append_event, _now.
  cbn. repeat (case_match; simplify_eq); done.
Qed.

(** What follows the drag block leaves the settings alone. *)
Lemma modal_tail_settings
    (gettext : option string -> string -> string) (import_locale : option string)
    (context : Context) (event : Event) (w : World) :
  settings (modal_redraw context
              (_tick_transform_monitor gettext context
                 (modal_labels gettext import_locale context event w)))
  = settings w.
Proof.
  unfold modal_redraw, _now. cbn.
  assert (H : settings (_tick_transform_monitor gettext context
                          (modal_labels gettext import_locale context event w)) = settings w).
  { assert (H1 : settings (modal_labels gettext import_locale context event w) = settings w).
    { unfold modal_labels. destruct (_ || _); [|done].
      pose proof (label_from_event_settings gettext import_locale event w) as H.
      destruct (_label_from_event _ _ _ _) as [label w1]. cbn [snd] in H.
      by destruct (truthy label). }
    rewrite <- H1.
    unfold _tick_transform_monitor, transform_off, _append_event, _now.
    repeat (case_match; simplify_eq); done. }
  case_match; cbn; [|done]. by rewrite tag_view3d_areas_settings.
Qed.

(** X23: the modal callback writes to the settings only while the
    overlay is dragged: with [dragging] off on entry the settings come out
    as they went in, and in any case they differ at most by an assignment to
    [offset_x] followed by one to [offset_y]. *)
Theorem modal_writes_offsets_only
    (gettext : option string -> string -> string) (import_locale : option string)
    (context : Context) (event : Event) (w : World) :
  let w' := snd (MSC_OT_modal_capture_modal gettext import_locale context event w) in
  (settings w' = settings w \/
   exists ox oy,
     settings w'
     = Rna.setattr (Rna.setattr (settings w) "offset_x" (VInt ox)) "offset_y" (VInt oy)) /\
  (dragging (state w) = false -> settings w' = settings w).
Proof.
  cbv zeta. unfold MSC_OT_modal_capture_modal.
  destruct (negb _); [by split; [left|]|]. unfold _now. cbn [fst snd].
  set (w1 := upd_state _ _).
  assert (H1 : settings w1 = settings w /\ dragging (state w1) = dragging (state w)).
  { subst w1. cbn. by rewrite watchdog_dragging. }
  clearbody w1. destruct H1 as [Hs1 Hd1]. rewrite <- Hs1, <- Hd1.
  unfold modal_after_watchdog.
  set (w2 := modal_follow_area _ _ _).
  assert (H2 : settings w2 = settings w1 /\ dragging (state w2) = dragging (state w1)).
  { subst w2. unfold modal_follow_area. by case_match. }
  clearbody w2. destruct H2 as [Hs2 Hd2]. rewrite <- Hs2, <- Hd2.
  assert (H3 : match modal_drag context event w2 with
               | Return (_, w') => settings w' = settings w2
               | Continue w' =>
                   (settings w' = settings w2 \/
                    exists ox oy,
                      settings w'
                      = Rna.setattr (Rna.setattr (settings w2) "offset_x" (VInt ox))
                          "offset_y" (VInt oy)) /\
                   (dragging (state w2) = false -> settings w' = settings w2)
               end).
  { unfold modal_drag.
    destruct (_ && _); [|by split; [left|]].
    destruct (_ && _); [by destruct (default _ _) as [[[? ?] ?] ?]|].
    set (w2' := if _ && _ then _ else w2).
    assert (H' : settings w2' = settings w2 /\
                 (dragging (state w2) = false -> dragging (state w2') = false)).
    { subst w2'. by destruct (_ && _). }
    clearbody w2'. destruct H' as [Hs' Hd'].
    destruct (Py.mem _ _ && dragging (state w2')) eqn:Hmove.
    - apply andb_true_iff in Hmove as [_ Hdrag].
      destruct (ctx_region context); [|split; [by left|done]].
      destruct (default _ _) as [[[? ?] ?] ?].
      cbn [settings set_settings]. split; [right; eauto|].
      intros Hno. rewrite (Hd' Hno) in Hdrag. done.
    - split; [by left|done]. }
  destruct (modal_drag context event w2) as [[r w3]|w3]; cbn [snd].
  - split; [by left|done].
  - by rewrite modal_tail_settings.
Qed.

Lemma watchdog_box_area (now : float) (st : MSCState) :
  box_rect (watchdog now st) = box_rect st /\
  active_area (watchdog now st) = active_area st.
Proof.
  unfold watchdog. generalize (map fst (map_to_list (button_times st))).
  intros ks. revert st. induction ks as [|k ks IH]; intros st; [done|].
  cbn. destruct (IH (release_if_stuck now st k)) as [-> ->].
  unfold release_if_stuck. by repeat case_match.
Qed.

(** X24: the modal callback cancels the operator, changing nothing, when
    the overlay is not running; it returns RUNNING_MODAL, with the drag
    begun, exactly for the press that grabs the overlay; every other event
    is passed on to the host. *)
Theorem modal_passes_events_through
    (gettext : option string -> string -> string) (import_locale : option string)
    (context : Context) (event : Event) (w : World) :
  let r := MSC_OT_modal_capture_modal gettext import_locale context event w in
  fst r = (if negb (running (state w)) then "CANCELLED"
           else if grabs context event w then "RUNNING_MODAL"
           else "PASS_THROUGH") /\
  (running (state w) = false -> snd r = w) /\
  (running (state w) = true -> grabs context event w = true ->
   dragging (state (snd r)) = true).
Proof.
  cbv zeta. unfold MSC_OT_modal_capture_modal.
  destruct (running (state w)) eqn:Hrun; cbn [negb]; [|by repeat split].
  unfold _now. cbv beta iota. unfold modal_after_watchdog.
  set (w1 := upd_state _ _).
  assert (H1 : settings w1 = settings w /\ box_rect (state w1) = box_rect (state w) /\
               active_area (state w1) = active_area (state w)).
  { subst w1. cbn. by destruct (watchdog_box_area (clock w (ticks w)) (state w)) as [-> ->]. }
  clearbody w1. destruct H1 as (Hs1 & Hb1 & Ha1).
  unfold grabs. rewrite <- Hs1, <- Hb1, <- Ha1. clear Hs1 Hb1 Ha1 Hrun.
  set (w2 := modal_follow_area context event w1).
  assert (H2 : settings w2 = settings w1 /\ box_rect (state w2) = box_rect (state w1) /\
               (_is_view3d_window context = true ->
                Py.mem (ev_type event) ["LEFTMOUSE"; "EVT_TWEAK_L"] = true ->
                bool_decide (active_area (state w2) = None)
                || area_is (active_area (state w2)) (ctx_area context)
                = limit_one_per_screen (settings w1)
                  || bool_decide (active_area (state w1) = None)
                  || area_is (active_area (state w1)) (ctx_area context))).
  { subst w2. unfold modal_follow_area.
    split; [by case_match|]. split; [by case_match|].
    intros Hwin Hleft. rewrite Hwin.
    assert (Hlist : Py.mem (ev_type event)
              ["MOUSEMOVE"; "LEFTMOUSE"; "RIGHTMOUSE"; "MIDDLEMOUSE";
               "EVT_TWEAK_L"; "EVT_TWEAK_R"] = true).
    { apply mem_true. apply mem_true in Hleft. set_solver. }
    rewrite Hlist.
    destruct (limit_one_per_screen (settings w1)); cbn [andb orb]; [|done].
    destruct (area_is (active_area (state w1)) (ctx_area context)) eqn:Harea; cbn [negb].
    - rewrite Harea. apply orb_true_r.
    - cbn. rewrite area_is_refl. apply orb_true_r. }
  clearbody w2. destruct H2 as (Hs2 & Hb2 & Ha2).
  unfold modal_drag. rewrite Hs2, Hb2.
  destruct (drag_enable (settings w1)); cbn [andb]; [|by repeat split].
  destruct (_is_view3d_window context) eqn:Hwin; cbn [andb]; [|by repeat split].
  destruct (Py.mem (ev_type event) ["LEFTMOUSE"; "EVT_TWEAK_L"]) eqn:Hleft; cbn [andb].
  - rewrite <- (Ha2 eq_refl eq_refl).
    destruct (_ && _ && _ && _).
    + destruct (default _ _) as [[[? ?] ?] ?]. by repeat split.
    + split; [|by split]. repeat case_match; done.
  - split; [|by split]. repeat case_match; done.
Qed.

(** ** Bundled icons *)

Lemma dict_get_elem (d : list (string * string)) (k v : string) :
  dict_get d k = Some v -> v ∈ map snd d.
Proof.
  induction d as [|[k' v'] d IH]; cbn; [done|].
  destruct (String.eqb k k'); [intros [= ->]; by left|].
  intros H. right. by apply IH.
Qed.

(** X25: for an ASCII name, [builtin_icon_path] returns the path of one
    of the bundled icon files, joined to the icon directory: the Beacon for
    the empty name and for a name whose upper-cased form is not in the
    table, and for each identifier of the enum [title_builtin_icon] the file
    the table gives for it (none of them falls back to the Beacon). *)
Theorem builtin_icon_path_is_bundled (_ICON_DIR : string) (name : string) :
  is_ascii name = true ->
  (exists file,
     file ∈ map snd _BUILTIN_ICON_FILES /\
     builtin_icon_path _ICON_DIR name = path_join _ICON_DIR file) /\
  (name = "" ->
   builtin_icon_path _ICON_DIR name = path_join _ICON_DIR "MCT_Beacon_512.png") /\
  (name <> "" ->
   dict_get _BUILTIN_ICON_FILES (Py.str_map Py.to_upper name) = None ->
   builtin_icon_path _ICON_DIR name = path_join _ICON_DIR "MCT_Beacon_512.png") /\
  (name ∈ title_builtin_icon_items ->
   exists file,
     dict_get _BUILTIN_ICON_FILES name = Some file /\
     builtin_icon_path _ICON_DIR name = path_join _ICON_DIR file).
Proof.
  intros _. repeat split.
  - unfold builtin_icon_path.
    destruct (dict_get _BUILTIN_ICON_FILES _) as [file|] eqn:Hget; cbn [default].
    + exists file. split; [by eapply dict_get_elem|done].
    + exists "MCT_Beacon_512.png". split; [by left|done].
  - by intros ->.
  - intros Hne Hget. unfold builtin_icon_path.
    destruct (String.eqb_spec name ""); [done|]. by rewrite Hget.
  - intros Hin. unfold title_builtin_icon_items in Hin. unfold builtin_icon_path.
    repeat (apply elem_of_cons in Hin as [->|Hin]; [eexists; split; reflexivity|]).
    by apply not_elem_of_nil in Hin.
Qed.

Lemma builtin_icon_path_is_bundled_witness :
  builtin_icon_path "icons" "" = "icons/MCT_Beacon_512.png" /\
  builtin_icon_path "icons" "no such icon" = "icons/MCT_Beacon_512.png" /\
  exists file,
    dict_get _BUILTIN_ICON_FILES "PULSE" = Some file /\
    builtin_icon_path "icons" "PULSE" = path_join "icons" file.
Proof.
  split; [|split].
  - exact (proj1 (proj2 (builtin_icon_path_is_bundled "icons" "" eq_refl)) eq_refl).
  - apply (proj1 (proj2 (proj2 (builtin_icon_path_is_bundled "icons" "no such icon" eq_refl))));
      [discriminate|reflexivity].
  - apply (proj2 (proj2 (proj2 (builtin_icon_path_is_bundled "icons" "PULSE" eq_refl)))).
    unfold title_builtin_icon_items. set_solver.
Defined.

(** ** Colours and ranges of presets *)

Lemma ltb_leb (x y : float) : (x <? y)%float = true -> (x <=? y)%float = true.
Proof.
  pose proof (float_compare_cases x y) as H.
  destruct (SFcompare _ _) as [[]|]; destruct H as (?&?&?&?&?&?); congruence.
Qed.

Lemma ltb_asym (x y : float) : (x <? y)%float = true -> (y <? x)%float = false.
Proof.
  pose proof (float_compare_cases x y) as H.
  destruct (SFcompare _ _) as [[]|]; destruct H as (?&?&?&?&?&?); congruence.
Qed.

Lemma prim_one : Prim2SF 1 = S754_finite false 4503599627370496 (-52).
Proof. vm_compute. reflexivity. Qed.

Lemma prim_zero : Prim2SF 0 = S754_zero false.
Proof. vm_compute. reflexivity. Qed.

Lemma ltb_zero_one (x : float) : (x <? 0)%float = true -> (x <? 1)%float = true.
Proof.
  rewrite !FloatAxioms.ltb_spec. unfold SFltb. rewrite prim_one, prim_zero.
  destruct (Prim2SF x) as [s|s| |s m e]; try destruct s; unfold SFcompare; try done.
Qed.

Lemma clamp01_range (x : float) : float_in 0 1 (clamp01 x).
Proof.
  unfold clamp01, Py.fmax, Py.fmin, float_in.
  destruct (x <? 1)%float eqn:H1.
  - destruct (0 <? x)%float eqn:H0; [|done].
    split; by apply ltb_leb.
  - done.
Qed.

Lemma clamp01_below (x : float) : (x <? 0)%float = true -> clamp01 x = 0%float.
Proof.
  intros H. unfold clamp01, Py.fmax, Py.fmin.
  by rewrite (ltb_zero_one x H), (ltb_asym x 0 H).
Qed.

Lemma clamp01_above (x : float) : (1 <? x)%float = true -> clamp01 x = 1%float.
Proof.
  intros H. unfold clamp01, Py.fmax, Py.fmin. by rewrite (ltb_asym 1 x H).
Qed.

Lemma clamp01_within (x : float) : float_in 0 1 x -> same_float (clamp01 x) x.
Proof.
  intros [H0 H1]. unfold clamp01, Py.fmax, Py.fmin, same_float.
  destruct (x <? 1)%float eqn:Hlt1.
  - destruct (0 <? x)%float eqn:Hlt0.
    + exact (leb_eqb_refl_r 0 x H0).
    + exact (proj1 (leb_not_ltb_eqb 0 x H0 Hlt0)).
  - change (0 <? 1)%float with true. cbv iota.
    exact (proj2 (leb_not_ltb_eqb x 1 H1 Hlt1)).
Qed.

(** X26: [_clamp_color_tuple] clamps what it can read as a sequence of
    numbers and returns anything else untouched.  When the value iterates
    into elements that [float] converts, the result is the sequence of the
    converted numbers, each replaced by 0 when it is below 0, by 1 when it
    is above 1 (or a NaN), and by an equal number when it lies within
    [0, 1]; every component of the result lies within [0, 1].  When the
    value cannot be iterated, or an element is not converted, the result is
    the value itself. *)
Theorem clamp_color_tuple_in_unit_range (float_of_str : string -> option float) (v : value) :
  (forall elems cs,
     iterate v = Some elems ->
     mapM (py_float float_of_str) elems = Some cs ->
     exists rs,
       _clamp_color_tuple float_of_str v = color rs /\
       Forall2 (fun c r =>
                  float_in 0 1 r /\
                  ((c <? 0)%float = true -> r = 0%float) /\
                  ((1 <? c)%float = true -> r = 1%float) /\
                  ((c =? c)%float = false -> r = 1%float) /\
                  (float_in 0 1 c -> same_float r c))
               cs rs) /\
  (iterate v = None -> _clamp_color_tuple float_of_str v = v) /\
  (forall elems,
     iterate v = Some elems ->
     mapM (py_float float_of_str) elems = None ->
     _clamp_color_tuple float_of_str v = v).
Proof.
  unfold _clamp_color_tuple. repeat split.
  - intros elems cs -> Hcs. cbn [mbind option_bind]. rewrite Hcs.
    exists (map clamp01 cs). split; [unfold color; by rewrite map_map|].
    clear. induction cs as [|c cs IH]; cbn; constructor; [|done].
    split; [apply clamp01_range|]. split; [apply clamp01_below|].
    split; [apply clamp01_above|]. split; [|apply clamp01_within].
    intros Hnan. unfold clamp01, Py.fmax, Py.fmin.
    replace (c <? 1)%float with false; [done|].
    symmetry. apply not_true_is_false. intros Hlt.
    pose proof (leb_eqb_refl_l c 1 (ltb_leb c 1 Hlt)). congruence.
  - by intros ->.
  - intros elems -> Hnone. cbn [mbind option_bind]. by rewrite Hnone.
Qed.

Lemma clamp_color_tuple_in_unit_range_witness :
  _clamp_color_tuple (fun _ => None) (VSeq [VInt 2; VFloat (-1); VFloat 0.5; VFloat nan])
  = color [1; 0; 0.5; 1]%float /\
  _clamp_color_tuple (fun _ => None) (VSeq [VInt 2; VNone]) = VSeq [VInt 2; VNone].
Proof.
  split; [reflexivity|].
  exact (proj2 (proj2 (clamp_color_tuple_in_unit_range (fun _ => None) (VSeq [VInt 2; VNone])))
           [VInt 2; VNone] eq_refl eq_refl).
Defined.

Lemma defaults_ranges : ranges_respected defaults.
Proof.
  unfold ranges_respected, int_in, color_in, float_in. cbn.
  repeat split; try lia; try reflexivity;
    try (apply bool_decide_unpack; reflexivity);
    repeat constructor.
Qed.

Lemma int_property_range (k : string) (v : value) (name : string) (lo hi old : Z) :
  lo <= hi -> int_in lo hi old -> int_in lo hi (IntProperty k v name lo hi old).
Proof.
  intros Hle Hold. unfold IntProperty, assign. destruct (String.eqb k name); [|done].
  destruct (to_int v) as [z|]; [|done]. cbn. unfold clamp_int, int_in.
  destruct (Z.ltb_spec z lo); [lia|]. destruct (Z.ltb_spec hi z); lia.
Qed.

Lemma enum_property_range (k : string) (v : value) (name : string)
    (items : list string) (old : string) :
  old ∈ items -> EnumProperty k v name items old ∈ items.
Proof.
  intros Hold. unfold EnumProperty, assign. destruct (String.eqb k name); [|done].
  unfold to_enum. destruct v; try done. by case_bool_decide.
Qed.

Lemma clamp_float_unit (c : float) : float_in 0 1 c -> clamp_float 0 1 c = c.
Proof.
  intros [H0 H1]. unfold clamp_float.
  by rewrite (leb_not_gtb 0 c H0), (leb_not_gtb c 1 H1).
Qed.

Lemma color_property_range (k : string) (v : value) (name : string) (old : list float) :
  (String.eqb k name = true -> safe_color v) ->
  color_in old -> color_in (FloatVectorProperty k v name 4 0 1 old).
Proof.
  intros Hsafe Hold. unfold FloatVectorProperty, assign.
  destruct (String.eqb k name); [|done]. specialize (Hsafe eq_refl).
  destruct (to_floats 4 v) as [cs|] eqn:Hcs; [|done]. cbn.
  specialize (Hsafe cs Hcs). split.
  - rewrite length_map. unfold to_floats in Hcs. destruct v; try done.
    destruct (length l =? 4)%nat eqn:Hl; [|done]. apply Nat.eqb_eq in Hl.
    apply length_mapM in Hcs. congruence.
  - apply List.Forall_map. eapply Forall_impl; [exact Hsafe|].
    intros c Hc. cbn. by rewrite clamp_float_unit.
Qed.

Lemma assign_property_ranges (k : string) (v : value) (s : MSC_Settings) :
  (Py.mem k color_keys = true -> safe_color v) ->
  ranges_respected s -> ranges_respected (assign_property k v s).
Proof.
  intros Hsafe H. unfold ranges_respected in *.
  destruct H as (?&?&?&?&?&?&?&?&?&?&?&?&?&?&?&?&?&?).
  unfold assign_property.
  cbn [title_icon_mode title_builtin_icon position title_icon_size title_icon_pad
       title_font_size font_size corner_radius offset_x offset_y history_count
       mouse_glyph_size mouse_sidecar_gap mouse_outline_shade title_text_color bg_color
       text_color mouse_body_color].
  repeat split;
    first [ by apply enum_property_range
          | by apply int_property_range
          | apply color_property_range; [|done];
            intros Hk; apply String.eqb_eq in Hk; subst k; by apply Hsafe ].
Qed.

Lemma setattr_ranges (k : string) (v : value) (s : MSC_Settings) :
  (Py.mem k color_keys = true -> safe_color v) ->
  ranges_respected s -> ranges_respected (Rna.setattr s k v).
Proof.
  intros Hsafe H. unfold Rna.setattr.
  pose proof (assign_property_ranges k v s Hsafe H) as H1.
  destruct (_ && _); [|done].
  unfold _on_position_update. by repeat apply assign_property_ranges.
Qed.

Lemma to_float_py_float (float_of_str : string -> option float) (l : list value)
    (cs : list float) :
  mapM to_float l = Some cs -> mapM (py_float float_of_str) l = Some cs.
Proof.
  revert cs. induction l as [|x l IH]; intros cs; cbn; [done|].
  destruct (to_float x) as [f|] eqn:Hx; [|done]. cbn.
  destruct (mapM to_float l) as [fs|]; [|done]. cbn. intros [= <-].
  rewrite (IH fs eq_refl).
  replace (py_float float_of_str x) with (Some f); [done|].
  destruct x; cbn in *; done.
Qed.

Lemma clamp_color_tuple_safe (float_of_str : string -> option float) (v : value) :
  safe_color (_clamp_color_tuple float_of_str v).
Proof.
  intros cs. unfold _clamp_color_tuple.
  destruct (iterate v ≫= mapM (py_float float_of_str)) as [cs0|] eqn:Hit.
  - unfold to_floats. rewrite length_map. destruct (_ =? _)%nat; [|done].
    change (map (fun c => VFloat (clamp01 c)) cs0) with (map VFloat (map clamp01 cs0))
      || rewrite <- (map_map clamp01 VFloat).
    rewrite mapM_to_float_floats. intros [= <-].
    apply List.Forall_map, Forall_true, clamp01_range.
  - unfold to_floats. destruct v; try done.
    destruct (_ =? _)%nat; [|done]. intros Hcs.
    apply (to_float_py_float float_of_str) in Hcs. cbn in Hit. congruence.
Qed.

(** X27: applying a preset dict, whatever it holds, to a settings object
    whose enum, integer and colour properties are within their declared
    ranges leaves them within these ranges (the dict has no [active_preset]
    entry, as the dicts [_settings_to_dict] writes). *)
Theorem apply_settings_respects_ranges
    (float_of_str : string -> option float)
    (assign_active_preset : value -> MSC_Settings -> MSC_Settings)
    (s : MSC_Settings) (data : list (string * value)) :
  ranges_respected s ->
  "active_preset" ∉ map fst data ->
  ranges_respected (_apply_settings_from_dict float_of_str assign_active_preset s data).
Proof.
  unfold _apply_settings_from_dict. revert s.
  induction data as [|[k v] data IH]; intros s Hs Hkeys; [done|].
  cbn [foldl]. cbn [map fst] in Hkeys. apply not_elem_of_cons in Hkeys as [Hk Hkeys].
  apply IH; [|done].
  destruct (hasattr k); [|done].
  unfold Presets.setattr.
  destruct (String.eqb_spec k "active_preset") as [->|_]; [done|].
  apply setattr_ranges; [|done].
  intros Hc. rewrite Hc. apply clamp_color_tuple_safe.
Qed.

Lemma apply_settings_respects_ranges_witness :
  ranges_respected
    (_apply_settings_from_dict (fun _ => None) (fun _ s => s) defaults hostile_preset).
Proof.
  apply apply_settings_respects_ranges; [apply defaults_ranges|].
  cbn. intros H. repeat (apply elem_of_cons in H as [H|H]; [discriminate|]).
  by apply not_elem_of_nil in H.
Defined.

(** ** Preset contents and names *)

Lemma apply_settings_keeps_limit
    (float_of_str : string -> option float)
    (assign_active_preset : value -> MSC_Settings -> MSC_Settings)
    (s : MSC_Settings) (data : list (string * value)) :
  "limit_one_per_screen" ∉ map fst data ->
  "active_preset" ∉ map fst data ->
  limit_one_per_screen (_apply_settings_from_dict float_of_str assign_active_preset s data)
  = limit_one_per_screen s.
Proof.
  unfold _apply_settings_from_dict. revert s.
  induction data as [|[k v] data IH]; intros s Hl Ha; [done|].
  cbn [foldl]. cbn [map fst] in Hl, Ha.
  apply not_elem_of_cons in Hl as [Hl Hl'], Ha as [Ha Ha'].
  rewrite IH by done.
  destruct (hasattr k); [|done].
  unfold Presets.setattr.
  destruct (String.eqb_spec k "active_preset") as [->|_]; [done|].
  assert (Hassign : forall k' v' s', k' <> "limit_one_per_screen" ->
            limit_one_per_screen (assign_property k' v' s') = limit_one_per_screen s').
  { intros k' v' s' Hk'. unfold assign_property. cbn [limit_one_per_screen].
    unfold BoolProperty, assign. by destruct (String.eqb_spec k' "limit_one_per_screen"). }
  unfold Rna.setattr, _on_position_update.
  destruct (_ && _); rewrite !Hassign; done.
Qed.

(** X28: a preset does not carry [limit_one_per_screen]: applying the
    dict written from any settings object [s] to a settings object [s2]
    leaves [limit_one_per_screen] of [s2] as it was. *)
Theorem preset_leaves_overlay_limit
    (float_of_str : string -> option float)
    (assign_active_preset : value -> MSC_Settings -> MSC_Settings)
    (s s2 : MSC_Settings) :
  limit_one_per_screen
    (_apply_settings_from_dict float_of_str assign_active_preset s2 (_settings_to_dict s))
  = limit_one_per_screen s2.
Proof.
  apply apply_settings_keeps_limit; cbn [map fst _settings_to_dict];
    intros H; repeat (apply elem_of_cons in H as [H|H]; [discriminate|]);
    by apply not_elem_of_nil in H.
Qed.

Lemma xid_not_space (unicode_space unicode_xid_start unicode_xid_continue : N -> bool) (c : N) :
  (forall c, unicode_space c = true ->
     unicode_xid_start c = false /\ unicode_xid_continue c = false) ->
  xid_start unicode_xid_start c || (c =? 95)%N || xid_continue unicode_xid_continue c = true ->
  isspace unicode_space c = false /\ c <> 32%N.
Proof.
  intros Hdisjoint.
  unfold xid_start, xid_continue, isspace, is_letter.
  destruct (N.ltb_spec c 128) as [Hlt|Hge].
  - intros H. split.
    + apply not_true_is_false. intros Hs. revert H.
      rewrite !orb_true_iff, !andb_true_iff, !N.leb_le in Hs.
      rewrite !orb_true_iff, !andb_true_iff, !N.leb_le, !N.eqb_eq. lia.
    + intros ->. discriminate H.
  - intros H. split; [|lia].
    destruct (unicode_space c) eqn:Hs; [|done].
    destruct (Hdisjoint c Hs) as [H1 H2]. rewrite H1, H2 in H.
    apply orb_true_iff in H as [H|H]; [|done].
    apply orb_true_iff in H as [H|H]; [done|]. apply N.eqb_eq in H. lia.
Qed.

Lemma lstrip_id (unicode_space : N -> bool) (c : N) (name : ustr) :
  isspace unicode_space c = false -> lstrip unicode_space (c :: name) = c :: name.
Proof. intros H. cbn. by rewrite H. Qed.

Lemma identifier_fixed (unicode_space unicode_xid_start unicode_xid_continue : N -> bool)
    (name : ustr) :
  (forall c, unicode_space c = true ->
     unicode_xid_start c = false /\ unicode_xid_continue c = false) ->
  isidentifier unicode_xid_start unicode_xid_continue name = true ->
  strip unicode_space name = name /\
  map (fun c => if (c =? 32)%N then 95%N else c) name = name.
Proof.
  intros Hdisjoint.
  unfold isidentifier. destruct name as [|c rest]; [done|].
  intros [Hc Hrest]%andb_true_iff.
  assert (Hall : Forall (fun c => isspace unicode_space c = false /\ c <> 32%N) (c :: rest)).
  { constructor.
    - apply (xid_not_space unicode_space unicode_xid_start unicode_xid_continue c Hdisjoint).
      by rewrite Hc.
    - rewrite forallb_forall in Hrest. apply Forall_forall. intros d Hd.
      apply (xid_not_space unicode_space unicode_xid_start unicode_xid_continue d Hdisjoint).
      rewrite (Hrest d) by (by apply list_elem_of_In). apply orb_true_r. }
  split.
  - unfold strip. apply Forall_cons in Hall as Hall'. destruct Hall' as [[Hc1 _] _].
    rewrite (lstrip_id unicode_space c rest Hc1).
    destruct (reverse (c :: rest)) as [|d before] eqn:E.
    { apply (f_equal length) in E. rewrite length_reverse in E. done. }
    assert (Hd : isspace unicode_space d = false).
    { assert (Hin : d ∈ c :: rest).
      { apply elem_of_reverse. rewrite E. by left. }
      rewrite Forall_forall in Hall. by destruct (Hall d Hin). }
    rewrite (lstrip_id unicode_space d before Hd), <- E. apply reverse_involutive.
  - clear Hc Hrest. induction Hall as [|d l [_ Hd] _ IH]; cbn; [done|].
    rewrite IH. by destruct (N.eqb_spec d 32).
Qed.

(** X29: the names [_sanitize_name] returns are its fixed points:
    sanitizing a returned name gives it back, so a preset can be saved again
    under the name it was accepted with.  (No code point is both white space
    and an identifier character, as in Unicode.) *)
Theorem sanitize_name_idempotent
    (unicode_space unicode_xid_start unicode_xid_continue : N -> bool)
    (name_raw : ustr) :
  (forall c, unicode_space c = true ->
     unicode_xid_start c = false /\ unicode_xid_continue c = false) ->
  let sanitize := _sanitize_name unicode_space unicode_xid_start unicode_xid_continue in
  sanitize (sanitize name_raw) = sanitize name_raw.
Proof.
  intros Hdisjoint. cbv zeta.
  set (r := _sanitize_name _ _ _ name_raw).
  assert (Hr : r = [] \/ (isidentifier unicode_xid_start unicode_xid_continue r = true
                          /\ r <> Default)).
  { subst r. unfold _sanitize_name, ustr_eqb.
    case_bool_decide; [by left|]. case_bool_decide as Hdef; [by left|].
    destruct (isidentifier _ _ _) eqn:Hid; cbn [negb]; [right|by left].
    split; [done|]. intros E. apply Hdef. apply underscore_spaces_inv in E; [done|].
    unfold Default. cbn. repeat constructor; done. }
  clearbody r. destruct Hr as [->|[Hid Hdef]]; [done|].
  destruct (identifier_fixed unicode_space unicode_xid_start unicode_xid_continue
              r Hdisjoint Hid) as [Hstrip Hmap].
  unfold _sanitize_name, ustr_eqb. rewrite Hstrip.
  case_bool_decide as He; [by subst r|].
  rewrite (bool_decide_eq_false_2 _ Hdef). by rewrite Hmap, Hid.
Qed.

Lemma sanitize_name_idempotent_witness :
  let quiet := fun _ : N => false in
  _sanitize_name quiet quiet quiet
    (_sanitize_name quiet quiet quiet (of_ascii_string "  my preset "))
  = _sanitize_name quiet quiet quiet (of_ascii_string "  my preset ").
Proof.
  apply (sanitize_name_idempotent (fun _ => false) (fun _ => false) (fun _ => false)).
  intros c Hc. discriminate Hc.
Defined.
